(** * Trend analyzer: indicator engine, classifiers and weighted scorer

    A shallow embedding of [src/stock_analyzer.py] (the enumerations, the
    [TrendAnalysisResult] dataclass and the [StockTrendAnalyzer] class)
    together with the properties stated about it.

    Numbers.  A Python/NumPy float is modelled by [fl]: an exact rational or
    one of the three IEEE special values.  Arithmetic is exact inside the
    range of the doubles (rounding and the sign of zero are not represented)
    and a result beyond that range overflows to an infinity; results are
    kept in lowest terms.  The special values follow the IEEE rules that the
    source relies on (a comparison with NaN is false, x/0 is an infinity or
    NaN, ...).

    Frames.  A pandas DataFrame is a mutable object: the store maps object
    identities to frames, [copy] and [sort_values] allocate, and item
    assignment updates the object in place. *)

From Stdlib Require Import ZArith QArith Qabs Qminmax Qround Lqa Lia.
From stdpp Require Import base option list strings pretty gmap.

Local Open Scope Z_scope.

(* ===================================================================== *)
(** ** Floating-point values *)
(* ===================================================================== *)

Inductive fl : Type :=
  | Fin (q : Q)
  | PInf
  | NInf
  | NaN.

Definition F (z : Z) : fl := Fin (inject_Z z).

Definition Qltb (x y : Q) : bool := negb (Qle_bool y x).

Definition is_nan (x : fl) : bool :=
  match x with NaN => true | _ => false end.

Definition finite (x : fl) : Prop :=
  match x with Fin _ => True | _ => False end.

Definition fneg (x : fl) : fl :=
  match x with
  | Fin q => Fin (- q)
  | PInf => NInf
  | NInf => PInf
  | NaN => NaN
  end.

Definition fabs (x : fl) : fl :=
  match x with
  | Fin q => Fin (Qabs q)
  | PInf | NInf => PInf
  | NaN => NaN
  end.

(** The largest double, and the magnitude from which a result rounds to an
    infinity: half a unit in the last place above the largest double. *)
Definition DBL_MAX_Z : Z := Eval vm_compute in 2 ^ 1024 - 2 ^ 971.
Definition OVERFLOW_Z : Z := Eval vm_compute in 2 ^ 1024 - 2 ^ 970.
Definition DBL_MAX : Q := inject_Z DBL_MAX_Z.
Definition OVERFLOW : Q := inject_Z OVERFLOW_Z.

(** The float for the exact result [q] of an operation. *)
Definition fl_of_Q (q : Q) : fl :=
  if Qle_bool OVERFLOW q then PInf
  else if Qle_bool q (- OVERFLOW) then NInf
  else Fin (Qred q).

Definition fadd (x y : fl) : fl :=
  match x, y with
  | NaN, _ | _, NaN => NaN
  | Fin a, Fin b => fl_of_Q (a + b)
  | PInf, NInf | NInf, PInf => NaN
  | PInf, _ | _, PInf => PInf
  | NInf, _ | _, NInf => NInf
  end.

Definition fsub (x y : fl) : fl := fadd x (fneg y).

(** The infinity whose sign is the sign of [q]; NaN for [q = 0]. *)
Definition inf_signed (q : Q) : fl :=
  if Qltb 0 q then PInf else if Qltb q 0 then NInf else NaN.

Definition fmul (x y : fl) : fl :=
  match x, y with
  | NaN, _ | _, NaN => NaN
  | Fin a, Fin b => fl_of_Q (a * b)
  | PInf, Fin q | Fin q, PInf => inf_signed q
  | NInf, Fin q | Fin q, NInf => inf_signed (- q)
  | PInf, PInf | NInf, NInf => PInf
  | PInf, NInf | NInf, PInf => NInf
  end.

(** NumPy division: a zero divisor gives an infinity or NaN, it never
    raises. *)
Definition fdiv (x y : fl) : fl :=
  match x, y with
  | NaN, _ | _, NaN => NaN
  | Fin a, Fin b => if Qeq_bool b 0 then inf_signed a else fl_of_Q (a / b)
  | Fin _, (PInf | NInf) => Fin 0
  | PInf, Fin b => if Qltb b 0 then NInf else PInf
  | NInf, Fin b => if Qltb b 0 then PInf else NInf
  | (PInf | NInf), (PInf | NInf) => NaN
  end.

Definition fltb (x y : fl) : bool :=
  match x, y with
  | NaN, _ | _, NaN => false
  | Fin a, Fin b => Qltb a b
  | NInf, (Fin _ | PInf) => true
  | Fin _, PInf => true
  | _, _ => false
  end.

Definition fleb (x y : fl) : bool :=
  match x, y with
  | NaN, _ | _, NaN => false
  | Fin a, Fin b => Qle_bool a b
  | NInf, _ => true
  | _, PInf => true
  | _, _ => false
  end.

Definition fgtb (x y : fl) : bool := fltb y x.
Definition fgeb (x y : fl) : bool := fleb y x.

Definition feqb (x y : fl) : bool :=
  match x, y with
  | Fin a, Fin b => Qeq_bool a b
  | PInf, PInf | NInf, NInf => true
  | _, _ => false
  end.

(** Square root of a rational, taken on the grid of multiples of [2^-52]
    (the exact root rounded down); the root of a non-positive number is 0. *)
Definition Qsqrt (q : Q) : Q :=
  Z.sqrt (Qfloor (q * inject_Z (2 ^ 104))) # (2 ^ 52).

Declare Scope fl_scope.
Delimit Scope fl_scope with fl.
Bind Scope fl_scope with fl.
Infix "+" := fadd : fl_scope.
Infix "-" := fsub : fl_scope.
Infix "*" := fmul : fl_scope.
Infix "/" := fdiv : fl_scope.
Notation "- x" := (fneg x) : fl_scope.
Infix "<?" := fltb : fl_scope.
Infix "<=?" := fleb : fl_scope.
Infix ">?" := fgtb : fl_scope.
Infix ">=?" := fgeb : fl_scope.
Infix "=?" := feqb : fl_scope.

(* ===================================================================== *)
(** ** pandas Series operations *)
(* ===================================================================== *)

Abbreviation column := (list fl).

(** Positional read; outside the column the value is missing. *)
Definition at_pos (c : column) (i : nat) : fl := default NaN (c !! i).

Definition Qsum (xs : list Q) : Q := foldr Qplus 0%Q xs.

Definition Qmean (xs : list Q) : Q :=
  (Qsum xs / inject_Z (Z.of_nat (length xs)))%Q.

(** Sample standard deviation (pandas' default, [ddof = 1]); a sum of
    squared deviations beyond the range of the doubles gives an infinity. *)
Definition std_agg (xs : list Q) : fl :=
  let m := Qmean xs in
  let ss := Qsum ((fun x => (x - m) * (x - m))%Q <$> xs) in
  match (length xs - 1)%nat with
  | O => NaN
  | S _ as d =>
      if Qle_bool OVERFLOW ss then PInf
      else Fin (Qred (Qsqrt (ss / inject_Z (Z.of_nat d))))
  end.

(** One step of the compensated summation of pandas' rolling mean, on the
    running sum and its compensation.  While the sum stays in range the
    compensation is 0 and the sum exact; once it overflows the compensation
    is an infinity and the next step leaves NaN. *)
Definition kahan_add (st : fl * fl) (val : Q) : fl * fl :=
  let y := (Fin val - st.2)%fl in
  let t := (st.1 + y)%fl in
  (t, (t - st.1 - y)%fl).

(** The mean of a window: the compensated sum over the number of
    observations, and the observation itself when all are equal. *)
Definition mean_agg (xs : list Q) : fl :=
  match xs with
  | [] => NaN
  | x :: xs' =>
      if forallb (Qeq_bool x) xs' then Fin (Qred x)
      else ((foldl kahan_add (F 0, F 0) xs).1 / F (Z.of_nat (length xs)))%fl
  end.

Definition min_agg (xs : list Q) : fl :=
  match xs with
  | [] => NaN
  | x :: xs' => Fin (foldr Qmin x xs')
  end.

Definition max_agg (xs : list Q) : fl :=
  match xs with
  | [] => NaN
  | x :: xs' => Fin (foldr Qmax x xs')
  end.

Definition as_finite (x : fl) : option Q :=
  match x with Fin q => Some q | _ => None end.

(** The [w] observations ending at position [i], when there are [w] of them
    and all are finite: pandas' rolling windows need [min_periods = w] valid
    observations, and treat infinities as missing.  Each window is
    aggregated on its own; pandas updates running sums from row to row,
    which gives the same values as long as no sum has overflowed. *)
Definition window (w i : nat) (c : column) : option (list Q) :=
  if decide (1 <= w <= i + 1)%nat
  then mapM as_finite (take w (drop (i + 1 - w) c))
  else None.

(** [c.rolling(window=w).agg()] *)
Definition rolling (w : nat) (agg : list Q -> fl) (c : column) : column :=
  (fun i => from_option agg NaN (window w i c)) <$> seq 0 (length c).

Definition rolling_mean (w : nat) : column -> column := rolling w mean_agg.
Definition rolling_std (w : nat) : column -> column := rolling w std_agg.
Definition rolling_min (w : nat) : column -> column := rolling w min_agg.
Definition rolling_max (w : nat) : column -> column := rolling w max_agg.

(** [c.ewm(span=span, adjust=False).mean()] with [a = 2 / (span + 1)]:
    [y0 = x0] and [y(t) = (1 - a) y(t-1) + a x(t)].  A missing observation
    repeats the last value and lets its weight decay by [1 - a]; the next
    observation is averaged against that weight.  [weighted] is the last
    value and [old_wt] its weight. *)
Fixpoint ewm_from (a : Q) (weighted old_wt : fl) (xs : column) : column :=
  match xs with
  | [] => []
  | cur :: xs' =>
      if is_nan weighted then
        cur :: ewm_from a cur (F 1) xs'
      else
        let old_wt := (old_wt * Fin (1 - a))%fl in
        if is_nan cur then weighted :: ewm_from a weighted old_wt xs'
        else
          let y :=
            if (weighted =? cur)%fl then weighted
            else ((old_wt * weighted + Fin a * cur) / (old_wt + Fin a))%fl in
          y :: ewm_from a y (F 1) xs'
  end.

Definition ewm_mean (span : Z) (c : column) : column :=
  match c with
  | [] => []
  | x0 :: xs => x0 :: ewm_from (2 # Z.to_pos (span + 1)) x0 (F 1) xs
  end.

(** [c.shift(n)] *)
Definition shift (n : nat) (c : column) : column :=
  take (length c) (replicate n NaN ++ c).

(** [c.diff()] *)
Definition diff (c : column) : column := zip_with fsub c (shift 1 c).

(** [c.pct_change(periods=n)] *)
Definition pct_change (n : nat) (c : column) : column :=
  zip_with (fun x p => (x / p - F 1)%fl) c (shift n c).

(** [c.where(cond, other)] with a pointwise condition. *)
Definition where_ (cond : fl -> bool) (other : fl) (c : column) : column :=
  (fun x => if cond x then x else other) <$> c.

(** [c.fillna(v)] *)
Definition fillna (v : fl) (c : column) : column :=
  (fun x => if is_nan x then v else x) <$> c.

(** [c.replace(a, b)] *)
Definition replace_ (a b : fl) (c : column) : column :=
  (fun x => if (x =? a)%fl then b else x) <$> c.

Definition col_add : column -> column -> column := zip_with fadd.
Definition col_sub : column -> column -> column := zip_with fsub.
Definition col_div : column -> column -> column := zip_with fdiv.
Definition col_scale (k : fl) (c : column) : column := (fun x => (x * k)%fl) <$> c.

(** [c.iloc[a:b]] for negative [a] and a negative or absent [b]. *)
Definition iloc_slice (a : Z) (b : option Z) (c : column) : column :=
  let n := Z.of_nat (length c) in
  let start := Z.to_nat (Z.max 0 (n + a)) in
  let stop := Z.to_nat (Z.max 0 (from_option (fun b => n + b) n b)) in
  take (stop - start) (drop start c).

Definition dropna (c : column) : column := filter (fun x => is_nan x = false) c.

(** [c.mean()], skipping missing values. *)
Definition series_mean (c : column) : fl :=
  match dropna c with
  | [] => NaN
  | xs => (foldr fadd (F 0) xs / F (Z.of_nat (length xs)))%fl
  end.

(** [c.max()], skipping missing values. *)
Definition series_max (c : column) : fl :=
  match dropna c with
  | [] => NaN
  | x :: xs => foldr (fun a b => if (a <? b)%fl then b else a) x xs
  end.

(* ===================================================================== *)
(** ** DataFrames and the object store *)
(* ===================================================================== *)

Record DataFrame : Type := mkFrame {
  nrows : nat;
  columns : gmap string column;
}.

Abbreviation ref := nat.
Abbreviation store := (list DataFrame).

Inductive exn : Type :=
  | KeyError (k : string)
  | IndexError
  | ZeroDivisionError
  | NoSuchObject.   (* a reference outside the store; Python has none *)

Inductive outcome (A : Type) : Type :=
  | Ok (a : A)
  | Raise (e : exn).
Arguments Ok {A} a.
Arguments Raise {A} e.

#[global] Instance outcome_ret : MRet outcome := fun A a => Ok a.
#[global] Instance outcome_bind : MBind outcome := fun A B k m =>
  match m with
  | Ok a => k a
  | Raise e => Raise e
  end.

(** Computations that read and update the store and may raise. *)
Definition M (A : Type) : Type := store -> outcome A * store.

#[global] Instance M_ret : MRet M := fun A a s => (Ok a, s).
#[global] Instance M_bind : MBind M := fun A B k m s =>
  match m s with
  | (Ok a, s') => k a s'
  | (Raise e, s') => (Raise e, s')
  end.

Definition lift {A : Type} (o : outcome A) : M A := fun s => (o, s).

Definition deref (l : ref) : M DataFrame := fun s =>
  match s !! l with
  | Some f => (Ok f, s)
  | None => (Raise NoSuchObject, s)
  end.

Definition alloc (f : DataFrame) : M ref := fun s => (Ok (length s), s ++ [f]).

(** [df[k]] *)
Definition getitem (k : string) (f : DataFrame) : outcome column :=
  match columns f !! k with
  | Some c => Ok c
  | None => Raise (KeyError k)
  end.

Definition set_column (k : string) (c : column) (f : DataFrame) : DataFrame :=
  {| nrows := nrows f; columns := <[k := c]> (columns f) |}.

(** [df[k] = c]: the frame object is updated in place. *)
Definition setitem (l : ref) (k : string) (c : column) : M unit := fun s =>
  match s !! l with
  | Some f => (Ok tt, <[l := set_column k c f]> s)
  | None => (Raise NoSuchObject, s)
  end.

(** [df.copy()] *)
Definition copy (l : ref) : M ref := f ← deref l; alloc f.

(** [df[k]] on a reference. *)
Definition col (l : ref) (k : string) : M column :=
  f ← deref l; lift (getitem k f).

(** [len(df)] and [df.empty] *)
Definition len (f : DataFrame) : nat := nrows f.
Definition empty_frame (f : DataFrame) : bool :=
  bool_decide (nrows f = 0%nat) || bool_decide (columns f = ∅).

(** Order of the sort keys: missing keys go last. *)
Definition key_le (a b : fl) : bool :=
  if is_nan b then true else if is_nan a then false else (a <=? b)%fl.

Fixpoint insert_by (keys : column) (i : nat) (p : list nat) : list nat :=
  match p with
  | [] => [i]
  | j :: p' =>
      if key_le (at_pos keys i) (at_pos keys j) then i :: p
      else j :: insert_by keys i p'
  end.

(** The row order after sorting by [keys].  pandas' default sort does not
    fix the order of rows with equal keys; here they keep their relative
    order. *)
Definition sort_perm (keys : column) : list nat :=
  foldr (insert_by keys) [] (seq 0 (length keys)).

Definition take_rows (p : list nat) (c : column) : column := at_pos c <$> p.

(** [df.sort_values(k).reset_index(drop=True)]: a new frame. *)
Definition sort_values (k : string) (l : ref) : M ref :=
  f ← deref l;
  keys ← lift (getitem k f);
  alloc {| nrows := nrows f;
           columns := take_rows (sort_perm keys) <$> columns f |}.

Abbreviation row := (gmap string fl).

(** [df.iloc[i]] *)
Definition iloc (i : Z) (f : DataFrame) : outcome row :=
  let n := Z.of_nat (nrows f) in
  let j := if i <? 0 then n + i else i in
  if (0 <=? j) && (j <? n)
  then Ok ((fun c => at_pos c (Z.to_nat j)) <$> columns f)
  else Raise IndexError.

(** [r[k]] and [r.get(k, d)] on a row. *)
Definition row_getitem (k : string) (r : row) : outcome fl :=
  match r !! k with
  | Some x => Ok x
  | None => Raise (KeyError k)
  end.

Definition row_get (k : string) (d : fl) (r : row) : fl := default d (r !! k).

(* ===================================================================== *)
(** ** Enumerations *)
(* ===================================================================== *)

Module TrendStatus.
Inductive t : Type :=
  | STRONG_BULL | BULL | WEAK_BULL | CONSOLIDATION
  | WEAK_BEAR | BEAR | STRONG_BEAR.

Definition value (s : t) : string :=
  match s with
  | STRONG_BULL => "强势多头"
  | BULL => "多头排列"
  | WEAK_BULL => "弱势多头"
  | CONSOLIDATION => "盘整"
  | WEAK_BEAR => "弱势空头"
  | BEAR => "空头排列"
  | STRONG_BEAR => "强势空头"
  end.

#[global] Instance eq_dec : EqDecision t.
Proof. solve_decision. Defined.
End TrendStatus.

Module VolumeStatus.
Inductive t : Type :=
  | HEAVY_VOLUME_UP | HEAVY_VOLUME_DOWN
  | SHRINK_VOLUME_UP | SHRINK_VOLUME_DOWN | NORMAL.

Definition value (s : t) : string :=
  match s with
  | HEAVY_VOLUME_UP => "放量上涨"
  | HEAVY_VOLUME_DOWN => "放量下跌"
  | SHRINK_VOLUME_UP => "缩量上涨"
  | SHRINK_VOLUME_DOWN => "缩量回调"
  | NORMAL => "量能正常"
  end.

#[global] Instance eq_dec : EqDecision t.
Proof. solve_decision. Defined.
End VolumeStatus.

Module BuySignal.
Inductive t : Type :=
  | STRONG_BUY | BUY | HOLD | WAIT | SELL | STRONG_SELL.

Definition value (s : t) : string :=
  match s with
  | STRONG_BUY => "强烈买入"
  | BUY => "买入"
  | HOLD => "持有"
  | WAIT => "观望"
  | SELL => "卖出"
  | STRONG_SELL => "强烈卖出"
  end.

#[global] Instance eq_dec : EqDecision t.
Proof. solve_decision. Defined.
End BuySignal.

Module MACDStatus.
Inductive t : Type :=
  | GOLDEN_CROSS_ZERO | GOLDEN_CROSS | BULLISH | CROSSING_UP
  | CROSSING_DOWN | BEARISH | DEATH_CROSS.

Definition value (s : t) : string :=
  match s with
  | GOLDEN_CROSS_ZERO => "零轴上金叉"
  | GOLDEN_CROSS => "金叉"
  | BULLISH => "多头"
  | CROSSING_UP => "上穿零轴"
  | CROSSING_DOWN => "下穿零轴"
  | BEARISH => "空头"
  | DEATH_CROSS => "死叉"
  end.

#[global] Instance eq_dec : EqDecision t.
Proof. solve_decision. Defined.
End MACDStatus.

Module RSIStatus.
Inductive t : Type :=
  | OVERBOUGHT | STRONG_BUY | NEUTRAL | WEAK | OVERSOLD.

Definition value (s : t) : string :=
  match s with
  | OVERBOUGHT => "超买"
  | STRONG_BUY => "强势买入"
  | NEUTRAL => "中性"
  | WEAK => "弱势"
  | OVERSOLD => "超卖"
  end.

#[global] Instance eq_dec : EqDecision t.
Proof. solve_decision. Defined.
End RSIStatus.

(* ===================================================================== *)
(** ** The result aggregate *)
(* ===================================================================== *)

(** Descriptive texts.  An f-string is kept as its pieces: literal text and
    numbers with their format specification; the empty string is [[]]. *)
Inductive piece : Type :=
  | Lit (s : string)
  | Num (spec : string) (x : fl).

Abbreviation text := (list piece).

Record TrendAnalysisResult : Type := mkResult {
  code : string;
  trend_status : TrendStatus.t;
  ma_alignment : text;
  trend_strength : fl;
  ma5 : fl;
  ma10 : fl;
  ma20 : fl;
  ma60 : fl;
  ma250 : fl;
  current_price : fl;
  bias_ma5 : fl;
  bias_ma10 : fl;
  bias_ma20 : fl;
  bias_ma60 : fl;
  bias_ma250 : fl;
  volume_status : VolumeStatus.t;
  volume_ratio_5d : fl;
  volume_trend : text;
  support_ma5 : bool;
  support_ma10 : bool;
  resistance_levels : list fl;
  support_levels : list fl;
  macd_dif : fl;
  macd_dea : fl;
  macd_bar : fl;
  macd_status : MACDStatus.t;
  macd_signal : text;
  rsi_6 : fl;
  rsi_12 : fl;
  rsi_24 : fl;
  rsi_status : RSIStatus.t;
  rsi_signal : text;
  kdj_k : fl;
  kdj_d : fl;
  kdj_j : fl;
  kdj_signal : text;
  bb_upper : fl;
  bb_middle : fl;
  bb_lower : fl;
  bb_width : fl;
  bb_position : text;
  momentum_5d : fl;
  momentum_10d : fl;
  momentum_signal : text;
  vol_ma5 : fl;
  vol_ma10 : fl;
  vol_ma20 : fl;
  vol_ratio_ma5 : fl;
  vol_trend : text;
  buy_signal : BuySignal.t;
  signal_score : Z;
  signal_reasons : list text;
  risk_factors : list text;
}.

(** [TrendAnalysisResult(code=code)]: every other field at its default. *)
Definition new_result (code : string) : TrendAnalysisResult := {|
  code := code;
  trend_status := TrendStatus.CONSOLIDATION;
  ma_alignment := [];
  trend_strength := F 0;
  ma5 := F 0;
  ma10 := F 0;
  ma20 := F 0;
  ma60 := F 0;
  ma250 := F 0;
  current_price := F 0;
  bias_ma5 := F 0;
  bias_ma10 := F 0;
  bias_ma20 := F 0;
  bias_ma60 := F 0;
  bias_ma250 := F 0;
  volume_status := VolumeStatus.NORMAL;
  volume_ratio_5d := F 0;
  volume_trend := [];
  support_ma5 := false;
  support_ma10 := false;
  resistance_levels := [];
  support_levels := [];
  macd_dif := F 0;
  macd_dea := F 0;
  macd_bar := F 0;
  macd_status := MACDStatus.BULLISH;
  macd_signal := [];
  rsi_6 := F 0;
  rsi_12 := F 0;
  rsi_24 := F 0;
  rsi_status := RSIStatus.NEUTRAL;
  rsi_signal := [];
  kdj_k := F 0;
  kdj_d := F 0;
  kdj_j := F 0;
  kdj_signal := [];
  bb_upper := F 0;
  bb_middle := F 0;
  bb_lower := F 0;
  bb_width := F 0;
  bb_position := [];
  momentum_5d := F 0;
  momentum_10d := F 0;
  momentum_signal := [];
  vol_ma5 := F 0;
  vol_ma10 := F 0;
  vol_ma20 := F 0;
  vol_ratio_ma5 := F 0;
  vol_trend := [];
  buy_signal := BuySignal.WAIT;
  signal_score := 0;
  signal_reasons := [];
  risk_factors := [];
|}.

(** The dataclass fields, in declaration order. *)
Definition field_names : list string := [
  "code"; "trend_status"; "ma_alignment"; "trend_strength"; "ma5"; "ma10";
  "ma20"; "ma60"; "ma250"; "current_price"; "bias_ma5"; "bias_ma10";
  "bias_ma20"; "bias_ma60"; "bias_ma250"; "volume_status";
  "volume_ratio_5d"; "volume_trend"; "support_ma5"; "support_ma10";
  "resistance_levels"; "support_levels"; "macd_dif"; "macd_dea";
  "macd_bar"; "macd_status"; "macd_signal"; "rsi_6"; "rsi_12"; "rsi_24";
  "rsi_status"; "rsi_signal"; "kdj_k"; "kdj_d"; "kdj_j"; "kdj_signal";
  "bb_upper"; "bb_middle"; "bb_lower"; "bb_width"; "bb_position";
  "momentum_5d"; "momentum_10d"; "momentum_signal"; "vol_ma5"; "vol_ma10";
  "vol_ma20"; "vol_ratio_ma5"; "vol_trend"; "buy_signal"; "signal_score";
  "signal_reasons"; "risk_factors"].

Definition eta_result (r : TrendAnalysisResult) : TrendAnalysisResult :=
  mkResult
    (code r) (trend_status r) (ma_alignment r) (trend_strength r) (ma5 r)
    (ma10 r) (ma20 r) (ma60 r) (ma250 r) (current_price r) (bias_ma5 r)
    (bias_ma10 r) (bias_ma20 r) (bias_ma60 r) (bias_ma250 r)
    (volume_status r) (volume_ratio_5d r) (volume_trend r) (support_ma5 r)
    (support_ma10 r) (resistance_levels r) (support_levels r) (macd_dif r)
    (macd_dea r) (macd_bar r) (macd_status r) (macd_signal r) (rsi_6 r)
    (rsi_12 r) (rsi_24 r) (rsi_status r) (rsi_signal r) (kdj_k r) (kdj_d r)
    (kdj_j r) (kdj_signal r) (bb_upper r) (bb_middle r) (bb_lower r)
    (bb_width r) (bb_position r) (momentum_5d r) (momentum_10d r)
    (momentum_signal r) (vol_ma5 r) (vol_ma10 r) (vol_ma20 r)
    (vol_ratio_ma5 r) (vol_trend r) (buy_signal r) (signal_score r)
    (signal_reasons r) (risk_factors r).

(** Field assignment [r.f = v]: the record rebuilt with one field replaced. *)
Ltac setter proj :=
  let v := fresh "v" in
  let r := fresh "r" in
  intros v r;
  let e := eval cbv beta delta [eta_result] in (eta_result r) in
  lazymatch eval pattern (proj r) in e with
  | ?f _ => let e' := eval cbv beta in (f v) in exact e'
  end.

Definition set_trend_status : TrendStatus.t -> TrendAnalysisResult -> TrendAnalysisResult :=
  ltac:(setter trend_status).
Definition set_ma_alignment : text -> TrendAnalysisResult -> TrendAnalysisResult :=
  ltac:(setter ma_alignment).
Definition set_trend_strength : fl -> TrendAnalysisResult -> TrendAnalysisResult :=
  ltac:(setter trend_strength).
Definition set_ma5 : fl -> TrendAnalysisResult -> TrendAnalysisResult :=
  ltac:(setter ma5).
Definition set_ma10 : fl -> TrendAnalysisResult -> TrendAnalysisResult :=
  ltac:(setter ma10).
Definition set_ma20 : fl -> TrendAnalysisResult -> TrendAnalysisResult :=
  ltac:(setter ma20).
Definition set_ma60 : fl -> TrendAnalysisResult -> TrendAnalysisResult :=
  ltac:(setter ma60).
Definition set_ma250 : fl -> TrendAnalysisResult -> TrendAnalysisResult :=
  ltac:(setter ma250).
Definition set_current_price : fl -> TrendAnalysisResult -> TrendAnalysisResult :=
  ltac:(setter current_price).
Definition set_bias_ma5 : fl -> TrendAnalysisResult -> TrendAnalysisResult :=
  ltac:(setter bias_ma5).
Definition set_bias_ma10 : fl -> TrendAnalysisResult -> TrendAnalysisResult :=
  ltac:(setter bias_ma10).
Definition set_bias_ma20 : fl -> TrendAnalysisResult -> TrendAnalysisResult :=
  ltac:(setter bias_ma20).
Definition set_bias_ma60 : fl -> TrendAnalysisResult -> TrendAnalysisResult :=
  ltac:(setter bias_ma60).
Definition set_bias_ma250 : fl -> TrendAnalysisResult -> TrendAnalysisResult :=
  ltac:(setter bias_ma250).
Definition set_volume_status : VolumeStatus.t -> TrendAnalysisResult -> TrendAnalysisResult :=
  ltac:(setter volume_status).
Definition set_volume_ratio_5d : fl -> TrendAnalysisResult -> TrendAnalysisResult :=
  ltac:(setter volume_ratio_5d).
Definition set_volume_trend : text -> TrendAnalysisResult -> TrendAnalysisResult :=
  ltac:(setter volume_trend).
Definition set_support_ma5 : bool -> TrendAnalysisResult -> TrendAnalysisResult :=
  ltac:(setter support_ma5).
Definition set_support_ma10 : bool -> TrendAnalysisResult -> TrendAnalysisResult :=
  ltac:(setter support_ma10).
Definition set_resistance_levels : list fl -> TrendAnalysisResult -> TrendAnalysisResult :=
  ltac:(setter resistance_levels).
Definition set_support_levels : list fl -> TrendAnalysisResult -> TrendAnalysisResult :=
  ltac:(setter support_levels).
Definition set_macd_dif : fl -> TrendAnalysisResult -> TrendAnalysisResult :=
  ltac:(setter macd_dif).
Definition set_macd_dea : fl -> TrendAnalysisResult -> TrendAnalysisResult :=
  ltac:(setter macd_dea).
Definition set_macd_bar : fl -> TrendAnalysisResult -> TrendAnalysisResult :=
  ltac:(setter macd_bar).
Definition set_macd_status : MACDStatus.t -> TrendAnalysisResult -> TrendAnalysisResult :=
  ltac:(setter macd_status).
Definition set_macd_signal : text -> TrendAnalysisResult -> TrendAnalysisResult :=
  ltac:(setter macd_signal).
Definition set_rsi_6 : fl -> TrendAnalysisResult -> TrendAnalysisResult :=
  ltac:(setter rsi_6).
Definition set_rsi_12 : fl -> TrendAnalysisResult -> TrendAnalysisResult :=
  ltac:(setter rsi_12).
Definition set_rsi_24 : fl -> TrendAnalysisResult -> TrendAnalysisResult :=
  ltac:(setter rsi_24).
Definition set_rsi_status : RSIStatus.t -> TrendAnalysisResult -> TrendAnalysisResult :=
  ltac:(setter rsi_status).
Definition set_rsi_signal : text -> TrendAnalysisResult -> TrendAnalysisResult :=
  ltac:(setter rsi_signal).
Definition set_kdj_k : fl -> TrendAnalysisResult -> TrendAnalysisResult :=
  ltac:(setter kdj_k).
Definition set_kdj_d : fl -> TrendAnalysisResult -> TrendAnalysisResult :=
  ltac:(setter kdj_d).
Definition set_kdj_j : fl -> TrendAnalysisResult -> TrendAnalysisResult :=
  ltac:(setter kdj_j).
Definition set_kdj_signal : text -> TrendAnalysisResult -> TrendAnalysisResult :=
  ltac:(setter kdj_signal).
Definition set_bb_upper : fl -> TrendAnalysisResult -> TrendAnalysisResult :=
  ltac:(setter bb_upper).
Definition set_bb_middle : fl -> TrendAnalysisResult -> TrendAnalysisResult :=
  ltac:(setter bb_middle).
Definition set_bb_lower : fl -> TrendAnalysisResult -> TrendAnalysisResult :=
  ltac:(setter bb_lower).
Definition set_bb_width : fl -> TrendAnalysisResult -> TrendAnalysisResult :=
  ltac:(setter bb_width).
Definition set_bb_position : text -> TrendAnalysisResult -> TrendAnalysisResult :=
  ltac:(setter bb_position).
Definition set_momentum_5d : fl -> TrendAnalysisResult -> TrendAnalysisResult :=
  ltac:(setter momentum_5d).
Definition set_momentum_10d : fl -> TrendAnalysisResult -> TrendAnalysisResult :=
  ltac:(setter momentum_10d).
Definition set_momentum_signal : text -> TrendAnalysisResult -> TrendAnalysisResult :=
  ltac:(setter momentum_signal).
Definition set_vol_ma5 : fl -> TrendAnalysisResult -> TrendAnalysisResult :=
  ltac:(setter vol_ma5).
Definition set_vol_ma10 : fl -> TrendAnalysisResult -> TrendAnalysisResult :=
  ltac:(setter vol_ma10).
Definition set_vol_ma20 : fl -> TrendAnalysisResult -> TrendAnalysisResult :=
  ltac:(setter vol_ma20).
Definition set_vol_ratio_ma5 : fl -> TrendAnalysisResult -> TrendAnalysisResult :=
  ltac:(setter vol_ratio_ma5).
Definition set_vol_trend : text -> TrendAnalysisResult -> TrendAnalysisResult :=
  ltac:(setter vol_trend).
Definition set_buy_signal : BuySignal.t -> TrendAnalysisResult -> TrendAnalysisResult :=
  ltac:(setter buy_signal).
Definition set_signal_score : Z -> TrendAnalysisResult -> TrendAnalysisResult :=
  ltac:(setter signal_score).
Definition set_signal_reasons : list text -> TrendAnalysisResult -> TrendAnalysisResult :=
  ltac:(setter signal_reasons).
Definition set_risk_factors : list text -> TrendAnalysisResult -> TrendAnalysisResult :=
  ltac:(setter risk_factors).

(** Values of the flat mapping. *)
Inductive pyval : Type :=
  | VStr (s : text)
  | VFloat (x : fl)
  | VBool (b : bool)
  | VInt (z : Z)
  | VList (l : list text).

(** [TrendAnalysisResult.to_dict] *)
Definition to_dict (r : TrendAnalysisResult) : gmap string pyval :=
  list_to_map [
    ("code", VStr [Lit (code r)]);
    ("trend_status", VStr [Lit (TrendStatus.value (trend_status r))]);
    ("ma_alignment", VStr (ma_alignment r));
    ("trend_strength", VFloat (trend_strength r));
    ("ma5", VFloat (ma5 r));
    ("ma10", VFloat (ma10 r));
    ("ma20", VFloat (ma20 r));
    ("ma60", VFloat (ma60 r));
    ("current_price", VFloat (current_price r));
    ("bias_ma5", VFloat (bias_ma5 r));
    ("bias_ma10", VFloat (bias_ma10 r));
    ("bias_ma20", VFloat (bias_ma20 r));
    ("volume_status", VStr [Lit (VolumeStatus.value (volume_status r))]);
    ("volume_ratio_5d", VFloat (volume_ratio_5d r));
    ("volume_trend", VStr (volume_trend r));
    ("support_ma5", VBool (support_ma5 r));
    ("support_ma10", VBool (support_ma10 r));
    ("buy_signal", VStr [Lit (BuySignal.value (buy_signal r))]);
    ("signal_score", VInt (signal_score r));
    ("signal_reasons", VList (signal_reasons r));
    ("risk_factors", VList (risk_factors r));
    ("macd_dif", VFloat (macd_dif r));
    ("macd_dea", VFloat (macd_dea r));
    ("macd_bar", VFloat (macd_bar r));
    ("macd_status", VStr [Lit (MACDStatus.value (macd_status r))]);
    ("macd_signal", VStr (macd_signal r));
    ("rsi_6", VFloat (rsi_6 r));
    ("rsi_12", VFloat (rsi_12 r));
    ("rsi_24", VFloat (rsi_24 r));
    ("rsi_status", VStr [Lit (RSIStatus.value (rsi_status r))]);
    ("rsi_signal", VStr (rsi_signal r));
    ("ma250", VFloat (ma250 r));
    ("bias_ma60", VFloat (bias_ma60 r));
    ("bias_ma250", VFloat (bias_ma250 r));
    ("kdj_k", VFloat (kdj_k r));
    ("kdj_d", VFloat (kdj_d r));
    ("kdj_j", VFloat (kdj_j r));
    ("kdj_signal", VStr (kdj_signal r));
    ("bb_upper", VFloat (bb_upper r));
    ("bb_middle", VFloat (bb_middle r));
    ("bb_lower", VFloat (bb_lower r));
    ("bb_width", VFloat (bb_width r));
    ("bb_position", VStr (bb_position r));
    ("momentum_5d", VFloat (momentum_5d r));
    ("momentum_10d", VFloat (momentum_10d r));
    ("momentum_signal", VStr (momentum_signal r));
    ("vol_ma5", VFloat (vol_ma5 r));
    ("vol_ma10", VFloat (vol_ma10 r));
    ("vol_ma20", VFloat (vol_ma20 r));
    ("vol_ratio_ma5", VFloat (vol_ratio_ma5 r));
    ("vol_trend", VStr (vol_trend r))
  ].

(* ===================================================================== *)
(** ** StockTrendAnalyzer: configuration *)
(* ===================================================================== *)

Notation "x |> f" := (f x) (at level 45, left associativity, only parsing).

Definition BIAS_THRESHOLD : fl := F 5.
Definition VOLUME_SHRINK_RATIO : fl := Fin (7 # 10).
Definition VOLUME_HEAVY_RATIO : fl := Fin (3 # 2).
Definition MA_SUPPORT_TOLERANCE : fl := Fin (2 # 100).

Definition MACD_FAST : nat := 12.
Definition MACD_SLOW : nat := 26.
Definition MACD_SIGNAL : nat := 9.

Definition RSI_SHORT : nat := 6.
Definition RSI_MID : nat := 12.
Definition RSI_LONG : nat := 24.
Definition RSI_OVERBOUGHT : fl := F 70.
Definition RSI_OVERSOLD : fl := F 30.

Definition KDJ_PERIOD : nat := 9.
Definition KDJ_K_PERIOD : nat := 3.
Definition KDJ_D_PERIOD : nat := 3.
Definition KDJ_OVERBOUGHT : fl := F 80.
Definition KDJ_OVERSOLD : fl := F 20.

Definition BB_PERIOD : nat := 20.
Definition BB_STD_DEV : fl := F 2.

Definition MOMENTUM_SHORT : nat := 5.
Definition MOMENTUM_LONG : nat := 10.

(* ===================================================================== *)
(** ** Indicator calculators *)
(* ===================================================================== *)

Definition len_of (df : ref) : M nat := f ← deref df; mret (len f).

Fixpoint for_each {A : Type} (xs : list A) (body : A -> M unit) : M unit :=
  match xs with
  | [] => mret tt
  | x :: xs' => body x;; for_each xs' body
  end.

Definition _calculate_mas (df : ref) : M ref :=
  df ← copy df;
  c ← col df "close"; setitem df "MA5" (rolling_mean 5 c);;
  c ← col df "close"; setitem df "MA10" (rolling_mean 10 c);;
  c ← col df "close"; setitem df "MA20" (rolling_mean 20 c);;
  n ← len_of df;
  (if decide (60 <= n)%nat
   then c ← col df "close"; setitem df "MA60" (rolling_mean 60 c)
   else c ← col df "MA20"; setitem df "MA60" c);;
  n ← len_of df;
  (if decide (250 <= n)%nat
   then c ← col df "close"; setitem df "MA250" (rolling_mean 250 c)
   else c ← col df "MA60"; setitem df "MA250" c);;
  mret df.

Definition _calculate_macd (df : ref) : M ref :=
  df ← copy df;
  c ← col df "close";
  let ema_fast := ewm_mean (Z.of_nat MACD_FAST) c in
  c ← col df "close";
  let ema_slow := ewm_mean (Z.of_nat MACD_SLOW) c in
  setitem df "MACD_DIF" (col_sub ema_fast ema_slow);;
  dif ← col df "MACD_DIF";
  setitem df "MACD_DEA" (ewm_mean (Z.of_nat MACD_SIGNAL) dif);;
  dif ← col df "MACD_DIF";
  dea ← col df "MACD_DEA";
  setitem df "MACD_BAR" (col_scale (F 2) (col_sub dif dea));;
  mret df.

(** The RSI series of one horizon: the body of the loop of
    [_calculate_rsi]. *)
Definition rsi_series (period : nat) (close : column) : column :=
  let delta := diff close in
  let gain := where_ (fun d => (d >? F 0)%fl) (F 0) delta in
  let loss := fneg <$> where_ (fun d => (d <? F 0)%fl) (F 0) delta in
  let avg_gain := rolling_mean period gain in
  let avg_loss := rolling_mean period loss in
  let rs := col_div avg_gain avg_loss in
  let rsi := (fun x => (F 100 - F 100 / (F 1 + x))%fl) <$> rs in
  fillna (F 50) rsi.

Definition rsi_col_name (period : nat) : string := "RSI_" +:+ pretty period.

Definition _calculate_rsi (df : ref) : M ref :=
  df ← copy df;
  for_each [RSI_SHORT; RSI_MID; RSI_LONG] (fun period =>
    c ← col df "close";
    setitem df (rsi_col_name period) (rsi_series period c));;
  mret df.

Definition _calculate_kdj (df : ref) : M ref :=
  df ← copy df;
  let period := KDJ_PERIOD in
  lo ← col df "low";
  let low_min := rolling_min period lo in
  hi ← col df "high";
  let high_max := rolling_max period hi in
  let denominator := col_sub high_max low_min in
  let denominator := replace_ (F 0) NaN denominator in
  c ← col df "close";
  let rsv := col_scale (F 100) (col_div (col_sub c low_min) denominator) in
  let rsv := fillna (F 50) rsv in
  setitem df "KDJ_K" (ewm_mean (Z.of_nat KDJ_K_PERIOD) rsv);;
  k ← col df "KDJ_K";
  setitem df "KDJ_D" (ewm_mean (Z.of_nat KDJ_D_PERIOD) k);;
  k ← col df "KDJ_K";
  d ← col df "KDJ_D";
  setitem df "KDJ_J"
    (col_sub ((fun x => (F 3 * x)%fl) <$> k) ((fun x => (F 2 * x)%fl) <$> d));;
  mret df.

Definition _calculate_bollinger_bands (df : ref) : M ref :=
  df ← copy df;
  let period := BB_PERIOD in
  let std_dev := BB_STD_DEV in
  c ← col df "close";
  setitem df "BB_MIDDLE" (rolling_mean period c);;
  c ← col df "close";
  let std := rolling_std period c in
  m ← col df "BB_MIDDLE";
  setitem df "BB_UPPER" (col_add m (col_scale std_dev std));;
  m ← col df "BB_MIDDLE";
  setitem df "BB_LOWER" (col_sub m (col_scale std_dev std));;
  mret df.

Definition _calculate_momentum (df : ref) : M ref :=
  df ← copy df;
  c ← col df "close";
  setitem df "MOMENTUM_5D" (col_scale (F 100) (pct_change MOMENTUM_SHORT c));;
  c ← col df "close";
  setitem df "MOMENTUM_10D" (col_scale (F 100) (pct_change MOMENTUM_LONG c));;
  mret df.

Definition _calculate_volume_ma (df : ref) : M ref :=
  df ← copy df;
  v ← col df "volume"; setitem df "VOL_MA5" (rolling_mean 5 v);;
  v ← col df "volume"; setitem df "VOL_MA10" (rolling_mean 10 v);;
  v ← col df "volume"; setitem df "VOL_MA20" (rolling_mean 20 v);;
  mret df.

(* ===================================================================== *)
(** ** Classifiers *)
(* ===================================================================== *)

(** [df.iloc[-5] if len(df) >= 5 else df.iloc[-1]] *)
Definition prev_row (df : DataFrame) : outcome row :=
  if decide (5 <= len df)%nat then iloc (-5) df else iloc (-1) df.

Definition _analyze_trend (df : DataFrame) (result : TrendAnalysisResult)
  : outcome TrendAnalysisResult :=
  let ma5 := ma5 result in
  let ma10 := ma10 result in
  let ma20 := ma20 result in
  if (ma5 >? ma10)%fl && (ma10 >? ma20)%fl then
    prev ← prev_row df;
    g ← row_getitem "MA20" prev;
    prev_spread ←
      (if (g >? F 0)%fl
       then a ← row_getitem "MA5" prev;
            b ← row_getitem "MA20" prev;
            d ← row_getitem "MA20" prev;
            mret ((a - b) / d * F 100)%fl
       else mret (F 0));
    let curr_spread :=
      if (ma20 >? F 0)%fl then ((ma5 - ma20) / ma20 * F 100)%fl else F 0 in
    if (curr_spread >? prev_spread)%fl && (curr_spread >? F 5)%fl then
      mret (result
        |> set_trend_status TrendStatus.STRONG_BULL
        |> set_ma_alignment [Lit "强势多头排列，均线发散上行"]
        |> set_trend_strength (F 90))
    else
      mret (result
        |> set_trend_status TrendStatus.BULL
        |> set_ma_alignment [Lit "多头排列 MA5>MA10>MA20"]
        |> set_trend_strength (F 75))
  else if (ma5 >? ma10)%fl && (ma10 <=? ma20)%fl then
    mret (result
      |> set_trend_status TrendStatus.WEAK_BULL
      |> set_ma_alignment [Lit "弱势多头，MA5>MA10 但 MA10≤MA20"]
      |> set_trend_strength (F 55))
  else if (ma5 <? ma10)%fl && (ma10 <? ma20)%fl then
    prev ← prev_row df;
    g ← row_getitem "MA5" prev;
    prev_spread ←
      (if (g >? F 0)%fl
       then a ← row_getitem "MA20" prev;
            b ← row_getitem "MA5" prev;
            d ← row_getitem "MA5" prev;
            mret ((a - b) / d * F 100)%fl
       else mret (F 0));
    let curr_spread :=
      if (ma5 >? F 0)%fl then ((ma20 - ma5) / ma5 * F 100)%fl else F 0 in
    if (curr_spread >? prev_spread)%fl && (curr_spread >? F 5)%fl then
      mret (result
        |> set_trend_status TrendStatus.STRONG_BEAR
        |> set_ma_alignment [Lit "强势空头排列，均线发散下行"]
        |> set_trend_strength (F 10))
    else
      mret (result
        |> set_trend_status TrendStatus.BEAR
        |> set_ma_alignment [Lit "空头排列 MA5<MA10<MA20"]
        |> set_trend_strength (F 25))
  else if (ma5 <? ma10)%fl && (ma10 >=? ma20)%fl then
    mret (result
      |> set_trend_status TrendStatus.WEAK_BEAR
      |> set_ma_alignment [Lit "弱势空头，MA5<MA10 但 MA10≥MA20"]
      |> set_trend_strength (F 40))
  else
    mret (result
      |> set_trend_status TrendStatus.CONSOLIDATION
      |> set_ma_alignment [Lit "均线缠绕，趋势不明"]
      |> set_trend_strength (F 50)).

(** [(price - ma) / ma * 100] *)
Definition bias_of (price ma : fl) : fl := ((price - ma) / ma * F 100)%fl.

Definition _calculate_bias (result : TrendAnalysisResult) : TrendAnalysisResult :=
  let price := current_price result in
  let result :=
    if (ma5 result >? F 0)%fl
    then set_bias_ma5 (bias_of price (ma5 result)) result else result in
  let result :=
    if (ma10 result >? F 0)%fl
    then set_bias_ma10 (bias_of price (ma10 result)) result else result in
  let result :=
    if (ma20 result >? F 0)%fl
    then set_bias_ma20 (bias_of price (ma20 result)) result else result in
  let result :=
    if (ma60 result >? F 0)%fl
    then set_bias_ma60 (bias_of price (ma60 result)) result else result in
  let result :=
    if (ma250 result >? F 0)%fl
    then set_bias_ma250 (bias_of price (ma250 result)) result else result in
  result.

Definition _analyze_volume (df : DataFrame) (result : TrendAnalysisResult)
  : outcome TrendAnalysisResult :=
  if decide (len df < 5)%nat then mret result else
  latest ← iloc (-1) df;
  v ← getitem "volume" df;
  let vol_5d_avg := series_mean (iloc_slice (-6) (Some (-1)) v) in
  result ←
    (if (vol_5d_avg >? F 0)%fl
     then lv ← row_getitem "volume" latest;
          mret (set_volume_ratio_5d (lv / vol_5d_avg)%fl result)
     else mret result);
  p ← iloc (-2) df;
  prev_close ← row_getitem "close" p;
  lc ← row_getitem "close" latest;
  let price_change := ((lc - prev_close) / prev_close * F 100)%fl in
  if (volume_ratio_5d result >=? VOLUME_HEAVY_RATIO)%fl then
    if (price_change >? F 0)%fl then
      mret (result
        |> set_volume_status VolumeStatus.HEAVY_VOLUME_UP
        |> set_volume_trend [Lit "放量上涨，多头力量强劲"])
    else
      mret (result
        |> set_volume_status VolumeStatus.HEAVY_VOLUME_DOWN
        |> set_volume_trend [Lit "放量下跌，注意风险"])
  else if (volume_ratio_5d result <=? VOLUME_SHRINK_RATIO)%fl then
    if (price_change >? F 0)%fl then
      mret (result
        |> set_volume_status VolumeStatus.SHRINK_VOLUME_UP
        |> set_volume_trend [Lit "缩量上涨，上攻动能不足"])
    else
      mret (result
        |> set_volume_status VolumeStatus.SHRINK_VOLUME_DOWN
        |> set_volume_trend [Lit "缩量回调，洗盘特征明显（好）"])
  else
    mret (result
      |> set_volume_status VolumeStatus.NORMAL
      |> set_volume_trend [Lit "量能正常"]).

(** [x in levels] for a list of floats. *)
Definition fl_in (x : fl) (levels : list fl) : bool :=
  existsb (fun y => (x =? y)%fl) levels.

Definition _analyze_support_resistance (df : DataFrame)
  (result : TrendAnalysisResult) : outcome TrendAnalysisResult :=
  let price := current_price result in
  let result :=
    if (ma5 result >? F 0)%fl then
      let ma5_distance := (fabs (price - ma5 result) / ma5 result)%fl in
      if (ma5_distance <=? MA_SUPPORT_TOLERANCE)%fl && (price >=? ma5 result)%fl
      then result
        |> set_support_ma5 true
        |> set_support_levels (support_levels result ++ [ma5 result])
      else result
    else result in
  let result :=
    if (ma10 result >? F 0)%fl then
      let ma10_distance := (fabs (price - ma10 result) / ma10 result)%fl in
      if (ma10_distance <=? MA_SUPPORT_TOLERANCE)%fl && (price >=? ma10 result)%fl
      then
        let result := set_support_ma10 true result in
        if negb (fl_in (ma10 result) (support_levels result))
        then set_support_levels (support_levels result ++ [ma10 result]) result
        else result
      else result
    else result in
  let result :=
    if (ma20 result >? F 0)%fl && (price >=? ma20 result)%fl
    then set_support_levels (support_levels result ++ [ma20 result]) result
    else result in
  if decide (20 <= len df)%nat then
    h ← getitem "high" df;
    let recent_high := series_max (iloc_slice (-20) None h) in
    if (recent_high >? price)%fl
    then mret (set_resistance_levels
                 (resistance_levels result ++ [recent_high]) result)
    else mret result
  else mret result.

Definition _analyze_macd (df : DataFrame) (result : TrendAnalysisResult)
  : outcome TrendAnalysisResult :=
  if decide (len df < MACD_SLOW)%nat
  then mret (set_macd_signal [Lit "数据不足"] result) else
  latest ← iloc (-1) df;
  prev ← iloc (-2) df;
  x ← row_getitem "MACD_DIF" latest; let result := set_macd_dif x result in
  x ← row_getitem "MACD_DEA" latest; let result := set_macd_dea x result in
  x ← row_getitem "MACD_BAR" latest; let result := set_macd_bar x result in
  pdif ← row_getitem "MACD_DIF" prev;
  pdea ← row_getitem "MACD_DEA" prev;
  let prev_dif_dea := (pdif - pdea)%fl in
  let curr_dif_dea := (macd_dif result - macd_dea result)%fl in
  let is_golden_cross :=
    (prev_dif_dea <=? F 0)%fl && (curr_dif_dea >? F 0)%fl in
  let is_death_cross :=
    (prev_dif_dea >=? F 0)%fl && (curr_dif_dea <? F 0)%fl in
  prev_zero ← row_getitem "MACD_DIF" prev;
  let curr_zero := macd_dif result in
  let is_crossing_up := (prev_zero <=? F 0)%fl && (curr_zero >? F 0)%fl in
  let is_crossing_down := (prev_zero >=? F 0)%fl && (curr_zero <? F 0)%fl in
  if is_golden_cross && (curr_zero >? F 0)%fl then
    mret (result
      |> set_macd_status MACDStatus.GOLDEN_CROSS_ZERO
      |> set_macd_signal [Lit "⭐ 零轴上金叉，强烈买入信号！"])
  else if is_crossing_up then
    mret (result
      |> set_macd_status MACDStatus.CROSSING_UP
      |> set_macd_signal [Lit "⚡ DIF上穿零轴，趋势转强"])
  else if is_golden_cross then
    mret (result
      |> set_macd_status MACDStatus.GOLDEN_CROSS
      |> set_macd_signal [Lit "✅ 金叉，趋势向上"])
  else if is_death_cross then
    mret (result
      |> set_macd_status MACDStatus.DEATH_CROSS
      |> set_macd_signal [Lit "❌ 死叉，趋势向下"])
  else if is_crossing_down then
    mret (result
      |> set_macd_status MACDStatus.CROSSING_DOWN
      |> set_macd_signal [Lit "⚠️ DIF下穿零轴，趋势转弱"])
  else if (macd_dif result >? F 0)%fl && (macd_dea result >? F 0)%fl then
    mret (result
      |> set_macd_status MACDStatus.BULLISH
      |> set_macd_signal [Lit "✓ 多头排列，持续上涨"])
  else if (macd_dif result <? F 0)%fl && (macd_dea result <? F 0)%fl then
    mret (result
      |> set_macd_status MACDStatus.BEARISH
      |> set_macd_signal [Lit "⚠ 空头排列，持续下跌"])
  else
    mret (result
      |> set_macd_status MACDStatus.BULLISH
      |> set_macd_signal [Lit " MACD 中性区域"]).

Definition _analyze_rsi (df : DataFrame) (result : TrendAnalysisResult)
  : outcome TrendAnalysisResult :=
  if decide (len df < RSI_LONG)%nat
  then mret (set_rsi_signal [Lit "数据不足"] result) else
  latest ← iloc (-1) df;
  x ← row_getitem (rsi_col_name RSI_SHORT) latest;
  let result := set_rsi_6 x result in
  x ← row_getitem (rsi_col_name RSI_MID) latest;
  let result := set_rsi_12 x result in
  x ← row_getitem (rsi_col_name RSI_LONG) latest;
  let result := set_rsi_24 x result in
  let rsi_mid := rsi_12 result in
  if (rsi_mid >? RSI_OVERBOUGHT)%fl then
    mret (result
      |> set_rsi_status RSIStatus.OVERBOUGHT
      |> set_rsi_signal
           [Lit "⚠️ RSI超买("; Num ".1f" rsi_mid; Lit ">70)，短期回调风险高"])
  else if (rsi_mid >? F 60)%fl then
    mret (result
      |> set_rsi_status RSIStatus.STRONG_BUY
      |> set_rsi_signal
           [Lit "✅ RSI强势("; Num ".1f" rsi_mid; Lit ")，多头力量充足"])
  else if (rsi_mid >=? F 40)%fl then
    mret (result
      |> set_rsi_status RSIStatus.NEUTRAL
      |> set_rsi_signal
           [Lit " RSI中性("; Num ".1f" rsi_mid; Lit ")，震荡整理中"])
  else if (rsi_mid >=? RSI_OVERSOLD)%fl then
    mret (result
      |> set_rsi_status RSIStatus.WEAK
      |> set_rsi_signal
           [Lit "⚡ RSI弱势("; Num ".1f" rsi_mid; Lit ")，关注反弹"])
  else
    mret (result
      |> set_rsi_status RSIStatus.OVERSOLD
      |> set_rsi_signal
           [Lit "⭐ RSI超卖("; Num ".1f" rsi_mid; Lit "<30)，反弹机会大"]).

Definition _analyze_kdj (df : DataFrame) (result : TrendAnalysisResult)
  : TrendAnalysisResult :=
  if decide (len df < KDJ_PERIOD)%nat
  then set_kdj_signal [Lit "数据不足"] result else
  let k := kdj_k result in
  let d := kdj_d result in
  let j := kdj_j result in
  if (k >? KDJ_OVERBOUGHT)%fl && (d >? KDJ_OVERBOUGHT)%fl then
    set_kdj_signal
      [Lit "⚠️ KDJ超买(K:"; Num ".1f" k; Lit ", D:"; Num ".1f" d;
       Lit ")，短期回调风险"] result
  else if (k <? KDJ_OVERSOLD)%fl && (d <? KDJ_OVERSOLD)%fl then
    set_kdj_signal
      [Lit "⭐ KDJ超卖(K:"; Num ".1f" k; Lit ", D:"; Num ".1f" d;
       Lit ")，反弹机会"] result
  else if (k >? d)%fl && (j >? k)%fl then
    set_kdj_signal
      [Lit "✅ KDJ金叉(K:"; Num ".1f" k; Lit ">D:"; Num ".1f" d;
       Lit ")，趋势转强"] result
  else if (k <? d)%fl && (j <? k)%fl then
    set_kdj_signal
      [Lit "❌ KDJ死叉(K:"; Num ".1f" k; Lit "<D:"; Num ".1f" d;
       Lit ")，趋势转弱"] result
  else
    set_kdj_signal
      [Lit " KDJ中性(K:"; Num ".1f" k; Lit ", D:"; Num ".1f" d; Lit ")"]
      result.

(** Division of two Python floats: a zero divisor raises. *)
Definition py_div (x y : fl) : outcome fl :=
  if (y =? F 0)%fl then Raise ZeroDivisionError else Ok (x / y)%fl.

Definition _analyze_bollinger_bands (df : DataFrame)
  (result : TrendAnalysisResult) : outcome TrendAnalysisResult :=
  if decide (len df < BB_PERIOD)%nat
  then mret (set_bb_position [Lit "数据不足"] result) else
  let price := current_price result in
  let upper := bb_upper result in
  let middle := bb_middle result in
  let lower := bb_lower result in
  result ←
    (if (upper >? F 0)%fl && (lower >? F 0)%fl
     then q ← py_div (upper - lower)%fl middle;
          mret (set_bb_width (q * F 100)%fl result)
     else mret result);
  if (price >=? upper)%fl then
    mret (set_bb_position [Lit "上轨之上（超买区域）"] result)
  else if (price >=? middle)%fl then
    mret (set_bb_position [Lit "中轨之上（多头区域）"] result)
  else if (price >=? lower)%fl then
    mret (set_bb_position [Lit "中轨之下（空头区域）"] result)
  else
    mret (set_bb_position [Lit "下轨之下（超卖区域）"] result).

Definition momentum_text (label : string) (mom_5d mom_10d : fl) : text :=
  [Lit (label +:+ "(5日:"); Num "+.1f" mom_5d; Lit "%, 10日:";
   Num "+.1f" mom_10d; Lit "%)"].

Definition _analyze_momentum (df : DataFrame) (result : TrendAnalysisResult)
  : TrendAnalysisResult :=
  if decide (len df < MOMENTUM_LONG)%nat
  then set_momentum_signal [Lit "数据不足"] result else
  let mom_5d := momentum_5d result in
  let mom_10d := momentum_10d result in
  if (mom_5d >? F 3)%fl && (mom_10d >? F 5)%fl then
    set_momentum_signal (momentum_text "🚀 强势上涨" mom_5d mom_10d) result
  else if (mom_5d >? F 1)%fl && (mom_10d >? F 2)%fl then
    set_momentum_signal (momentum_text "📈 温和上涨" mom_5d mom_10d) result
  else if (mom_5d <? F (-3))%fl && (mom_10d <? F (-5))%fl then
    set_momentum_signal (momentum_text "📉 加速下跌" mom_5d mom_10d) result
  else if (mom_5d <? F (-1))%fl && (mom_10d <? F (-2))%fl then
    set_momentum_signal (momentum_text "⚠️ 温和下跌" mom_5d mom_10d) result
  else
    set_momentum_signal (momentum_text "➡️ 震荡整理" mom_5d mom_10d) result.

Definition _analyze_volume_ma (df : DataFrame) (result : TrendAnalysisResult)
  : outcome TrendAnalysisResult :=
  if decide (len df < 20)%nat
  then mret (set_vol_trend [Lit "数据不足"] result) else
  latest ← iloc (-1) df;
  current_vol ← row_getitem "volume" latest;
  let vol_ma5 := vol_ma5 result in
  let vol_ma10 := vol_ma10 result in
  let vol_ma20 := vol_ma20 result in
  let result :=
    if (vol_ma5 >? F 0)%fl
    then set_vol_ratio_ma5 (current_vol / vol_ma5)%fl result else result in
  if (vol_ma5 >? vol_ma10)%fl && (vol_ma10 >? vol_ma20)%fl then
    mret (set_vol_trend [Lit "量均线多头排列，资金活跃"] result)
  else if (vol_ma5 <? vol_ma10)%fl && (vol_ma10 <? vol_ma20)%fl then
    mret (set_vol_trend [Lit "量均线空头排列，资金萎缩"] result)
  else if (vol_ma5 >? vol_ma10)%fl then
    mret (set_vol_trend [Lit "短期量能增强"] result)
  else
    mret (set_vol_trend [Lit "量均线平衡"] result).

(* ===================================================================== *)
(** ** Signal scorer *)
(* ===================================================================== *)

(** The lookup tables of [_generate_signal].  Each table has an entry for
    every member of its enumeration, so the default of [dict.get] is never
    taken. *)
Definition trend_scores (s : TrendStatus.t) : Z :=
  match s with
  | TrendStatus.STRONG_BULL => 30
  | TrendStatus.BULL => 26
  | TrendStatus.WEAK_BULL => 18
  | TrendStatus.CONSOLIDATION => 12
  | TrendStatus.WEAK_BEAR => 8
  | TrendStatus.BEAR => 4
  | TrendStatus.STRONG_BEAR => 0
  end.

Definition volume_scores (s : VolumeStatus.t) : Z :=
  match s with
  | VolumeStatus.SHRINK_VOLUME_DOWN => 15
  | VolumeStatus.HEAVY_VOLUME_UP => 12
  | VolumeStatus.NORMAL => 10
  | VolumeStatus.SHRINK_VOLUME_UP => 6
  | VolumeStatus.HEAVY_VOLUME_DOWN => 0
  end.

Definition macd_scores (s : MACDStatus.t) : Z :=
  match s with
  | MACDStatus.GOLDEN_CROSS_ZERO => 15
  | MACDStatus.GOLDEN_CROSS => 12
  | MACDStatus.CROSSING_UP => 10
  | MACDStatus.BULLISH => 8
  | MACDStatus.BEARISH => 2
  | MACDStatus.CROSSING_DOWN => 0
  | MACDStatus.DEATH_CROSS => 0
  end.

Definition rsi_scores (s : RSIStatus.t) : Z :=
  match s with
  | RSIStatus.OVERSOLD => 10
  | RSIStatus.STRONG_BUY => 8
  | RSIStatus.NEUTRAL => 5
  | RSIStatus.WEAK => 3
  | RSIStatus.OVERBOUGHT => 0
  end.

(** The accumulators of [_generate_signal]: score, reasons, risks. *)
Record tally : Type := mkTally {
  score : Z;
  reasons : list text;
  risks : list text;
}.

Definition add_score (n : Z) (t : tally) : tally :=
  mkTally (score t + n) (reasons t) (risks t).
Definition add_reason (m : text) (t : tally) : tally :=
  mkTally (score t) (reasons t ++ [m]) (risks t).
Definition add_risk (m : text) (t : tally) : tally :=
  mkTally (score t) (reasons t) (risks t ++ [m]).

Definition is_bull (s : TrendStatus.t) : bool :=
  bool_decide (s ∈ [TrendStatus.STRONG_BULL; TrendStatus.BULL]).
Definition is_bear (s : TrendStatus.t) : bool :=
  bool_decide (s ∈ [TrendStatus.BEAR; TrendStatus.STRONG_BEAR]).

Definition score_trend (result : TrendAnalysisResult) (t : tally) : tally :=
  let trend_score := trend_scores (trend_status result) in
  let t := add_score trend_score t in
  if is_bull (trend_status result) then
    add_reason [Lit "✅ "; Lit (TrendStatus.value (trend_status result));
                Lit "，顺势做多"] t
  else if is_bear (trend_status result) then
    add_risk [Lit "⚠️ "; Lit (TrendStatus.value (trend_status result));
              Lit "，不宜做多"] t
  else t.

Definition score_bias (result : TrendAnalysisResult) (t : tally) : tally :=
  let bias := bias_ma5 result in
  if (bias <? F 0)%fl then
    if (bias >? F (-3))%fl then
      t |> add_score 20
        |> add_reason [Lit "✅ 价格略低于MA5("; Num ".1f" bias;
                       Lit "%)，回踩买点"]
    else if (bias >? F (-5))%fl then
      t |> add_score 16
        |> add_reason [Lit "✅ 价格回踩MA5("; Num ".1f" bias;
                       Lit "%)，观察支撑"]
    else
      t |> add_score 8
        |> add_risk [Lit "⚠️ 乖离率过大("; Num ".1f" bias;
                     Lit "%)，可能破位"]
  else if (bias <? F 2)%fl then
    t |> add_score 18
      |> add_reason [Lit "✅ 价格贴近MA5("; Num ".1f" bias;
                     Lit "%)，介入好时机"]
  else if (bias <? BIAS_THRESHOLD)%fl then
    t |> add_score 14
      |> add_reason [Lit "⚡ 价格略高于MA5("; Num ".1f" bias;
                     Lit "%)，可小仓介入"]
  else
    t |> add_score 4
      |> add_risk [Lit "❌ 乖离率过高("; Num ".1f" bias;
                   Lit "%>5%)，严禁追高！"].

Definition score_volume (result : TrendAnalysisResult) (t : tally) : tally :=
  let vol_score := volume_scores (volume_status result) in
  let t := add_score vol_score t in
  if bool_decide (volume_status result = VolumeStatus.SHRINK_VOLUME_DOWN) then
    add_reason [Lit "✅ 缩量回调，主力洗盘"] t
  else if bool_decide (volume_status result = VolumeStatus.HEAVY_VOLUME_DOWN) then
    add_risk [Lit "⚠️ 放量下跌，注意风险"] t
  else t.

Definition score_support (result : TrendAnalysisResult) (t : tally) : tally :=
  let t :=
    if support_ma5 result
    then t |> add_score 5 |> add_reason [Lit "✅ MA5支撑有效"] else t in
  let t :=
    if support_ma10 result
    then t |> add_score 5 |> add_reason [Lit "✅ MA10支撑有效"] else t in
  t.

Definition score_macd (result : TrendAnalysisResult) (t : tally) : tally :=
  let macd_score := macd_scores (macd_status result) in
  let t := add_score macd_score t in
  if bool_decide (macd_status result ∈
        [MACDStatus.GOLDEN_CROSS_ZERO; MACDStatus.GOLDEN_CROSS]) then
    add_reason (Lit "✅ " :: macd_signal result) t
  else if bool_decide (macd_status result ∈
        [MACDStatus.DEATH_CROSS; MACDStatus.CROSSING_DOWN]) then
    add_risk (Lit "⚠️ " :: macd_signal result) t
  else add_reason (macd_signal result) t.

Definition score_rsi (result : TrendAnalysisResult) (t : tally) : tally :=
  let rsi_score := rsi_scores (rsi_status result) in
  let t := add_score rsi_score t in
  if bool_decide (rsi_status result ∈
        [RSIStatus.OVERSOLD; RSIStatus.STRONG_BUY]) then
    add_reason (Lit "✅ " :: rsi_signal result) t
  else if bool_decide (rsi_status result = RSIStatus.OVERBOUGHT) then
    add_risk (Lit "⚠️ " :: rsi_signal result) t
  else add_reason (rsi_signal result) t.

(** The final cascade of [_generate_signal]. *)
Definition decide_signal (score : Z) (trend : TrendStatus.t) : BuySignal.t :=
  if (75 <=? score) && is_bull trend then BuySignal.STRONG_BUY
  else if (60 <=? score) &&
          bool_decide (trend ∈ [TrendStatus.STRONG_BULL; TrendStatus.BULL;
                                TrendStatus.WEAK_BULL])
  then BuySignal.BUY
  else if 45 <=? score then BuySignal.HOLD
  else if 30 <=? score then BuySignal.WAIT
  else if is_bear trend then BuySignal.STRONG_SELL
  else BuySignal.SELL.

Definition _generate_signal (result : TrendAnalysisResult) : TrendAnalysisResult :=
  let t := mkTally 0 [] [] in
  let t := score_trend result t in
  let t := score_bias result t in
  let t := score_volume result t in
  let t := score_support result t in
  let t := score_macd result t in
  let t := score_rsi result t in
  let result := result
    |> set_signal_score (score t)
    |> set_signal_reasons (reasons t)
    |> set_risk_factors (risks t) in
  set_buy_signal (decide_signal (score t) (trend_status result)) result.

(* ===================================================================== *)
(** ** analyze *)
(* ===================================================================== *)

Definition insufficient_data : text := [Lit "数据不足，无法完成分析"].

(** The part of [analyze] after the indicator columns are in place: it only
    reads the augmented frame. *)
Definition classify (df : DataFrame) (result : TrendAnalysisResult)
  : outcome TrendAnalysisResult :=
  latest ← iloc (-1) df;
  x ← row_getitem "close" latest; let result := set_current_price x result in
  x ← row_getitem "MA5" latest; let result := set_ma5 x result in
  x ← row_getitem "MA10" latest; let result := set_ma10 x result in
  x ← row_getitem "MA20" latest; let result := set_ma20 x result in
  let result := set_ma60 (row_get "MA60" (F 0) latest) result in
  let result := set_ma250 (row_get "MA250" (F 0) latest) result in
  result ← _analyze_trend df result;
  let result := _calculate_bias result in
  latest ← iloc (-1) df;
  let result := result
    |> set_kdj_k (row_get "KDJ_K" (F 0) latest)
    |> set_kdj_d (row_get "KDJ_D" (F 0) latest)
    |> set_kdj_j (row_get "KDJ_J" (F 0) latest)
    |> set_bb_upper (row_get "BB_UPPER" (F 0) latest)
    |> set_bb_middle (row_get "BB_MIDDLE" (F 0) latest)
    |> set_bb_lower (row_get "BB_LOWER" (F 0) latest)
    |> set_momentum_5d (row_get "MOMENTUM_5D" (F 0) latest)
    |> set_momentum_10d (row_get "MOMENTUM_10D" (F 0) latest)
    |> set_vol_ma5 (row_get "VOL_MA5" (F 0) latest)
    |> set_vol_ma10 (row_get "VOL_MA10" (F 0) latest)
    |> set_vol_ma20 (row_get "VOL_MA20" (F 0) latest) in
  result ← _analyze_volume df result;
  result ← _analyze_support_resistance df result;
  result ← _analyze_macd df result;
  result ← _analyze_rsi df result;
  let result := _analyze_kdj df result in
  result ← _analyze_bollinger_bands df result;
  let result := _analyze_momentum df result in
  result ← _analyze_volume_ma df result;
  mret (_generate_signal result).

(** The indicator pipeline of [analyze]: every step rebinds [df] to the frame
    object returned by the previous one. *)
Definition add_indicators (df : ref) : M ref :=
  df ← sort_values "date" df;
  df ← _calculate_mas df;
  df ← _calculate_macd df;
  df ← _calculate_rsi df;
  df ← _calculate_kdj df;
  df ← _calculate_bollinger_bands df;
  df ← _calculate_momentum df;
  df ← _calculate_volume_ma df;
  mret df.

(** [StockTrendAnalyzer.analyze]; [None] is Python's [None]. *)
Definition analyze (df : option ref) (code : string) : M TrendAnalysisResult :=
  let result := new_result code in
  let degenerate :=
    set_risk_factors (risk_factors result ++ [insufficient_data]) result in
  match df with
  | None => mret degenerate
  | Some l =>
      f ← deref l;
      if empty_frame f || bool_decide (len f < 20)%nat then mret degenerate
      else
        df ← add_indicators l;
        f ← deref df;
        lift (classify f result)
  end.

(* ===================================================================== *)
(** ** The frames the calculators return *)
(* ===================================================================== *)

(** Each calculator leaves its argument alone and returns a fresh frame; the
    functions below give that frame from the argument frame and the columns
    read from it. *)

Definition sorted_frame (keys : column) (f : DataFrame) : DataFrame :=
  {| nrows := nrows f; columns := take_rows (sort_perm keys) <$> columns f |}.

Definition mas_frame (c : column) (f : DataFrame) : DataFrame :=
  let ma20 := rolling_mean 20 c in
  let ma60 := if decide (60 <= nrows f)%nat then rolling_mean 60 c else ma20 in
  let ma250 := if decide (250 <= nrows f)%nat then rolling_mean 250 c else ma60 in
  f |> set_column "MA5" (rolling_mean 5 c)
    |> set_column "MA10" (rolling_mean 10 c)
    |> set_column "MA20" ma20
    |> set_column "MA60" ma60
    |> set_column "MA250" ma250.

Definition macd_frame (c : column) (f : DataFrame) : DataFrame :=
  let dif := col_sub (ewm_mean 12 c) (ewm_mean 26 c) in
  let dea := ewm_mean 9 dif in
  f |> set_column "MACD_DIF" dif
    |> set_column "MACD_DEA" dea
    |> set_column "MACD_BAR" (col_scale (F 2) (col_sub dif dea)).

Definition rsi_frame (c : column) (f : DataFrame) : DataFrame :=
  f |> set_column "RSI_6" (rsi_series 6 c)
    |> set_column "RSI_12" (rsi_series 12 c)
    |> set_column "RSI_24" (rsi_series 24 c).

Definition kdj_frame (lo hi c : column) (f : DataFrame) : DataFrame :=
  let low_min := rolling_min 9 lo in
  let high_max := rolling_max 9 hi in
  let denominator := replace_ (F 0) NaN (col_sub high_max low_min) in
  let rsv :=
    fillna (F 50) (col_scale (F 100) (col_div (col_sub c low_min) denominator)) in
  let k := ewm_mean 3 rsv in
  let d := ewm_mean 3 k in
  f |> set_column "KDJ_K" k
    |> set_column "KDJ_D" d
    |> set_column "KDJ_J"
         (col_sub ((fun x => (F 3 * x)%fl) <$> k) ((fun x => (F 2 * x)%fl) <$> d)).

Definition bb_frame (c : column) (f : DataFrame) : DataFrame :=
  let middle := rolling_mean 20 c in
  let band := col_scale (F 2) (rolling_std 20 c) in
  f |> set_column "BB_MIDDLE" middle
    |> set_column "BB_UPPER" (col_add middle band)
    |> set_column "BB_LOWER" (col_sub middle band).

Definition momentum_frame (c : column) (f : DataFrame) : DataFrame :=
  f |> set_column "MOMENTUM_5D" (col_scale (F 100) (pct_change 5 c))
    |> set_column "MOMENTUM_10D" (col_scale (F 100) (pct_change 10 c)).

Definition volume_ma_frame (v : column) (f : DataFrame) : DataFrame :=
  f |> set_column "VOL_MA5" (rolling_mean 5 v)
    |> set_column "VOL_MA10" (rolling_mean 10 v)
    |> set_column "VOL_MA20" (rolling_mean 20 v).

(** The frame [classify] reads: the sorted frame [f0] with every indicator
    column added. *)
Definition augmented (c lo hi v : column) (f0 : DataFrame) : DataFrame :=
  f0 |> mas_frame c |> macd_frame c |> rsi_frame c |> kdj_frame lo hi c
     |> bb_frame c |> momentum_frame c |> volume_ma_frame v.

(** The row of [f] at position [j]. *)
Definition row_at (f : DataFrame) (j : nat) : row :=
  (fun c => at_pos c j) <$> columns f.

(* ===================================================================== *)
(** ** Inputs and statements *)
(* ===================================================================== *)

(** The columns [analyze] reads from its argument ([open] is never read). *)
Definition required_columns : list string :=
  ["date"; "close"; "high"; "low"; "volume"].

Definition accepted (f : DataFrame) : Prop :=
  Forall (fun k => is_Some (columns f !! k)) required_columns.

(** The input of the early return of [analyze]: [None], an empty frame or
    fewer than 20 bars. *)
Definition short_input (df : option ref) (s : store) : Prop :=
  match df with
  | None => True
  | Some l =>
      exists f, s !! l = Some f /\ (empty_frame f = true \/ (nrows f < 20)%nat)
  end.

(** The result of the early return. *)
Definition degenerate_result (code : string) : TrendAnalysisResult :=
  set_risk_factors [insufficient_data] (new_result code).

(** The cascade of the final action, as the specification words it. *)
Definition cascade_spec (score : Z) (trend : TrendStatus.t) : BuySignal.t :=
  if decide (75 <= score /\ trend ∈ [TrendStatus.STRONG_BULL; TrendStatus.BULL])
  then BuySignal.STRONG_BUY
  else if decide (60 <= score /\
                  trend ∈ [TrendStatus.STRONG_BULL; TrendStatus.BULL;
                           TrendStatus.WEAK_BULL])
  then BuySignal.BUY
  else if decide (45 <= score) then BuySignal.HOLD
  else if decide (30 <= score) then BuySignal.WAIT
  else if decide (trend ∈ [TrendStatus.BEAR; TrendStatus.STRONG_BEAR])
  then BuySignal.STRONG_SELL
  else BuySignal.SELL.

(** The score written by [_generate_signal]. *)
Definition total_score (r : TrendAnalysisResult) : Z :=
  score (score_rsi r (score_macd r (score_support r (score_volume r
    (score_bias r (score_trend r (mkTally 0 [] []))))))).

(** A frame of daily bars from its close prices: bar [i] is dated [i], opens
    at its close, ranges one unit either side of it and trades [volume]. *)
Definition bars (volume : Z) (closes : list Z) : DataFrame :=
  {| nrows := length closes;
     columns := list_to_map [
       ("date", F <$> (Z.of_nat <$> seq 0 (length closes)));
       ("open", F <$> closes);
       ("high", (fun x => F (x + 1)) <$> closes);
       ("low", (fun x => F (x - 1)) <$> closes);
       ("close", F <$> closes);
       ("volume", (fun _ => F volume) <$> closes)] |}.

(** Thirty rising closes. *)
Definition rising_closes : list Z := (fun i => 100 + Z.of_nat i) <$> seq 0 30.
Definition rising_bars : DataFrame := bars 1000 rising_closes.

(** Nineteen bars: one too few. *)
Definition short_bars : DataFrame := bars 1000 (take 19 rising_closes).

(** Twenty-six falling closes. *)
Definition falling_closes : list Z := (fun i => 100 - Z.of_nat i) <$> seq 0 26.
Definition falling_bars : DataFrame := bars 1000 falling_closes.

(** A slide of 24 bars, then a jump held for two bars: DIF has been above
    zero and above DEA for two bars while DEA is still below zero. *)
Definition rebound_closes : list Z := take 24 falling_closes ++ [147; 147].
Definition rebound_bars : DataFrame := bars 1000 rebound_closes.

(** Fifteen flat bars, a four-bar climb, six flat bars: the MA5-MA20 spread
    peaks four bars before the end. *)
Definition plateau_closes : list Z :=
  replicate 15 100 ++ [103; 106; 109; 112] ++ replicate 6 112.
Definition plateau_bars : DataFrame := bars 1000 plateau_closes.

(** Twenty closes rising by 2: the fifth bar from the end has no MA20
    yet. *)
Definition steep_closes : list Z := (fun i => 100 + 2 * Z.of_nat i) <$> seq 0 20.
Definition steep_bars : DataFrame := bars 1000 steep_closes.

(** [r] with the three averages [classify] reads from the latest bar of
    a frame whose closes are [c]. *)
Definition with_latest_mas (c : column) (r : TrendAnalysisResult)
  : TrendAnalysisResult :=
  let i := (length c - 1)%nat in
  r |> set_ma5 (at_pos (rolling_mean 5 c) i)
    |> set_ma10 (at_pos (rolling_mean 10 c) i)
    |> set_ma20 (at_pos (rolling_mean 20 c) i).

(** What a run returned, if it returned. *)
Definition returned {A : Type} (x : outcome A * store) : option A :=
  match x.1 with
  | Ok a => Some a
  | Raise _ => None
  end.

(** The six members of [BuySignal]. *)
Definition six_actions : list BuySignal.t :=
  [BuySignal.STRONG_BUY; BuySignal.BUY; BuySignal.HOLD; BuySignal.WAIT;
   BuySignal.SELL; BuySignal.STRONG_SELL].

(** The seven indicator calculators. *)
Definition calculators : list (ref -> M ref) :=
  [_calculate_mas; _calculate_macd; _calculate_rsi; _calculate_kdj;
   _calculate_bollinger_bands; _calculate_momentum; _calculate_volume_ma].

(** The average gain and the average loss of [_calculate_rsi] over
    [period] bars: [avg_gain] and [avg_loss] of the source. *)
Definition avg_gain (period : nat) (close : column) : column :=
  rolling_mean period (where_ (fun d => (d >? F 0)%fl) (F 0) (diff close)).

Definition avg_loss (period : nat) (close : column) : column :=
  rolling_mean period
    (fneg <$> where_ (fun d => (d <? F 0)%fl) (F 0) (diff close)).

(** A magnitude below which the sums and squares of a 20-bar window stay
    in the range of the doubles: [2^500]. *)
Definition SAFE_MAGNITUDE : Q := inject_Z (2 ^ 500).

(** A value that, when it is a number, is at most [SAFE_MAGNITUDE] in
    magnitude. *)
Definition moderate (x : fl) : Prop :=
  match x with
  | Fin q => (Qabs q <= SAFE_MAGNITUDE)%Q
  | _ => True
  end.

(** Twenty bars with closes near the top of the range of the doubles:
    [2^1020 * (4 + i mod 3)].  Each close is a double, and the sum of the
    first four already exceeds the largest double. *)
Definition huge_closes : list Z :=
  (fun i => 2 ^ 1020 * (4 + Z.of_nat i mod 3)) <$> seq 0 20.

Definition huge_bars : DataFrame :=
  {| nrows := length huge_closes;
     columns := list_to_map [
       ("date", F <$> (Z.of_nat <$> seq 0 (length huge_closes)));
       ("open", F <$> huge_closes);
       ("high", F <$> huge_closes);
       ("low", F <$> huge_closes);
       ("close", F <$> huge_closes);
       ("volume", (fun _ => F 1000) <$> huge_closes)] |}.

(** Thirty bars at one price. *)
Definition flat_bars : DataFrame := bars 1000 (replicate 30 100).

(** The spread of two averages in percent of the second, 0 when the second
    is missing or not positive: [prev_spread] and [curr_spread] of
    [_analyze_trend]. *)
Definition spread_pct (a b : fl) : fl :=
  if (b >? F 0)%fl then ((a - b) / b * F 100)%fl else F 0.

(** A value none of whose finite instances is negative. *)
Definition not_negative (x : fl) : Prop :=
  match x with
  | Fin q => (0 <= q)%Q
  | _ => True
  end.

(** An RSI value from the ratio of average gain to average loss. *)
Definition rsi_of_rs (rs : fl) : fl := (F 100 - F 100 / (F 1 + rs))%fl.

(** A number between 0 and 100. *)
Definition in_0_100 (x : fl) : Prop :=
  exists q, x = Fin q /\ (0 <= q)%Q /\ (q <= 100)%Q.

(** The Bollinger fields are written once, by [classify]; the classifiers
    that run before [_analyze_bollinger_bands] leave them alone. *)
Definition same_bb (r r' : TrendAnalysisResult) : Prop :=
  bb_upper r' = bb_upper r /\ bb_middle r' = bb_middle r
  /\ bb_lower r' = bb_lower r.

(** [keeps n m Q]: run from a store with at least [n] objects, [m] leaves
    the first [n] objects as they are, and a value it returns satisfies
    [Q]. *)
Definition keeps {A : Type} (n : nat) (m : M A) (Q : A -> Prop) : Prop :=
  forall s o s',
    (n <= length s)%nat -> m s = (o, s') ->
    take n s' = take n s /\ (n <= length s')%nat
    /\ forall a, o = Ok a -> Q a.

(** The fields [classify] copies from the latest bar: price and moving
    averages, and the oscillator, band, momentum and volume averages. *)
Definition price_fields (r : TrendAnalysisResult) : list fl :=
  [current_price r; ma5 r; ma10 r; ma20 r; ma60 r; ma250 r].

Definition indicator_fields (r : TrendAnalysisResult) : list fl :=
  [kdj_k r; kdj_d r; kdj_j r; bb_upper r; bb_middle r; bb_lower r;
   momentum_5d r; momentum_10d r; vol_ma5 r; vol_ma10 r; vol_ma20 r].

(** [kept r r']: the fields copied from the latest bar are the same in
    both results. *)
Definition kept (r r' : TrendAnalysisResult) : Prop :=
  price_fields r' = price_fields r /\ indicator_fields r' = indicator_fields r.

(** Column [k] of [f] in date order. *)
Definition sorted_column (k : string) (f : DataFrame) : column :=
  take_rows (sort_perm (default [] (columns f !! "date")))
    (default [] (columns f !! k)).

(** The frame [analyze] classifies: [f] in date order with every indicator
    column added. *)
Definition indicator_frame (f : DataFrame) : DataFrame :=
  augmented (sorted_column "close" f) (sorted_column "low" f)
    (sorted_column "high" f) (sorted_column "volume" f)
    (sorted_frame (default [] (columns f !! "date")) f).

(** Every column has one entry per row. *)
Definition well_formed (f : DataFrame) : Prop :=
  map_Forall (fun _ (c : column) => length c = nrows f) (columns f).

(** The position of the latest bar. *)
Definition latest_pos (f : DataFrame) : nat := (nrows f - 1)%nat.

(** The actions from the most cautious to the most confident. *)
Definition action_rank (a : BuySignal.t) : Z :=
  match a with
  | BuySignal.STRONG_SELL => 0
  | BuySignal.SELL => 1
  | BuySignal.WAIT => 2
  | BuySignal.HOLD => 3
  | BuySignal.BUY => 4
  | BuySignal.STRONG_BUY => 5
  end.

(** The number of messages a tally holds. *)
Definition messages (t : tally) : nat := (length (reasons t) + length (risks t))%nat.

(** No two entries of a column are the same number. *)
Fixpoint all_distinct (d : column) : bool :=
  match d with
  | [] => true
  | x :: d' => forallb (fun y => negb (x =? y)%fl) d' && all_distinct d'
  end.

(** Every row has a date and no two rows have the same one: the order of
    the rows after sorting is then fixed. *)
Definition distinct_dates (f : DataFrame) : bool :=
  let d := default [] (columns f !! "date") in
  forallb (fun x => match x with Fin _ => true | _ => false end) d
  && all_distinct d.

(** The fields each classifier writes, by group. *)
Definition trend_group (r : TrendAnalysisResult) :=
  (trend_status r, ma_alignment r, trend_strength r).
Definition volume_group (r : TrendAnalysisResult) :=
  (volume_ratio_5d r, volume_status r, volume_trend r).
Definition support_group (r : TrendAnalysisResult) :=
  (support_ma5 r, support_ma10 r, support_levels r, resistance_levels r).
Definition macd_group (r : TrendAnalysisResult) :=
  (macd_dif r, macd_dea r, macd_bar r, macd_status r, macd_signal r).
Definition rsi_group (r : TrendAnalysisResult) :=
  (rsi_6 r, rsi_12 r, rsi_24 r, rsi_status r, rsi_signal r).

(** The strength written with each trend. *)
Definition strength_of (s : TrendStatus.t) : fl :=
  match s with
  | TrendStatus.STRONG_BULL => F 90
  | TrendStatus.BULL => F 75
  | TrendStatus.WEAK_BULL => F 55
  | TrendStatus.CONSOLIDATION => F 50
  | TrendStatus.WEAK_BEAR => F 40
  | TrendStatus.BEAR => F 25
  | TrendStatus.STRONG_BEAR => F 10
  end.

(** What each MACD status says about DIF [d] and DEA [e] of the latest
    bar. *)
Definition macd_status_sign (st : MACDStatus.t) (d e : fl) : Prop :=
  match st with
  | MACDStatus.GOLDEN_CROSS_ZERO => (d - e >? F 0)%fl = true /\ (d >? F 0)%fl = true
  | MACDStatus.CROSSING_UP => (d >? F 0)%fl = true
  | MACDStatus.GOLDEN_CROSS => (d - e >? F 0)%fl = true /\ (d >? F 0)%fl = false
  | MACDStatus.DEATH_CROSS => (d - e <? F 0)%fl = true
  | MACDStatus.CROSSING_DOWN => (d <? F 0)%fl = true
  | MACDStatus.BEARISH => (d <? F 0)%fl = true /\ (e <? F 0)%fl = true
  | MACDStatus.BULLISH => (d <? F 0)%fl && (e <? F 0)%fl = false
  end.

(** The four steps of [_analyze_support_resistance]: the support tests at
    MA5, MA10 and MA20, and the resistance test at the 20-bar high. *)
Definition support_at_ma5 (result : TrendAnalysisResult) : TrendAnalysisResult :=
  let price := current_price result in
  if (ma5 result >? F 0)%fl then
    let ma5_distance := (fabs (price - ma5 result) / ma5 result)%fl in
    if (ma5_distance <=? MA_SUPPORT_TOLERANCE)%fl && (price >=? ma5 result)%fl
    then result
      |> set_support_ma5 true
      |> set_support_levels (support_levels result ++ [ma5 result])
    else result
  else result.

Definition support_at_ma10 (price : fl) (result : TrendAnalysisResult)
  : TrendAnalysisResult :=
  if (ma10 result >? F 0)%fl then
    let ma10_distance := (fabs (price - ma10 result) / ma10 result)%fl in
    if (ma10_distance <=? MA_SUPPORT_TOLERANCE)%fl && (price >=? ma10 result)%fl
    then
      let result := set_support_ma10 true result in
      if negb (fl_in (ma10 result) (support_levels result))
      then set_support_levels (support_levels result ++ [ma10 result]) result
      else result
    else result
  else result.

Definition support_at_ma20 (price : fl) (result : TrendAnalysisResult)
  : TrendAnalysisResult :=
  if (ma20 result >? F 0)%fl && (price >=? ma20 result)%fl
  then set_support_levels (support_levels result ++ [ma20 result]) result
  else result.

Definition resistance_at_high (df : DataFrame) (price : fl)
  (result : TrendAnalysisResult) : outcome TrendAnalysisResult :=
  if decide (20 <= len df)%nat then
    h ← getitem "high" df;
    let recent_high := series_max (iloc_slice (-20) None h) in
    if (recent_high >? price)%fl
    then mret (set_resistance_levels
                 (resistance_levels result ++ [recent_high]) result)
    else mret result
  else mret result.

(** A support level: a positive average not above the price. *)
Definition supports (price x : fl) : Prop :=
  (x >? F 0)%fl = true /\ (price >=? x)%fl = true.

(** What a step adds to the support levels. *)
Definition adds_support (price : fl) (r r' : TrendAnalysisResult) : Prop :=
  price_fields r' = price_fields r
  /\ resistance_levels r' = resistance_levels r
  /\ exists added,
       support_levels r' = support_levels r ++ added
       /\ (length added <= 1)%nat /\ Forall (supports price) added.

(** The RSI status by the value of the 12-bar RSI: the thresholds of
    [_analyze_rsi]. *)
Definition rsi_zone (x : fl) : RSIStatus.t :=
  if (x >? RSI_OVERBOUGHT)%fl then RSIStatus.OVERBOUGHT
  else if (x >? F 60)%fl then RSIStatus.STRONG_BUY
  else if (x >=? F 40)%fl then RSIStatus.NEUTRAL
  else if (x >=? RSI_OVERSOLD)%fl then RSIStatus.WEAK
  else RSIStatus.OVERSOLD.

(** The zones of a number. *)
Definition rsi_zone_of_number (q : Q) (st : RSIStatus.t) : Prop :=
  match st with
  | RSIStatus.OVERBOUGHT => (70 < q)%Q
  | RSIStatus.STRONG_BUY => (60 < q /\ q <= 70)%Q
  | RSIStatus.NEUTRAL => (40 <= q /\ q <= 60)%Q
  | RSIStatus.WEAK => (30 <= q /\ q < 40)%Q
  | RSIStatus.OVERSOLD => (q < 30)%Q
  end.

(** The columns in the order [analyze] first reads them: the sort reads
    the dates, the moving averages the closes, and KDJ the lows and then the
    highs; the volume is read last, by the volume averages. *)
Definition reading_order : list string :=
  ["date"; "close"; "low"; "high"; "volume"].

(** The first of the columns [ks] that the frame lacks. *)
Fixpoint first_absent (f : DataFrame) (ks : list string) : option string :=
  match ks with
  | [] => None
  | k :: ks' =>
      match columns f !! k with
      | None => Some k
      | Some _ => first_absent f ks'
      end
  end.

Definition first_missing (f : DataFrame) : option string :=
  first_absent f reading_order.

(** Thirty rising bars without the column of lows. *)
Definition lowless_bars : DataFrame :=
  {| nrows := nrows rising_bars; columns := delete "low" (columns rising_bars) |}.

(** The lines of [format_analysis], before they are joined.  An integer is
    printed in decimal; a float without a format specification is kept as a
    number with the empty specification. *)
Definition section_lines (title : string) (messages : list text) : list text :=
  match messages with
  | [] => []
  | _ => [] :: [Lit title] :: ((fun m => Lit "   " :: m) <$> messages)
  end.

Definition format_lines (result : TrendAnalysisResult) : list text :=
  [ [Lit "=== "; Lit (code result); Lit " 趋势分析 ==="];
    [];
    [Lit "📊 趋势判断: "; Lit (TrendStatus.value (trend_status result))];
    Lit "   均线排列: " :: ma_alignment result;
    [Lit "   趋势强度: "; Num "" (trend_strength result); Lit "/100"];
    [];
    [Lit "📈 均线数据:"];
    [Lit "   现价: "; Num ".2f" (current_price result)];
    [Lit "   MA5:  "; Num ".2f" (ma5 result); Lit " (乖离 ";
     Num "+.2f" (bias_ma5 result); Lit "%)"];
    [Lit "   MA10: "; Num ".2f" (ma10 result); Lit " (乖离 ";
     Num "+.2f" (bias_ma10 result); Lit "%)"];
    [Lit "   MA20: "; Num ".2f" (ma20 result); Lit " (乖离 ";
     Num "+.2f" (bias_ma20 result); Lit "%)"];
    [];
    [Lit "📊 量能分析: "; Lit (VolumeStatus.value (volume_status result))];
    [Lit "   量比(vs5日): "; Num ".2f" (volume_ratio_5d result)];
    Lit "   量能趋势: " :: volume_trend result;
    [];
    [Lit "📈 MACD指标: "; Lit (MACDStatus.value (macd_status result))];
    [Lit "   DIF: "; Num ".4f" (macd_dif result)];
    [Lit "   DEA: "; Num ".4f" (macd_dea result)];
    [Lit "   MACD: "; Num ".4f" (macd_bar result)];
    Lit "   信号: " :: macd_signal result;
    [];
    [Lit "📊 RSI指标: "; Lit (RSIStatus.value (rsi_status result))];
    [Lit "   RSI(6): "; Num ".1f" (rsi_6 result)];
    [Lit "   RSI(12): "; Num ".1f" (rsi_12 result)];
    [Lit "   RSI(24): "; Num ".1f" (rsi_24 result)];
    Lit "   信号: " :: rsi_signal result;
    [];
    [Lit "🎯 操作建议: "; Lit (BuySignal.value (buy_signal result))];
    [Lit "   综合评分: "; Lit (pretty (signal_score result)); Lit "/100"] ]
  ++ section_lines "✅ 买入理由:" (signal_reasons result)
  ++ section_lines "⚠️ 风险因素:" (risk_factors result).

(** [StockTrendAnalyzer.format_analysis]: the lines joined by newlines. *)
Definition format_analysis (result : TrendAnalysisResult) : text :=
  match format_lines result with
  | [] => []
  | l :: ls => l ++ concat ((fun m => Lit (String (Ascii.ascii_of_nat 10) EmptyString) :: m) <$> ls)
  end.

(** [analyze_stock]: a new analyzer, then [analyze]. *)
Definition analyze_stock (df : option ref) (code : string)
  : M TrendAnalysisResult :=
  analyze df code.

(* ===================================================================== *)
(** * Properties *)
(* ===================================================================== *)

(** ** Running store computations *)

Lemma bind_run {A B : Type} (m : M A) (k : A -> M B) s a s' :
  m s = (Ok a, s') -> (m ≫= k) s = k a s'.
Proof. intros H. unfold mbind, M_bind. rewrite H. reflexivity. Qed.

Lemma bind_assoc_run {A B C : Type} (m : M A) (k1 : A -> M B) (k2 : B -> M C) s :
  ((m ≫= k1) ≫= k2) s = (m ≫= fun x => k1 x ≫= k2) s.
Proof.
  unfold mbind, M_bind. destruct (m s) as [[a|e] s']; [|reflexivity].
  reflexivity.
Qed.

Lemma bind_Ok {A B : Type} (a : A) (k : A -> outcome B) : Ok a ≫= k = k a.
Proof. reflexivity. Qed.

Lemma bind_Ok_inv {A B : Type} (m : outcome A) (k : A -> outcome B) b :
  m ≫= k = Ok b -> exists a, m = Ok a /\ k a = Ok b.
Proof. destruct m; [eauto | discriminate]. Qed.

Lemma lookup_last (s : store) (f : DataFrame) : (s ++ [f]) !! length s = Some f.
Proof. apply list_lookup_middle. reflexivity. Qed.

Lemma copy_run s l f : s !! l = Some f -> copy l s = (Ok (length s), s ++ [f]).
Proof. intros H. unfold copy. erewrite bind_run; [reflexivity|]. unfold deref. rewrite H. reflexivity. Qed.

Lemma col_run s f k c :
  columns f !! k = Some c -> col (length s) k (s ++ [f]) = (Ok c, s ++ [f]).
Proof.
  intros H. unfold col. erewrite bind_run.
  2: { unfold deref. rewrite lookup_last. reflexivity. }
  unfold lift, getitem. rewrite H. reflexivity.
Qed.

Lemma setitem_run s f k c :
  setitem (length s) k c (s ++ [f]) = (Ok tt, s ++ [set_column k c f]).
Proof.
  unfold setitem. rewrite lookup_last. f_equal.
  rewrite insert_app_r_alt by lia.
  rewrite Nat.sub_diag. reflexivity.
Qed.

Lemma len_of_run s f : len_of (length s) (s ++ [f]) = (Ok (nrows f), s ++ [f]).
Proof.
  unfold len_of. erewrite bind_run.
  2: { unfold deref. rewrite lookup_last. reflexivity. }
  reflexivity.
Qed.

Lemma set_column_lookup k c f :
  columns (set_column k c f) !! k = Some c.
Proof. apply lookup_insert_eq. Qed.

Lemma set_column_lookup_ne k k' c f :
  k <> k' -> columns (set_column k c f) !! k' = columns f !! k'.
Proof. apply lookup_insert_ne. Qed.

Lemma set_column_nrows k c f : nrows (set_column k c f) = nrows f.
Proof. reflexivity. Qed.

(** Read a column of a frame built by item assignments. *)
Ltac find_column :=
  repeat (rewrite set_column_lookup_ne by discriminate);
  first [apply set_column_lookup | eassumption].

(** One step of a calculator running on its own copy. *)
Ltac run_step :=
  lazymatch goal with
  | |- ((_ ≫= _) ≫= _) _ = _ => rewrite bind_assoc_run
  | |- (copy _ ≫= _) _ = _ =>
      erewrite (bind_run (copy _)) by (apply copy_run; eassumption)
  | |- (setitem _ _ _ ≫= _) _ = _ =>
      erewrite (bind_run (setitem _ _ _)) by apply setitem_run
  | |- (col _ _ ≫= _) _ = _ =>
      erewrite (bind_run (col _ _)) by (apply col_run; find_column)
  | |- (len_of _ ≫= _) _ = _ =>
      erewrite (bind_run (len_of _)) by apply len_of_run
  end;
  cbv beta.

Lemma _calculate_mas_run s l f c :
  s !! l = Some f -> columns f !! "close" = Some c ->
  _calculate_mas l s = (Ok (length s), s ++ [mas_frame c f]).
Proof.
  intros Hl Hc. unfold _calculate_mas, mas_frame.
  do 8 run_step. rewrite !set_column_nrows.
  destruct (decide (60 <= nrows f)%nat).
  - do 4 run_step. rewrite !set_column_nrows.
    destruct (decide (250 <= nrows f)%nat); do 3 run_step; reflexivity.
  - do 4 run_step. rewrite !set_column_nrows.
    destruct (decide (250 <= nrows f)%nat); do 3 run_step; reflexivity.
Qed.

Lemma _calculate_macd_run s l f c :
  s !! l = Some f -> columns f !! "close" = Some c ->
  _calculate_macd l s = (Ok (length s), s ++ [macd_frame c f]).
Proof.
  intros Hl Hc. unfold _calculate_macd, macd_frame.
  repeat run_step. reflexivity.
Qed.

Lemma rsi_col_names :
  rsi_col_name RSI_SHORT = "RSI_6" /\ rsi_col_name RSI_MID = "RSI_12"
  /\ rsi_col_name RSI_LONG = "RSI_24".
Proof. repeat split; vm_compute; reflexivity. Qed.

Lemma _calculate_rsi_run s l f c :
  s !! l = Some f -> columns f !! "close" = Some c ->
  _calculate_rsi l s = (Ok (length s), s ++ [rsi_frame c f]).
Proof.
  intros Hl Hc. unfold _calculate_rsi, rsi_frame.
  destruct rsi_col_names as (E6 & E12 & E24).
  cbn [for_each]. rewrite E6, E12, E24.
  repeat run_step. reflexivity.
Qed.

Lemma _calculate_kdj_run s l f lo hi c :
  s !! l = Some f -> columns f !! "low" = Some lo ->
  columns f !! "high" = Some hi -> columns f !! "close" = Some c ->
  _calculate_kdj l s = (Ok (length s), s ++ [kdj_frame lo hi c f]).
Proof.
  intros Hl Hlo Hhi Hc. unfold _calculate_kdj, kdj_frame.
  repeat run_step. reflexivity.
Qed.

Lemma _calculate_bollinger_bands_run s l f c :
  s !! l = Some f -> columns f !! "close" = Some c ->
  _calculate_bollinger_bands l s = (Ok (length s), s ++ [bb_frame c f]).
Proof.
  intros Hl Hc. unfold _calculate_bollinger_bands, bb_frame.
  repeat run_step. reflexivity.
Qed.

Lemma _calculate_momentum_run s l f c :
  s !! l = Some f -> columns f !! "close" = Some c ->
  _calculate_momentum l s = (Ok (length s), s ++ [momentum_frame c f]).
Proof.
  intros Hl Hc. unfold _calculate_momentum, momentum_frame.
  repeat run_step. reflexivity.
Qed.

Lemma _calculate_volume_ma_run s l f v :
  s !! l = Some f -> columns f !! "volume" = Some v ->
  _calculate_volume_ma l s = (Ok (length s), s ++ [volume_ma_frame v f]).
Proof.
  intros Hl Hv. unfold _calculate_volume_ma, volume_ma_frame.
  repeat run_step. reflexivity.
Qed.

Lemma sort_values_run s l f k keys :
  s !! l = Some f -> columns f !! k = Some keys ->
  sort_values k l s = (Ok (length s), s ++ [sorted_frame keys f]).
Proof.
  intros Hl Hk. unfold sort_values.
  erewrite bind_run by (unfold deref; rewrite Hl; reflexivity).
  erewrite bind_run by (unfold lift, getitem; rewrite Hk; reflexivity).
  reflexivity.
Qed.

(** ** The scorer *)

Section Scorer.
Variable result : TrendAnalysisResult.
Variable t : tally.

Lemma score_trend_points :
  score (score_trend result t) = score t + trend_scores (trend_status result).
Proof.
  unfold score_trend.
  destruct (is_bull _); [reflexivity|]. destruct (is_bear _); reflexivity.
Qed.

Lemma score_bias_points :
  score t + 4 <= score (score_bias result t) <= score t + 20.
Proof.
  unfold score_bias.
  repeat match goal with |- context [if ?b then _ else _] => destruct b end;
    simpl; lia.
Qed.

Lemma score_volume_points :
  score (score_volume result t)
  = score t + volume_scores (volume_status result).
Proof.
  unfold score_volume.
  repeat match goal with |- context [if ?b then _ else _] => destruct b end;
    reflexivity.
Qed.

Lemma score_support_points :
  score t <= score (score_support result t) <= score t + 10.
Proof.
  unfold score_support.
  destruct (support_ma5 result), (support_ma10 result); simpl; lia.
Qed.

Lemma score_macd_points :
  score (score_macd result t) = score t + macd_scores (macd_status result).
Proof.
  unfold score_macd.
  repeat match goal with |- context [if ?b then _ else _] => destruct b end;
    reflexivity.
Qed.

Lemma score_rsi_points :
  score (score_rsi result t) = score t + rsi_scores (rsi_status result).
Proof.
  unfold score_rsi.
  repeat match goal with |- context [if ?b then _ else _] => destruct b end;
    reflexivity.
Qed.
End Scorer.

Lemma trend_scores_range s : 0 <= trend_scores s <= 30.
Proof. destruct s; simpl; lia. Qed.
Lemma volume_scores_range s : 0 <= volume_scores s <= 15.
Proof. destruct s; simpl; lia. Qed.
Lemma macd_scores_range s : 0 <= macd_scores s <= 15.
Proof. destruct s; simpl; lia. Qed.
Lemma rsi_scores_range s : 0 <= rsi_scores s <= 10.
Proof. destruct s; simpl; lia. Qed.

Lemma generate_signal_score r :
  signal_score (_generate_signal r) = total_score r.
Proof. reflexivity. Qed.

Lemma generate_signal_trend r :
  trend_status (_generate_signal r) = trend_status r.
Proof. reflexivity. Qed.

Lemma generate_signal_buy r :
  buy_signal (_generate_signal r) = decide_signal (total_score r) (trend_status r).
Proof. reflexivity. Qed.

Lemma total_score_range r : 4 <= total_score r <= 100.
Proof.
  unfold total_score.
  rewrite score_rsi_points, score_macd_points.
  pose proof (score_support_points r
    (score_volume r (score_bias r (score_trend r (mkTally 0 [] []))))) as Hs.
  rewrite score_volume_points in Hs.
  pose proof (score_bias_points r (score_trend r (mkTally 0 [] []))) as Hb.
  rewrite score_trend_points in Hb. simpl in Hb.
  pose proof (trend_scores_range (trend_status r)).
  pose proof (volume_scores_range (volume_status r)).
  pose proof (macd_scores_range (macd_status r)).
  pose proof (rsi_scores_range (rsi_status r)).
  lia.
Qed.

(** ** Floats *)

Lemma Qltb_lt a b : Qltb a b = true <-> (a < b)%Q.
Proof.
  unfold Qltb. rewrite negb_true_iff. split.
  - intros H. apply Qnot_le_lt. intros Hle.
    apply Qle_bool_iff in Hle. congruence.
  - intros H. destruct (Qle_bool b a) eqn:E; [|reflexivity].
    apply Qle_bool_iff in E. apply Qlt_not_le in H. contradiction.
Qed.

Lemma Qltb_ge a b : Qltb a b = false <-> (b <= a)%Q.
Proof.
  unfold Qltb. rewrite negb_false_iff. apply Qle_bool_iff.
Qed.

Lemma Qsqrt_nonneg q : (0 <= Qsqrt q)%Q.
Proof.
  unfold Qsqrt, Qle. cbn [Qnum Qden].
  rewrite Z.mul_0_l, Z.mul_1_r. apply Z.sqrt_nonneg.
Qed.

(** The float of an exact result is an infinity or the result itself. *)
Lemma fl_of_Q_cases q :
  (fl_of_Q q = PInf /\ (OVERFLOW <= q)%Q)
  \/ (fl_of_Q q = NInf /\ (q <= - OVERFLOW)%Q)
  \/ (fl_of_Q q = Fin (Qred q) /\ (- OVERFLOW < q)%Q /\ (q < OVERFLOW)%Q).
Proof.
  unfold fl_of_Q.
  destruct (Qle_bool OVERFLOW q) eqn:E1.
  { left. split; [reflexivity|]. apply Qle_bool_iff, E1. }
  destruct (Qle_bool q (- OVERFLOW)) eqn:E2.
  { right. left. split; [reflexivity|]. apply Qle_bool_iff, E2. }
  right. right. split; [reflexivity|]. split.
  - apply Qnot_le_lt. intros H. apply Qle_bool_iff in H. congruence.
  - apply Qnot_le_lt. intros H. apply Qle_bool_iff in H. congruence.
Qed.

Lemma fl_of_Q_in_range q :
  (- OVERFLOW < q)%Q -> (q < OVERFLOW)%Q -> fl_of_Q q = Fin (Qred q).
Proof.
  intros H1 H2.
  destruct (fl_of_Q_cases q) as [[_ H]|[[_ H]|[H _]]]; [| |exact H].
  - apply Qlt_not_le in H2. contradiction.
  - apply Qlt_not_le in H1. contradiction.
Qed.

Lemma OVERFLOW_pos : (0 < OVERFLOW)%Q.
Proof. unfold Qlt. vm_compute. reflexivity. Qed.

Lemma Qred_zero q : (q == 0)%Q -> Qred q = 0%Q.
Proof. intros H. rewrite (Qred_complete q 0 H). reflexivity. Qed.

(** The square root, taken on the grid, does not exceed the root of a
    square above its argument. *)
Lemma Qsqrt_le (q : Q) (k : Z) :
  (0 <= k)%Z -> (q <= inject_Z (k * k))%Q -> (Qsqrt q <= inject_Z k)%Q.
Proof.
  intros Hk Hq. unfold Qsqrt, Qle. cbn [Qnum Qden inject_Z].
  rewrite Z.mul_1_r.
  assert (Hf : (Qfloor (q * inject_Z (2 ^ 104))
                <= (k * 2 ^ 52) * (k * 2 ^ 52))%Z).
  { rewrite <- (Qfloor_Z ((k * 2 ^ 52) * (k * 2 ^ 52))).
    apply Qfloor_resp_le.
    replace ((k * 2 ^ 52) * (k * 2 ^ 52))%Z with ((k * k) * 2 ^ 104)%Z
      by (change (2 ^ 104)%Z with (2 ^ 52 * 2 ^ 52)%Z; ring).
    rewrite inject_Z_mult. apply Qmult_le_compat_r; [exact Hq|].
    unfold Qle. simpl. lia. }
  apply Z.sqrt_le_mono in Hf.
  rewrite Z.sqrt_square in Hf by lia. exact Hf.
Qed.

(** ** Series *)

Lemma at_pos_lookup (c : column) i x : c !! i = Some x -> at_pos c i = x.
Proof. unfold at_pos. intros ->. reflexivity. Qed.

Lemma at_pos_ge (c : column) i : (length c <= i)%nat -> at_pos c i = NaN.
Proof. unfold at_pos. intros H. rewrite lookup_ge_None_2 by exact H. reflexivity. Qed.

Lemma rolling_length w agg c : length (rolling w agg c) = length c.
Proof. unfold rolling. rewrite length_fmap, length_seq. reflexivity. Qed.

Lemma rolling_lookup w agg (c : column) i :
  (i < length c)%nat ->
  rolling w agg c !! i = Some (from_option agg NaN (window w i c)).
Proof.
  intros H. unfold rolling. rewrite list_lookup_fmap, lookup_seq_lt by exact H.
  reflexivity.
Qed.

Lemma at_pos_rolling w agg (c : column) i :
  at_pos (rolling w agg c) i
  = if decide (i < length c)%nat then from_option agg NaN (window w i c) else NaN.
Proof.
  destruct (decide _) as [H|H].
  - apply at_pos_lookup, rolling_lookup, H.
  - apply at_pos_ge. rewrite rolling_length. lia.
Qed.

Lemma at_pos_zip_with (g : fl -> fl -> fl) (a b : column) i :
  length a = length b ->
  at_pos (zip_with g a b) i
  = if decide (i < length a)%nat then g (at_pos a i) (at_pos b i) else NaN.
Proof.
  intros Hlen. unfold at_pos. rewrite lookup_zip_with.
  destruct (decide _) as [H|H].
  - destruct (lookup_lt_is_Some_2 a i H) as [x ->].
    destruct (lookup_lt_is_Some_2 b i) as [y ->]; [lia|]. reflexivity.
  - rewrite (lookup_ge_None_2 a) by lia. reflexivity.
Qed.

Lemma at_pos_fmap (g : fl -> fl) (a : column) i :
  at_pos (g <$> a) i = if decide (i < length a)%nat then g (at_pos a i) else NaN.
Proof.
  unfold at_pos. rewrite list_lookup_fmap.
  destruct (decide _) as [H|H].
  - destruct (lookup_lt_is_Some_2 a i H) as [x ->]. reflexivity.
  - rewrite (lookup_ge_None_2 a) by lia. reflexivity.
Qed.

Lemma window_length w i (c : column) xs :
  (i < length c)%nat -> window w i c = Some xs -> length xs = w.
Proof.
  intros Hi. unfold window. destruct (decide _) as [H|]; [|discriminate].
  intros Hm. apply mapM_Some_1, Forall2_length in Hm. rewrite <- Hm.
  rewrite length_take_le; [reflexivity|]. rewrite length_drop. lia.
Qed.

(** ** The compensated sum *)

(** A sum that is not a number stays so. *)
Lemma fadd_not_finite_l x y : ~ finite x -> ~ finite (x + y)%fl.
Proof. destruct x, y; simpl; tauto. Qed.

Lemma kahan_add_not_finite st v :
  ~ finite st.1 -> ~ finite (kahan_add st v).1.
Proof. intros H. unfold kahan_add. cbn [fst]. apply fadd_not_finite_l, H. Qed.

Lemma kahan_fold_not_finite xs st :
  ~ finite st.1 -> ~ finite (foldl kahan_add st xs).1.
Proof.
  revert st. induction xs as [|x xs IH]; intros st H; [exact H|].
  cbn [foldl]. apply IH, kahan_add_not_finite, H.
Qed.

(** A step that leaves a number leaves the exact sum and no compensation. *)
Lemma fsub_fin a b : (Fin a - Fin b)%fl = fl_of_Q (a + - b).
Proof. reflexivity. Qed.

Lemma fadd_fin a b : (Fin a + Fin b)%fl = fl_of_Q (a + b).
Proof. reflexivity. Qed.

Lemma kahan_add_fin s v t c :
  kahan_add (Fin s, F 0) v = (Fin t, c) -> c = F 0 /\ (t == s + v)%Q.
Proof.
  unfold kahan_add. cbn [fst snd]. unfold F. rewrite fsub_fin.
  pose proof OVERFLOW_pos as Hpos.
  destruct (fl_of_Q_cases (v + - inject_Z 0)) as [[-> _]|[[-> _]|[-> [Hy1 Hy2]]]];
    [discriminate|discriminate|].
  rewrite fadd_fin.
  destruct (fl_of_Q_cases (s + Qred (v + - inject_Z 0)))
    as [[-> _]|[[-> _]|[-> [Ht1 Ht2]]]]; [discriminate|discriminate|].
  intros H. injection H as Ht <-. subst t.
  rewrite !Qred_correct in Ht1, Ht2. unfold inject_Z in *.
  split; [|rewrite !Qred_correct; lra].
  rewrite (fl_of_Q_in_range (Qred _ + - s))
    by (rewrite !Qred_correct; lra).
  rewrite fsub_fin. rewrite fl_of_Q_in_range by (rewrite !Qred_correct; lra).
  rewrite Qred_zero by (rewrite !Qred_correct; lra). reflexivity.
Qed.

Lemma kahan_fold_fin xs s t c :
  foldl kahan_add (Fin s, F 0) xs = (Fin t, c) ->
  c = F 0 /\ (t == s + Qsum xs)%Q.
Proof.
  revert s. induction xs as [|x xs IH]; intros s H.
  - injection H as -> <-. split; [reflexivity|]. unfold Qsum. simpl. lra.
  - cbn [foldl] in H.
    destruct (kahan_add (Fin s, F 0) x) as [u c1] eqn:E.
    destruct u as [u| | |].
    + apply kahan_add_fin in E as [-> Hu].
      apply IH in H as [-> Ht]. split; [reflexivity|].
      unfold Qsum in *. cbn [foldr]. lra.
    + pose proof (kahan_fold_not_finite xs (PInf, c1)) as K.
      rewrite H in K. exfalso. apply K; simpl; tauto.
    + pose proof (kahan_fold_not_finite xs (NInf, c1)) as K.
      rewrite H in K. exfalso. apply K; simpl; tauto.
    + pose proof (kahan_fold_not_finite xs (NaN, c1)) as K.
      rewrite H in K. exfalso. apply K; simpl; tauto.
Qed.

(** A step inside the range leaves a number. *)
Lemma kahan_add_in_range s v :
  (Qabs s + Qabs v < OVERFLOW)%Q ->
  exists t, kahan_add (Fin s, F 0) v = (Fin t, F 0) /\ (t == s + v)%Q.
Proof.
  intros Hb.
  pose proof (Qabs_nonneg s) as Hs0. pose proof (Qabs_nonneg v) as Hv0.
  pose proof (Qle_Qabs s) as Hs1. pose proof (Qle_Qabs v) as Hv1.
  pose proof (Qle_Qabs (- s)) as Hs2. pose proof (Qle_Qabs (- v)) as Hv2.
  rewrite Qabs_opp in Hs2, Hv2.
  destruct (kahan_add (Fin s, F 0) v) as [u c] eqn:E.
  assert (Hu : exists t, u = Fin t).
  { unfold kahan_add in E. cbn [fst snd] in E. injection E as Eu _.
    rewrite fl_of_Q_in_range in Eu by (unfold inject_Z; lra).
    rewrite fl_of_Q_in_range in Eu
      by (rewrite !Qred_correct; unfold inject_Z; lra).
    eexists. symmetry. exact Eu. }
  destruct Hu as [t ->]. apply kahan_add_fin in E as [-> Ht].
  exists t. split; [reflexivity|exact Ht].
Qed.

Lemma kahan_fold_in_range xs s :
  (Qabs s + Qsum (Qabs <$> xs) < OVERFLOW)%Q ->
  exists t,
    foldl kahan_add (Fin s, F 0) xs = (Fin t, F 0) /\ (t == s + Qsum xs)%Q.
Proof.
  revert s. induction xs as [|x xs IH]; intros s Hb.
  - exists s. split; [reflexivity|]. unfold Qsum. simpl. lra.
  - cbn [fmap list_fmap] in Hb. unfold Qsum in Hb. cbn [foldr] in Hb.
    fold (Qsum (Qabs <$> xs)) in Hb.
    assert (Hrest : (0 <= Qsum (Qabs <$> xs))%Q).
    { clear. induction xs as [|y ys IH]; unfold Qsum in *; cbn [fmap list_fmap foldr];
        [apply Qle_refl|]. pose proof (Qabs_nonneg y). lra. }
    destruct (kahan_add_in_range s x) as (u & E & Hu); [lra|].
    cbn [foldl]. rewrite E.
    destruct (IH u) as (t & Et & Ht).
    { pose proof (Qabs_triangle s x) as Htri. rewrite Hu. lra. }
    exists t. split; [exact Et|]. unfold Qsum in *. cbn [foldr]. lra.
Qed.

(** ** Bounds on a window *)

Lemma Qabs_bound (x b : Q) : (Qabs x <= b)%Q <-> (- b <= x /\ x <= b)%Q.
Proof. apply Qabs_Qle_condition. Qed.

Lemma Qsum_abs_bound (xs : list Q) (b : Q) :
  Forall (fun x => Qabs x <= b)%Q xs ->
  (Qsum (Qabs <$> xs) <= inject_Z (Z.of_nat (length xs)) * b)%Q.
Proof.
  induction 1 as [|x xs Hx _ IH]; unfold Qsum in *.
  - cbn [fmap list_fmap foldr length].
    change (inject_Z (Z.of_nat 0)) with 0%Q. lra.
  - cbn [fmap list_fmap foldr length]. rewrite Nat2Z.inj_succ, <- Z.add_1_r.
    rewrite inject_Z_plus. unfold inject_Z at 2. lra.
Qed.

Lemma Qsum_bound (xs : list Q) (b : Q) :
  Forall (fun x => Qabs x <= b)%Q xs ->
  (Qabs (Qsum xs) <= inject_Z (Z.of_nat (length xs)) * b)%Q.
Proof.
  induction 1 as [|x xs Hx _ IH]; unfold Qsum in *.
  - cbn [foldr length]. change (inject_Z (Z.of_nat 0)) with 0%Q.
    apply Qabs_bound. lra.
  - cbn [foldr length]. rewrite Nat2Z.inj_succ, <- Z.add_1_r.
    rewrite inject_Z_plus. unfold inject_Z at 2.
    apply Qabs_bound in Hx, IH. apply Qabs_bound. lra.
Qed.

Lemma Qsum_le_each (xs : list Q) (b : Q) :
  Forall (fun x => 0 <= x /\ x <= b)%Q xs ->
  (0 <= Qsum xs /\ Qsum xs <= inject_Z (Z.of_nat (length xs)) * b)%Q.
Proof.
  induction 1 as [|x xs Hx _ IH]; unfold Qsum in *.
  - cbn [fmap list_fmap foldr length].
    change (inject_Z (Z.of_nat 0)) with 0%Q. lra.
  - cbn [foldr length]. rewrite Nat2Z.inj_succ, <- Z.add_1_r.
    rewrite inject_Z_plus. unfold inject_Z at 2. lra.
Qed.

Lemma Qdiv_nat_bound (t b : Q) (n : nat) :
  (1 <= n)%nat -> (Qabs t <= inject_Z (Z.of_nat n) * b)%Q ->
  (Qabs (t / inject_Z (Z.of_nat n)) <= b)%Q.
Proof.
  intros Hn Ht.
  assert (Hpos : (0 < inject_Z (Z.of_nat n))%Q)
    by (unfold Qlt, inject_Z; simpl; lia).
  apply Qabs_bound in Ht. apply Qabs_bound. split.
  - apply Qle_shift_div_l; [exact Hpos|]. lra.
  - apply Qle_shift_div_r; [exact Hpos|]. lra.
Qed.

Lemma Qmean_bound (xs : list Q) (b : Q) :
  xs <> [] -> Forall (fun x => Qabs x <= b)%Q xs -> (Qabs (Qmean xs) <= b)%Q.
Proof.
  intros Hne H. unfold Qmean. apply Qdiv_nat_bound.
  - destruct xs; [contradiction|simpl; lia].
  - apply Qsum_bound, H.
Qed.

(** ** The window aggregates inside the safe range *)

Lemma safe_sum_in_range (n : nat) :
  (n <= 1024)%nat ->
  (inject_Z (Z.of_nat n) * SAFE_MAGNITUDE < OVERFLOW)%Q.
Proof.
  intros Hn.
  apply Qle_lt_trans with (inject_Z 1024 * SAFE_MAGNITUDE)%Q.
  - apply Qmult_le_compat_r.
    + unfold Qle, inject_Z. simpl. lia.
    + unfold Qle. vm_compute. discriminate.
  - unfold Qlt. vm_compute. reflexivity.
Qed.

(** The mean of a window of moderate numbers is a moderate number. *)
Lemma mean_agg_moderate (xs : list Q) :
  xs <> [] -> (length xs <= 1024)%nat ->
  Forall (fun x => Qabs x <= SAFE_MAGNITUDE)%Q xs ->
  exists m, mean_agg xs = Fin m /\ (Qabs m <= SAFE_MAGNITUDE)%Q.
Proof.
  intros Hne Hlen Hb. unfold mean_agg.
  destruct xs as [|x xs']; [contradiction|].
  destruct (forallb (Qeq_bool x) xs').
  { eexists. split; [reflexivity|]. rewrite Qred_correct.
    inversion Hb; assumption. }
  set (xs := x :: xs') in *.
  pose proof (safe_sum_in_range (length xs) Hlen) as Hsafe.
  pose proof (Qsum_abs_bound xs _ Hb) as Habs.
  destruct (kahan_fold_in_range xs 0) as (t & Et & Ht).
  { change (Qabs 0) with 0%Q. lra. }
  change (foldl kahan_add (F 0, F 0) xs) with (foldl kahan_add (Fin 0, F 0) xs).
  rewrite Et. cbn [fst F fdiv].
  assert (Hn : (1 <= length xs)%nat) by (simpl; lia).
  assert (Hnz : Qeq_bool (inject_Z (Z.of_nat (length xs))) 0 = false).
  { apply not_true_iff_false. intros E. apply Qeq_bool_iff in E.
    unfold Qeq, inject_Z in E. simpl in E. lia. }
  rewrite Hnz.
  assert (Hm : (Qabs (t / inject_Z (Z.of_nat (length xs))) <= SAFE_MAGNITUDE)%Q).
  { apply Qdiv_nat_bound; [exact Hn|]. rewrite Ht, Qplus_0_l.
    apply Qsum_bound, Hb. }
  assert (Hsm : (SAFE_MAGNITUDE < OVERFLOW)%Q)
    by (unfold Qlt; vm_compute; reflexivity).
  pose proof Hm as Hm'. apply Qabs_bound in Hm'.
  rewrite fl_of_Q_in_range by lra.
  eexists. split; [reflexivity|]. rewrite Qred_correct. exact Hm.
Qed.

Lemma Qsquare_le (d b : Q) : (- b <= d)%Q -> (d <= b)%Q -> (d * d <= b * b)%Q.
Proof. intros H1 H2. nra. Qed.

Lemma Qsquare_nonneg (d : Q) : (0 <= d * d)%Q.
Proof. nra. Qed.

(** The standard deviation of a window of moderate numbers is a number, not
    negative and at most [2^507]. *)
Lemma std_agg_moderate (xs : list Q) :
  (2 <= length xs <= 1024)%nat ->
  Forall (fun x => Qabs x <= SAFE_MAGNITUDE)%Q xs ->
  exists s, std_agg xs = Fin s /\ (0 <= s)%Q /\ (s <= inject_Z (2 ^ 507))%Q.
Proof.
  intros Hlen Hb. unfold std_agg.
  destruct (length xs - 1)%nat as [|d'] eqn:Ed; [lia|].
  set (m := Qmean xs).
  set (ss := Qsum ((fun x => (x - m) * (x - m))%Q <$> xs)).
  assert (Hm : (Qabs m <= SAFE_MAGNITUDE)%Q).
  { apply Qmean_bound; [|exact Hb]. destruct xs; [simpl in Hlen; lia|discriminate]. }
  apply Qabs_bound in Hm. clearbody m.
  assert (Hss : (0 <= ss
                 /\ ss <= inject_Z (Z.of_nat (length xs))
                          * ((2 * SAFE_MAGNITUDE) * (2 * SAFE_MAGNITUDE)))%Q).
  { subst ss.
    rewrite <- (length_fmap (fun x => (x - m) * (x - m))%Q xs).
    apply Qsum_le_each. apply Forall_fmap.
    eapply Forall_impl; [exact Hb|]. intros x Hx. cbn.
    apply Qabs_bound in Hx. destruct Hx as [Hx1 Hx2], Hm as [Hm1 Hm2]. split.
    - apply Qsquare_nonneg.
    - apply Qsquare_le; lra. }
  destruct Hss as [Hss0 Hss1].
  assert (Hcap : (inject_Z (Z.of_nat (length xs))
                  * ((2 * SAFE_MAGNITUDE) * (2 * SAFE_MAGNITUDE))
                  <= inject_Z (2 ^ 1012))%Q).
  { apply Qle_trans
      with (inject_Z 1024 * ((2 * SAFE_MAGNITUDE) * (2 * SAFE_MAGNITUDE)))%Q.
    - apply Qmult_le_compat_r.
      + unfold Qle, inject_Z. simpl. lia.
      + unfold Qle. vm_compute. discriminate.
    - unfold Qle. vm_compute. discriminate. }
  assert (Hov : Qle_bool OVERFLOW ss = false).
  { apply not_true_iff_false. intros E. apply Qle_bool_iff in E.
    assert (inject_Z (2 ^ 1012) < OVERFLOW)%Q
      by (unfold Qlt; vm_compute; reflexivity).
    lra. }
  rewrite Hov. eexists. split; [reflexivity|].
  rewrite Qred_correct. split; [apply Qsqrt_nonneg|].
  apply Qle_trans with (inject_Z (2 ^ 506)).
  2: { unfold Qle. vm_compute. discriminate. }
  apply Qsqrt_le; [lia|].
  assert (Hd : (1 <= inject_Z (Z.of_nat (S d')))%Q)
    by (unfold Qle, inject_Z; simpl; lia).
  apply Qle_trans with ss.
  - apply Qle_shift_div_r; [lra|]. nra.
  - apply Qle_trans with (inject_Z (2 ^ 1012)); [lra|].
    unfold Qle. vm_compute. discriminate.
Qed.

(** The standard deviation of any window of two or more numbers is a number
    that is not negative, or an infinity. *)
Lemma std_agg_nonneg (xs : list Q) :
  (2 <= length xs)%nat ->
  std_agg xs = PInf \/ exists s, std_agg xs = Fin s /\ (0 <= s)%Q.
Proof.
  intros Hlen. unfold std_agg.
  destruct (length xs - 1)%nat eqn:E; [lia|].
  destruct (Qle_bool OVERFLOW _); [left; reflexivity|].
  right. eexists. split; [reflexivity|].
  rewrite Qred_correct. apply Qsqrt_nonneg.
Qed.

(** ** Bollinger bands *)

(** Around a moderate middle, a band of at most [2^508] gives three numbers
    in order. *)
Lemma band_order (m s : Q) :
  (Qabs m <= SAFE_MAGNITUDE)%Q -> (0 <= s)%Q -> (s <= inject_Z (2 ^ 507))%Q ->
  exists lo up : Q,
    (Fin m - Fin s * F 2)%fl = Fin lo
    /\ (Fin m + Fin s * F 2)%fl = Fin up
    /\ (lo <= m)%Q /\ (m <= up)%Q.
Proof.
  intros Hm Hs0 Hs1. apply Qabs_bound in Hm.
  assert (C1 : (SAFE_MAGNITUDE + 2 * inject_Z (2 ^ 507) < OVERFLOW)%Q)
    by (unfold Qlt; vm_compute; reflexivity).
  assert (C2 : (0 <= SAFE_MAGNITUDE)%Q) by (unfold Qle; vm_compute; discriminate).
  assert (C3 : (0 <= inject_Z (2 ^ 507))%Q) by (unfold Qle; vm_compute; discriminate).
  destruct Hm as [Hm1 Hm2].
  set (K := inject_Z (2 ^ 507)) in *. clearbody K.
  cbn [F fmul]. unfold fsub. change (inject_Z 2) with (2 # 1).
  rewrite fl_of_Q_in_range by lra.
  cbn [fneg fadd].
  rewrite !fl_of_Q_in_range by (rewrite Qred_correct; lra).
  eexists _, _. split; [reflexivity|]. split; [reflexivity|].
  rewrite !Qred_correct. split; lra.
Qed.

(** The window ending at [i] holds the entries of the column there. *)
Lemma window_spec w i (c : column) xs :
  window w i c = Some xs ->
  (1 <= w <= i + 1)%nat /\ Fin <$> xs = take w (drop (i + 1 - w) c).
Proof.
  unfold window. destruct (decide _) as [Hw|]; [|discriminate].
  intros Hm. split; [exact Hw|].
  apply mapM_Some_1 in Hm.
  induction Hm as [|x q l k Hx _ IH]; [reflexivity|].
  cbn [fmap list_fmap]. rewrite IH.
  destruct x; try discriminate. injection Hx as ->. reflexivity.
Qed.

Lemma window_finite w i (c : column) :
  (1 <= w <= i + 1)%nat -> Forall finite (take w (drop (i + 1 - w) c)) ->
  exists xs, window w i c = Some xs.
Proof.
  intros Hw Hfin. unfold window. rewrite decide_True by exact Hw.
  apply mapM_is_Some_2.
  eapply Forall_impl; [exact Hfin|].
  intros [q| | |] Hq; try contradiction. simpl. eauto.
Qed.

Lemma window_moderate w i (c : column) xs :
  window w i c = Some xs -> Forall moderate (take (i + 1) c) ->
  Forall (fun x => Qabs x <= SAFE_MAGNITUDE)%Q xs.
Proof.
  intros Hxs Hmod. apply window_spec in Hxs as [Hw Hxs].
  assert (Hsub : Forall moderate (Fin <$> xs)).
  { rewrite Hxs. apply Forall_forall. intros x Hx.
    apply elem_of_take in Hx as (k & Hk & Hkw).
    rewrite lookup_drop in Hk.
    eapply (proj1 (Forall_forall _ _) Hmod).
    apply elem_of_take. exists (i + 1 - w + k)%nat. split; [exact Hk|lia]. }
  rewrite Forall_fmap in Hsub.
  eapply Forall_impl; [exact Hsub|]. intros x Hx. exact Hx.
Qed.

(** At a bar whose last 20 closes are numbers, with moderate closes up to
    it, the three bands are numbers in order. *)
Lemma bb_columns_at (c : column) i :
  (BB_PERIOD <= i + 1)%nat -> (i < length c)%nat ->
  Forall finite (take BB_PERIOD (drop (i + 1 - BB_PERIOD) c)) ->
  Forall moderate (take (i + 1) c) ->
  let middle := rolling_mean BB_PERIOD c in
  let band := col_scale BB_STD_DEV (rolling_std BB_PERIOD c) in
  exists lo mi up : Q,
    col_sub middle band !! i = Some (Fin lo)
    /\ middle !! i = Some (Fin mi)
    /\ col_add middle band !! i = Some (Fin up)
    /\ (lo <= mi)%Q /\ (mi <= up)%Q.
Proof.
  intros Hi Hlen Hfin Hmod middle band.
  destruct (window_finite BB_PERIOD i c) as [xs Hxs];
    [unfold BB_PERIOD in *; lia|exact Hfin|].
  pose proof (window_length _ _ _ _ Hlen Hxs) as Hn.
  pose proof (window_moderate _ _ _ _ Hxs Hmod) as Hb.
  destruct (mean_agg_moderate xs) as (m & Hm & Hmb);
    [destruct xs; [discriminate|discriminate]
    |rewrite Hn; unfold BB_PERIOD; lia|exact Hb|].
  destruct (std_agg_moderate xs) as (s & Hs & Hs0 & Hs1);
    [rewrite Hn; unfold BB_PERIOD; lia|exact Hb|].
  destruct (band_order m s Hmb Hs0 Hs1) as (lo & up & E1 & E3 & Hlo & Hup).
  exists lo, m, up.
  assert (Hmid : middle !! i = Some (Fin m)).
  { unfold middle, rolling_mean. rewrite rolling_lookup by exact Hlen.
    rewrite Hxs. cbn [from_option]. rewrite Hm. reflexivity. }
  assert (Hband : band !! i = Some (Fin s * F 2)%fl).
  { unfold band, col_scale, rolling_std. rewrite list_lookup_fmap.
    rewrite rolling_lookup by exact Hlen. rewrite Hxs.
    cbn [from_option fmap option_fmap option_map]. rewrite Hs. reflexivity. }
  unfold col_sub, col_add. rewrite !lookup_zip_with, Hmid, Hband.
  cbn -[fsub fadd fmul]. rewrite E1, E3. repeat split; assumption.
Qed.

(** ** RSI *)

Lemma Qsum_nonneg (xs : list Q) : Forall (fun q => 0 <= q)%Q xs -> (0 <= Qsum xs)%Q.
Proof.
  induction 1 as [|x xs Hx _ IH]; unfold Qsum in *; cbn [foldr];
    [apply Qle_refl|lra].
Qed.

Lemma window_values w i (c : column) xs (P : Q -> Prop) :
  Forall (fun x => forall q, x = Fin q -> P q) c ->
  window w i c = Some xs -> Forall P xs.
Proof.
  intros Hc. unfold window. destruct (decide _); [|discriminate].
  intros Hm. apply mapM_Some_1 in Hm.
  assert (Hsub : Forall (fun x => forall q, x = Fin q -> P q)
                   (take w (drop (i + 1 - w) c)))
    by (apply Forall_take, Forall_drop, Hc).
  induction Hm as [|x y l k Hxy _ IH]; [constructor|].
  inversion Hsub as [|? ? Hx Hl]; subst.
  constructor; [|apply IH, Hl].
  destruct x; try discriminate. injection Hxy as <-. apply Hx. reflexivity.
Qed.

Lemma fdiv_nat_not_negative (u : fl) (n : nat) :
  not_negative u -> not_negative (u / F (Z.of_nat n))%fl.
Proof.
  destruct u as [t| | |]; cbn [F fdiv not_negative]; intros Ht.
  - destruct (Qeq_bool _ 0) eqn:Ez.
    + unfold inf_signed. destruct (Qltb 0 t); [exact I|].
      destruct (Qltb t 0); exact I.
    + destruct (fl_of_Q_cases (t / inject_Z (Z.of_nat n)))
        as [[-> _]|[[-> _]|[-> _]]]; [exact I|exact I|].
      cbn [not_negative]. rewrite Qred_correct.
      apply Qeq_bool_neq in Ez.
      assert (0 <= inject_Z (Z.of_nat n))%Q
        by (unfold Qle, inject_Z; simpl; lia).
      apply Qle_shift_div_l; [|lra].
      apply Qle_lteq in H as [H|H]; [exact H|]. symmetry in H. contradiction.
  - destruct (Qltb _ 0); exact I.
  - destruct (Qltb _ 0); exact I.
  - exact I.
Qed.

(** The mean of a window of non-negative numbers is not negative. *)
Lemma mean_agg_not_negative (xs : list Q) :
  Forall (fun q => 0 <= q)%Q xs -> not_negative (mean_agg xs).
Proof.
  intros H. unfold mean_agg. destruct xs as [|x xs']; [exact I|].
  destruct (forallb (Qeq_bool x) xs').
  { cbn [not_negative]. rewrite Qred_correct. inversion H; assumption. }
  apply fdiv_nat_not_negative.
  destruct (foldl kahan_add (F 0, F 0) (x :: xs')) as [u c] eqn:E.
  cbn [fst]. destruct u as [t| | |]; try exact I.
  apply (kahan_fold_fin (x :: xs') 0 t c) in E as [_ Ht].
  cbn [not_negative]. rewrite Ht, Qplus_0_l. apply Qsum_nonneg, H.
Qed.

Lemma rolling_mean_not_negative w (c : column) :
  Forall not_negative c -> Forall not_negative (rolling_mean w c).
Proof.
  intros Hc. unfold rolling_mean, rolling. apply Forall_fmap, Forall_forall.
  intros i _. simpl. destruct (window w i c) as [xs|] eqn:E; simpl; [|exact I].
  apply mean_agg_not_negative.
  eapply window_values; [|exact E].
  eapply Forall_impl; [exact Hc|]. intros x Hx q ->. exact Hx.
Qed.

Lemma gain_not_negative (delta : column) :
  Forall not_negative (where_ (fun d => (d >? F 0)%fl) (F 0) delta).
Proof.
  unfold where_. apply Forall_fmap, Forall_forall. intros d _. simpl.
  destruct d as [q| | |]; simpl; try exact I; try apply Qle_refl.
  destruct (Qltb _ q) eqn:E; simpl; [|apply Qle_refl].
  apply Qltb_lt in E. apply Qlt_le_weak. exact E.
Qed.

Lemma loss_not_negative (delta : column) :
  Forall not_negative (fneg <$> where_ (fun d => (d <? F 0)%fl) (F 0) delta).
Proof.
  unfold where_. rewrite <- list_fmap_compose. apply Forall_fmap, Forall_forall.
  intros d _. simpl.
  destruct d as [q| | |]; simpl; try exact I; try apply Qle_refl.
  destruct (Qltb q _) eqn:E; simpl; [|apply Qle_refl].
  apply Qltb_lt in E. unfold inject_Z in E. lra.
Qed.

(** The RSI of a ratio that is not a negative number. *)
Lemma rsi_of_rs_range (rs : fl) :
  not_negative rs -> is_nan (rsi_of_rs rs) = false -> in_0_100 (rsi_of_rs rs).
Proof.
  unfold in_0_100, rsi_of_rs. pose proof OVERFLOW_pos as Hpos.
  assert (Hbig : (200 < OVERFLOW)%Q) by (unfold Qlt; vm_compute; reflexivity).
  assert (Hhundred : exists q, (F 100 - F 0)%fl = Fin q /\ (0 <= q <= 100)%Q).
  { unfold F. rewrite fsub_fin.
    rewrite fl_of_Q_in_range by (unfold inject_Z; lra).
    eexists. split; [reflexivity|]. rewrite Qred_correct. unfold inject_Z. lra. }
  destruct rs as [r| | |]; cbn [not_negative]; intros Hr Hnan.
  - unfold F at 3. rewrite fadd_fin.
    destruct (fl_of_Q_cases (inject_Z 1 + r)) as [[-> _]|[[-> H]|[-> [_ _]]]].
    + exact Hhundred.
    + unfold inject_Z in H. lra.
    + assert (Hu : (1 <= Qred (inject_Z 1 + r))%Q)
        by (rewrite Qred_correct; unfold inject_Z; lra).
      set (u := Qred (inject_Z 1 + r)) in *. clearbody u.
      assert (Eu : Qeq_bool u 0 = false).
      { apply not_true_iff_false. intros E. apply Qeq_bool_iff in E. lra. }
      unfold F at 2. cbn [fdiv]. rewrite Eu.
      assert (H1 : (inject_Z 100 / u <= 100)%Q)
        by (apply Qle_shift_div_r; unfold inject_Z; lra).
      assert (H2 : (0 <= inject_Z 100 / u)%Q)
        by (apply Qle_shift_div_l; unfold inject_Z; lra).
      rewrite fl_of_Q_in_range by lra.
      unfold F. rewrite fsub_fin.
      rewrite fl_of_Q_in_range by (rewrite Qred_correct; unfold inject_Z at 1; lra).
      eexists. split; [reflexivity|].
      rewrite !Qred_correct. unfold inject_Z at 1 3. lra.
  - exact Hhundred.
  - exact Hhundred.
  - discriminate.
Qed.

(** The ratio of two averages that are not negative is not a negative
    number. *)
Lemma fdiv_not_negative (ag al : fl) :
  not_negative ag -> not_negative al -> not_negative (ag / al)%fl.
Proof.
  destruct ag as [a| | |], al as [b| | |]; cbn [not_negative fdiv];
    intros Ha Hb; try exact I; try apply Qle_refl;
    try (destruct (Qltb _ 0); exact I).
  destruct (Qeq_bool b 0) eqn:Eb.
  - unfold inf_signed. destruct (Qltb 0 a); [exact I|].
    destruct (Qltb a 0); exact I.
  - apply Qeq_bool_neq in Eb.
    destruct (fl_of_Q_cases (a / b)) as [[-> _]|[[-> _]|[-> _]]];
      [exact I|exact I|].
    cbn [not_negative]. rewrite Qred_correct.
    apply Qle_shift_div_l; [|lra].
    apply Qle_lteq in Hb as [H|H]; [exact H|]. symmetry in H. contradiction.
Qed.

(** The RSI of one bar, from its average gain and average loss. *)
Lemma rsi_point_range (ag al : fl) :
  not_negative ag -> not_negative al ->
  in_0_100 (let x := rsi_of_rs (ag / al) in if is_nan x then F 50 else x).
Proof.
  intros Ha Hb. cbv zeta.
  destruct (is_nan (rsi_of_rs (ag / al))) eqn:E.
  - exists (inject_Z 50). repeat split; unfold inject_Z, Qle; simpl; lia.
  - apply rsi_of_rs_range; [apply fdiv_not_negative; assumption|exact E].
Qed.

Lemma rsi_series_range period (c : column) :
  Forall in_0_100 (rsi_series period c).
Proof.
  unfold rsi_series, fillna. rewrite <- list_fmap_compose.
  apply Forall_fmap, Forall_forall. intros rs Hrs. simpl.
  unfold col_div in Hrs. apply elem_of_zip_with in Hrs as (ag & al & -> & Hag & Hal).
  apply rsi_point_range.
  - eapply Forall_forall; [apply rolling_mean_not_negative, gain_not_negative|exact Hag].
  - eapply Forall_forall; [apply rolling_mean_not_negative, loss_not_negative|exact Hal].
Qed.

Lemma rsi_series_length period (c : column) :
  length (rsi_series period c) = length c.
Proof.
  unfold rsi_series, fillna, col_div, where_, diff, shift, rolling_mean.
  repeat first
    [ rewrite length_fmap | rewrite length_zip_with | rewrite rolling_length
    | rewrite length_take | rewrite length_app | rewrite length_replicate ].
  simpl. lia.
Qed.

(** ** Reading rows *)

Lemma iloc_neg f (k : nat) :
  (1 <= k <= nrows f)%nat ->
  iloc (- Z.of_nat k) f = Ok (row_at f (nrows f - k)).
Proof.
  intros H. unfold iloc, row_at.
  destruct (- Z.of_nat k <? 0) eqn:E; [|apply Z.ltb_ge in E; lia].
  replace ((0 <=? Z.of_nat (nrows f) + - Z.of_nat k)
           && (Z.of_nat (nrows f) + - Z.of_nat k <? Z.of_nat (nrows f)))
    with true.
  - replace (Z.to_nat (Z.of_nat (nrows f) + - Z.of_nat k))
      with (nrows f - k)%nat by lia. reflexivity.
  - symmetry. apply andb_true_iff. split; [apply Z.leb_le|apply Z.ltb_lt]; lia.
Qed.

Lemma iloc_m1 f : (1 <= nrows f)%nat -> iloc (-1) f = Ok (row_at f (nrows f - 1)).
Proof. intros H. apply (iloc_neg f 1). lia. Qed.

Lemma iloc_m2 f : (2 <= nrows f)%nat -> iloc (-2) f = Ok (row_at f (nrows f - 2)).
Proof. intros H. apply (iloc_neg f 2). lia. Qed.

Lemma iloc_m5 f : (5 <= nrows f)%nat -> iloc (-5) f = Ok (row_at f (nrows f - 5)).
Proof. intros H. apply (iloc_neg f 5). lia. Qed.

Lemma prev_row_at f :
  (1 <= nrows f)%nat ->
  prev_row f
  = Ok (row_at f (if decide (5 <= nrows f)%nat then nrows f - 5 else nrows f - 1)).
Proof.
  intros H. unfold prev_row, len.
  destruct (decide _); [apply iloc_m5|apply iloc_m1]; lia.
Qed.

Lemma row_getitem_at f k c j :
  columns f !! k = Some c -> row_getitem k (row_at f j) = Ok (at_pos c j).
Proof.
  intros H. unfold row_getitem, row_at. rewrite lookup_fmap, H. reflexivity.
Qed.

Lemma row_get_at f k c j d :
  columns f !! k = Some c -> row_get k d (row_at f j) = at_pos c j.
Proof.
  intros H. unfold row_get, row_at. rewrite lookup_fmap, H. reflexivity.
Qed.

Lemma getitem_ok f k c : columns f !! k = Some c -> getitem k f = Ok c.
Proof. intros H. unfold getitem. rewrite H. reflexivity. Qed.

(** ** The classifiers return *)

(** Split on the condition of the outermost conditional of the goal. *)
Ltac split_if :=
  match goal with
  | |- context [if ?b then _ else _] =>
      lazymatch b with
      | context [if _ then _ else _] => fail
      | _ => destruct b
      end
  end.

Ltac read_rows :=
  repeat first
    [ rewrite bind_Ok
    | erewrite row_getitem_at by eassumption
    | erewrite getitem_ok by eassumption
    | rewrite iloc_m1 by lia
    | rewrite iloc_m2 by lia
    | rewrite prev_row_at by lia ].

Lemma _analyze_trend_ok f r c5 c20 :
  (1 <= nrows f)%nat ->
  columns f !! "MA5" = Some c5 -> columns f !! "MA20" = Some c20 ->
  exists r', _analyze_trend f r = Ok r'.
Proof.
  intros Hn H5 H20. unfold _analyze_trend.
  repeat (read_rows; try split_if); eexists; reflexivity.
Qed.

Ltac finish_ok := eexists; split; [reflexivity|repeat split].

Lemma _analyze_volume_ok f r v c :
  columns f !! "volume" = Some v -> columns f !! "close" = Some c ->
  exists r', _analyze_volume f r = Ok r' /\ same_bb r r'.
Proof.
  intros Hv Hc. unfold _analyze_volume, len.
  repeat (read_rows; try split_if); finish_ok.
Qed.

Lemma _analyze_support_resistance_ok f r h :
  columns f !! "high" = Some h ->
  exists r', _analyze_support_resistance f r = Ok r' /\ same_bb r r'.
Proof.
  intros Hh. unfold _analyze_support_resistance, len.
  repeat (read_rows; try split_if); finish_ok.
Qed.

Lemma _analyze_macd_ok f r dif dea bar :
  columns f !! "MACD_DIF" = Some dif -> columns f !! "MACD_DEA" = Some dea ->
  columns f !! "MACD_BAR" = Some bar ->
  exists r', _analyze_macd f r = Ok r' /\ same_bb r r'.
Proof.
  intros Hdif Hdea Hbar. unfold _analyze_macd, len, MACD_SLOW.
  repeat (read_rows; try split_if); finish_ok.
Qed.

Lemma _analyze_rsi_ok f r c6 c12 c24 :
  columns f !! "RSI_6" = Some c6 -> columns f !! "RSI_12" = Some c12 ->
  columns f !! "RSI_24" = Some c24 ->
  exists r', _analyze_rsi f r = Ok r' /\ same_bb r r'.
Proof.
  intros H6 H12 H24. unfold _analyze_rsi, len.
  destruct rsi_col_names as (-> & -> & ->). unfold RSI_LONG.
  repeat (read_rows; try split_if); finish_ok.
Qed.

Lemma _analyze_kdj_same_bb f r : same_bb r (_analyze_kdj f r).
Proof.
  unfold _analyze_kdj. repeat split_if; repeat split.
Qed.

Lemma _analyze_bollinger_bands_ok f r :
  ((bb_upper r >? F 0)%fl && (bb_lower r >? F 0)%fl = true ->
   (bb_middle r =? F 0)%fl = false) ->
  exists r', _analyze_bollinger_bands f r = Ok r'.
Proof.
  intros Hguard. unfold _analyze_bollinger_bands, len.
  destruct (decide _); [eexists; reflexivity|].
  destruct ((bb_upper r >? F 0)%fl && (bb_lower r >? F 0)%fl).
  - unfold py_div. rewrite Hguard by reflexivity.
    repeat (read_rows; try split_if); eexists; reflexivity.
  - repeat (read_rows; try split_if); eexists; reflexivity.
Qed.

Lemma _analyze_volume_ma_ok f r v :
  columns f !! "volume" = Some v ->
  exists r', _analyze_volume_ma f r = Ok r'.
Proof.
  intros Hv. unfold _analyze_volume_ma, len.
  repeat (read_rows; try split_if); eexists; reflexivity.
Qed.

(** ** The indicator pipeline *)

Ltac unfold_frames :=
  unfold augmented, volume_ma_frame, momentum_frame, bb_frame, kdj_frame,
    rsi_frame, macd_frame, mas_frame; cbv zeta.

Ltac frame_column := unfold_frames; find_column.

Lemma sorted_frame_column keys f k c :
  columns f !! k = Some c ->
  columns (sorted_frame keys f) !! k = Some (take_rows (sort_perm keys) c).
Proof. intros H. unfold sorted_frame. simpl. rewrite lookup_fmap, H. reflexivity. Qed.

Lemma augmented_nrows c lo hi v f0 : nrows (augmented c lo hi v f0) = nrows f0.
Proof. reflexivity. Qed.

Lemma add_indicators_run s l f d c0 lo0 hi0 v0 :
  s !! l = Some f ->
  columns f !! "date" = Some d -> columns f !! "close" = Some c0 ->
  columns f !! "low" = Some lo0 -> columns f !! "high" = Some hi0 ->
  columns f !! "volume" = Some v0 ->
  let p := sort_perm d in
  exists s',
    add_indicators l s
    = (Ok (length s'),
       s' ++ [augmented (take_rows p c0) (take_rows p lo0) (take_rows p hi0)
                (take_rows p v0) (sorted_frame d f)])
    /\ s `prefix_of` s'.
Proof.
  intros Hl Hd Hc Hlo Hhi Hv p.
  pose proof (sorted_frame_column d f _ _ Hc) as Hc'.
  pose proof (sorted_frame_column d f _ _ Hlo) as Hlo'.
  pose proof (sorted_frame_column d f _ _ Hhi) as Hhi'.
  pose proof (sorted_frame_column d f _ _ Hv) as Hv'.
  fold p in Hc', Hlo', Hhi', Hv'.
  set (f0 := sorted_frame d f) in *.
  unfold add_indicators.
  erewrite bind_run by (apply sort_values_run; eassumption).
  erewrite bind_run by (apply _calculate_mas_run; [apply lookup_last|eassumption]).
  erewrite bind_run
    by (apply _calculate_macd_run; [apply lookup_last|frame_column]).
  erewrite bind_run
    by (apply _calculate_rsi_run; [apply lookup_last|frame_column]).
  erewrite bind_run
    by (apply _calculate_kdj_run; [apply lookup_last|frame_column..]).
  erewrite bind_run
    by (apply _calculate_bollinger_bands_run; [apply lookup_last|frame_column]).
  erewrite bind_run
    by (apply _calculate_momentum_run; [apply lookup_last|frame_column]).
  erewrite bind_run
    by (apply _calculate_volume_ma_run; [apply lookup_last|frame_column]).
  eexists. split; [reflexivity|].
  repeat (etrans; [|apply prefix_app_r; reflexivity]). reflexivity.
Qed.

(** Where the lower band is positive the middle band is not zero: the
    width computed by [_analyze_bollinger_bands] never divides by zero. *)
Lemma bb_lower_positive (c : column) i :
  let middle := rolling_mean 20 c in
  let band := col_scale (F 2) (rolling_std 20 c) in
  (at_pos (col_sub middle band) i >? F 0)%fl = true ->
  (at_pos middle i =? F 0)%fl = false.
Proof.
  intros middle band. subst middle band.
  unfold col_sub, col_scale, rolling_mean, rolling_std.
  rewrite at_pos_zip_with by (rewrite length_fmap, !rolling_length; reflexivity).
  rewrite at_pos_fmap, !at_pos_rolling, !rolling_length.
  destruct (decide (i < length c)%nat) as [Hi|Hi]; [|discriminate].
  destruct (window 20 i c) as [xs|] eqn:E; [|discriminate].
  pose proof (window_length _ _ _ _ Hi E) as Hn.
  cbn [from_option].
  destruct (mean_agg xs) as [m| | |]; try reflexivity.
  cbn [feqb F]. destruct (Qeq_bool m (inject_Z 0)) eqn:Em; [|reflexivity].
  apply Qeq_bool_iff in Em. unfold inject_Z in Em.
  intros H. exfalso. revert H.
  destruct (std_agg_nonneg xs) as [->|(sd & -> & Hs0)];
    [lia|vm_compute; discriminate|].
  unfold F. cbn [fmul].
  destruct (fl_of_Q_cases (sd * inject_Z 2)) as [[-> _]|[[-> Hneg]|[-> _]]];
    [vm_compute; discriminate
    |pose proof OVERFLOW_pos; unfold inject_Z in Hneg; lra|].
  rewrite fsub_fin.
  assert (Hle : (m + - Qred (sd * inject_Z 2) <= 0)%Q)
    by (rewrite Qred_correct; unfold inject_Z; lra).
  destruct (fl_of_Q_cases (m + - Qred (sd * inject_Z 2)))
    as [[-> Hov]|[[-> _]|[-> _]]].
  - pose proof OVERFLOW_pos. lra.
  - discriminate.
  - cbn [fgtb fltb]. intros H. apply Qltb_lt in H.
    rewrite !Qred_correct in H. unfold inject_Z in H. lra.
Qed.

Lemma classify_ok c lo hi v f0 r :
  (20 <= nrows f0)%nat ->
  columns f0 !! "close" = Some c -> columns f0 !! "high" = Some hi ->
  columns f0 !! "volume" = Some v ->
  exists r0, classify (augmented c lo hi v f0) r = Ok (_generate_signal r0).
Proof.
  intros Hn Hc Hhi Hv.
  pose proof (augmented_nrows c lo hi v f0) as Hrows.
  assert (exists x, columns (augmented c lo hi v f0) !! "close" = Some x)
    as [? Kc] by (eexists; frame_column).
  assert (exists x, columns (augmented c lo hi v f0) !! "high" = Some x)
    as [? Kh] by (eexists; frame_column).
  assert (exists x, columns (augmented c lo hi v f0) !! "volume" = Some x)
    as [? Kv] by (eexists; frame_column).
  assert (exists x, columns (augmented c lo hi v f0) !! "MA5" = Some x)
    as [? K5] by (eexists; frame_column).
  assert (exists x, columns (augmented c lo hi v f0) !! "MA10" = Some x)
    as [? K10] by (eexists; frame_column).
  assert (exists x, columns (augmented c lo hi v f0) !! "MA20" = Some x)
    as [? K20] by (eexists; frame_column).
  assert (exists x, columns (augmented c lo hi v f0) !! "MACD_DIF" = Some x)
    as [? Kdif] by (eexists; frame_column).
  assert (exists x, columns (augmented c lo hi v f0) !! "MACD_DEA" = Some x)
    as [? Kdea] by (eexists; frame_column).
  assert (exists x, columns (augmented c lo hi v f0) !! "MACD_BAR" = Some x)
    as [? Kbar] by (eexists; frame_column).
  assert (exists x, columns (augmented c lo hi v f0) !! "RSI_6" = Some x)
    as [? K6] by (eexists; frame_column).
  assert (exists x, columns (augmented c lo hi v f0) !! "RSI_12" = Some x)
    as [? K12] by (eexists; frame_column).
  assert (exists x, columns (augmented c lo hi v f0) !! "RSI_24" = Some x)
    as [? K24] by (eexists; frame_column).
  assert (Kbm : columns (augmented c lo hi v f0) !! "BB_MIDDLE"
                = Some (rolling_mean 20 c)) by frame_column.
  assert (Kbu : columns (augmented c lo hi v f0) !! "BB_UPPER"
                = Some (col_add (rolling_mean 20 c)
                          (col_scale (F 2) (rolling_std 20 c))))
    by frame_column.
  assert (Kbl : columns (augmented c lo hi v f0) !! "BB_LOWER"
                = Some (col_sub (rolling_mean 20 c)
                          (col_scale (F 2) (rolling_std 20 c))))
    by frame_column.
  set (f := augmented c lo hi v f0) in *.
  unfold classify. rewrite iloc_m1 by lia. read_rows.
  match goal with |- context [_analyze_trend f ?r0] =>
    destruct (_analyze_trend_ok f r0 _ _ ltac:(lia) K5 K20) as [r1 ->] end.
  rewrite !bind_Ok.
  erewrite !(row_get_at f "BB_UPPER"), !(row_get_at f "BB_MIDDLE"),
    !(row_get_at f "BB_LOWER") by eassumption.
  match goal with |- context [_analyze_volume f ?r0] =>
    destruct (_analyze_volume_ok f r0 _ _ Kv Kc) as (r2 & -> & B2);
    assert (B2' : same_bb r0 r2) by exact B2; clear B2;
    unfold same_bb in B2'; cbn in B2' end.
  rewrite bind_Ok.
  destruct (_analyze_support_resistance_ok f r2 _ Kh) as (r3 & -> & B3).
  rewrite bind_Ok.
  destruct (_analyze_macd_ok f r3 _ _ _ Kdif Kdea Kbar) as (r4 & -> & B4).
  rewrite bind_Ok.
  destruct (_analyze_rsi_ok f r4 _ _ _ K6 K12 K24) as (r5 & -> & B5).
  rewrite bind_Ok.
  pose proof (_analyze_kdj_same_bb f r5) as B6.
  destruct (_analyze_bollinger_bands_ok f (_analyze_kdj f r5)) as [r7 ->].
  { destruct B2' as (U2 & M2 & L2), B3 as (U3 & M3 & L3), B4 as (U4 & M4 & L4),
      B5 as (U5 & M5 & L5), B6 as (U6 & M6 & L6).
    rewrite U6, M6, L6, U5, M5, L5, U4, M4, L4, U3, M3, L3, U2, M2, L2.
    intros G. apply andb_true_iff in G as [_ G].
    apply (bb_lower_positive c). exact G. }
  rewrite bind_Ok.
  destruct (_analyze_volume_ma_ok f (_analyze_momentum f r7) _ Kv) as [r9 ->].
  rewrite bind_Ok. eexists. reflexivity.
Qed.

(** ** analyze *)

Lemma classify_inv f r r' :
  classify f r = Ok r' -> exists r0, r' = _generate_signal r0.
Proof.
  unfold classify. intros H.
  repeat (apply bind_Ok_inv in H as (? & _ & H)).
  injection H as <-. eexists. reflexivity.
Qed.

Lemma short_input_dec df s : {short_input df s} + {~ short_input df s}.
Proof.
  destruct df as [l|]; [|left; exact I]. simpl.
  destruct (s !! l) as [f|] eqn:E.
  - destruct (empty_frame f) eqn:Ee.
    + left. eauto.
    + destruct (decide (nrows f < 20)%nat).
      * left. eauto.
      * right. intros (f' & Hf' & [H|H]); congruence.
  - right. intros (f' & Hf' & _). discriminate.
Qed.

Lemma analyze_short df code s :
  short_input df s -> analyze df code s = (Ok (degenerate_result code), s).
Proof.
  unfold analyze. destruct df as [l|]; [|reflexivity].
  intros (f & Hf & Hshort).
  erewrite bind_run by (unfold deref; rewrite Hf; reflexivity).
  replace (empty_frame f || bool_decide (len f < 20)%nat) with true;
    [reflexivity|].
  symmetry. apply orb_true_iff. destruct Hshort as [H|H]; [left; exact H|].
  right. apply bool_decide_eq_true. exact H.
Qed.

Lemma analyze_long_inv l code s r s' :
  ~ short_input (Some l) s -> analyze (Some l) code s = (Ok r, s') ->
  exists r0, r = _generate_signal r0.
Proof.
  intros Hlong. unfold analyze, mbind, M_bind, deref.
  destruct (s !! l) as [f|] eqn:Hf; [|discriminate].
  destruct (empty_frame f || bool_decide (len f < 20)%nat) eqn:E.
  { exfalso. apply Hlong. exists f. split; [exact Hf|].
    apply orb_true_iff in E as [E|E]; [left; exact E|].
    right. apply bool_decide_eq_true in E. exact E. }
  destruct (add_indicators l s) as [[l'|e] s1]; [|discriminate].
  destruct (s1 !! l') as [f'|]; [|discriminate].
  unfold lift. intros H. injection H as H _.
  apply classify_inv in H. exact H.
Qed.

Lemma accepted_columns f :
  accepted f ->
  exists d c lo hi v,
    columns f !! "date" = Some d /\ columns f !! "close" = Some c
    /\ columns f !! "low" = Some lo /\ columns f !! "high" = Some hi
    /\ columns f !! "volume" = Some v.
Proof.
  unfold accepted, required_columns. intros H.
  apply Forall_cons_1 in H as [[d Hd] H].
  apply Forall_cons_1 in H as [[c Hc] H].
  apply Forall_cons_1 in H as [[hi Hhi] H].
  apply Forall_cons_1 in H as [[lo Hlo] H].
  apply Forall_cons_1 in H as [[v Hv] _].
  exists d, c, lo, hi, v. repeat split; assumption.
Qed.

Lemma analyze_long s l f code :
  s !! l = Some f -> accepted f -> (20 <= nrows f)%nat ->
  exists r0 s',
    analyze (Some l) code s = (Ok (_generate_signal r0), s')
    /\ s `prefix_of` s'.
Proof.
  intros Hl Hacc Hn.
  destruct (accepted_columns f Hacc) as (d & c & lo & hi & v & Hd & Hc & Hlo & Hhi & Hv).
  destruct (add_indicators_run s l f d c lo hi v Hl Hd Hc Hlo Hhi Hv)
    as (s1 & Hrun & Hpre).
  unfold analyze.
  erewrite bind_run by (unfold deref; rewrite Hl; reflexivity).
  replace (empty_frame f || bool_decide (len f < 20)%nat) with false.
  2: { symmetry. apply orb_false_iff. split.
       - unfold empty_frame. apply orb_false_iff. split.
         + apply bool_decide_eq_false. lia.
         + apply bool_decide_eq_false. intros E. rewrite E in Hc.
           rewrite lookup_empty in Hc. discriminate.
       - apply bool_decide_eq_false. unfold len. lia. }
  erewrite bind_run by exact Hrun.
  erewrite bind_run by (unfold deref; rewrite lookup_last; reflexivity).
  unfold lift.
  edestruct (classify_ok (take_rows (sort_perm d) c) (take_rows (sort_perm d) lo)
               (take_rows (sort_perm d) hi) (take_rows (sort_perm d) v)
               (sorted_frame d f) (new_result code)) as [r0 ->].
  - exact Hn.
  - apply sorted_frame_column, Hc.
  - apply sorted_frame_column, Hhi.
  - apply sorted_frame_column, Hv.
  - exists r0. eexists. split; [reflexivity|].
    etrans; [exact Hpre|]. apply prefix_app_r. reflexivity.
Qed.

Lemma degenerate_score code : signal_score (degenerate_result code) = 0.
Proof. reflexivity. Qed.

(** ** The final action *)

Lemma if_decide {A : Type} (P : Prop) `{Decision P} (a b : A) :
  (if decide P then a else b) = (if bool_decide P then a else b).
Proof. unfold bool_decide, decide. destruct H; reflexivity. Qed.

Lemma bool_decide_Zle a b : bool_decide (a <= b) = (a <=? b).
Proof.
  destruct (Z.leb_spec a b).
  - apply bool_decide_eq_true_2. assumption.
  - apply bool_decide_eq_false_2. lia.
Qed.

Lemma decide_signal_cascade sc tr : decide_signal sc tr = cascade_spec sc tr.
Proof.
  unfold decide_signal, cascade_spec, is_bull, is_bear.
  rewrite !if_decide, !bool_decide_and, !bool_decide_Zle. reflexivity.
Qed.

Lemma accepted_rising : accepted rising_bars.
Proof. repeat constructor; eexists; reflexivity. Qed.

(** ** Frame objects that a computation leaves alone *)

Section Keeps.
Context {A B : Type}.
Variable n : nat.

Lemma keeps_ret (a : A) (Q : A -> Prop) : Q a -> keeps n (mret a) Q.
Proof.
  intros HQ s o s' Hn H. injection H as <- <-.
  repeat split; [exact Hn|]. intros a' E. injection E as <-. exact HQ.
Qed.

Lemma keeps_bind (m : M A) (k : A -> M B) (Q : A -> Prop) (R : B -> Prop) :
  keeps n m Q -> (forall a, Q a -> keeps n (k a) R) -> keeps n (m ≫= k) R.
Proof.
  intros Hm Hk s o s' Hn. unfold mbind, M_bind.
  destruct (m s) as [[a|e] s1] eqn:E; intros H.
  - destruct (Hm s _ _ Hn E) as (T1 & L1 & Q1).
    destruct (Hk a (Q1 a eq_refl) s1 _ _ L1 H) as (T2 & L2 & Q2).
    repeat split; [congruence|exact L2|exact Q2].
  - injection H as <- <-.
    destruct (Hm s _ _ Hn E) as (T1 & L1 & _).
    repeat split; [exact T1|exact L1|discriminate].
Qed.

Lemma keeps_weaken (m : M A) (Q Q' : A -> Prop) :
  keeps n m Q -> (forall a, Q a -> Q' a) -> keeps n m Q'.
Proof.
  intros Hm HQ s o s' Hn H. destruct (Hm s o s' Hn H) as (T & L & P).
  repeat split; [exact T|exact L|]. intros a E. apply HQ, P, E.
Qed.

Lemma keeps_lift (o : outcome A) : keeps n (lift o) (fun _ => True).
Proof.
  intros s o' s' Hn H. injection H as <- <-. repeat split. exact Hn.
Qed.
End Keeps.

Lemma keeps_deref n l : keeps n (deref l) (fun _ => True).
Proof.
  intros s o s' Hn. unfold deref.
  destruct (s !! l); intros H; injection H as <- <-; repeat split; exact Hn.
Qed.

Lemma keeps_alloc n f : keeps n (alloc f) (fun l => (n <= l)%nat).
Proof.
  intros s o s' Hn H. injection H as <- <-. repeat split.
  - rewrite take_app_le by exact Hn. reflexivity.
  - rewrite length_app. lia.
  - intros a E. injection E as <-. exact Hn.
Qed.

Lemma keeps_setitem n l k c :
  (n <= l)%nat -> keeps n (setitem l k c) (fun _ => True).
Proof.
  intros Hl s o s' Hn. unfold setitem.
  destruct (s !! l); intros H; injection H as <- <-; repeat split;
    try exact Hn.
  - apply take_insert_ge. exact Hl.
  - rewrite length_insert. exact Hn.
Qed.

Lemma keeps_copy n l : keeps n (copy l) (fun l' => (n <= l')%nat).
Proof.
  unfold copy. eapply keeps_bind; [apply keeps_deref|].
  intros f _. apply keeps_alloc.
Qed.

Lemma keeps_col n l k : keeps n (col l k) (fun _ => True).
Proof.
  unfold col. eapply keeps_bind; [apply keeps_deref|].
  intros f _. apply keeps_lift.
Qed.

Lemma keeps_len_of n l : keeps n (len_of l) (fun _ => True).
Proof.
  unfold len_of. eapply keeps_bind; [apply keeps_deref|].
  intros f _. apply keeps_ret. exact I.
Qed.

Lemma keeps_for_each {A : Type} n (xs : list A) (body : A -> M unit) :
  (forall x, keeps n (body x) (fun _ => True)) ->
  keeps n (for_each xs body) (fun _ => True).
Proof.
  intros Hbody. induction xs as [|x xs IH]; simpl.
  - apply keeps_ret. exact I.
  - eapply keeps_bind; [apply Hbody|]. intros _ _. exact IH.
Qed.

(** Walk through a calculator: every read is harmless and every write goes
    to the copy made at its start. *)
Ltac keeps_walk :=
  repeat first
    [ assumption
    | exact I
    | apply keeps_ret
    | apply keeps_col
    | apply keeps_len_of
    | apply keeps_setitem
    | apply keeps_for_each; intros ?
    | eapply keeps_bind; [|intros ? ?]
    | match goal with
      | |- keeps _ (if ?b then _ else _) _ => destruct b
      end ].

Lemma keeps_sort_values n k l : keeps n (sort_values k l) (fun l' => (n <= l')%nat).
Proof.
  unfold sort_values. eapply keeps_bind; [apply keeps_deref|]. intros f _.
  eapply keeps_bind; [apply keeps_lift|]. intros keys _. apply keeps_alloc.
Qed.

Lemma keeps__calculate_mas n l :
  keeps n (_calculate_mas l) (fun l' => (n <= l')%nat).
Proof.
  unfold _calculate_mas. eapply keeps_bind; [apply keeps_copy|].
  intros df Hdf. keeps_walk.
Qed.

Lemma keeps__calculate_macd n l :
  keeps n (_calculate_macd l) (fun l' => (n <= l')%nat).
Proof.
  unfold _calculate_macd. eapply keeps_bind; [apply keeps_copy|].
  intros df Hdf. keeps_walk.
Qed.

Lemma keeps__calculate_rsi n l :
  keeps n (_calculate_rsi l) (fun l' => (n <= l')%nat).
Proof.
  unfold _calculate_rsi. eapply keeps_bind; [apply keeps_copy|].
  intros df Hdf. keeps_walk.
Qed.

Lemma keeps__calculate_kdj n l :
  keeps n (_calculate_kdj l) (fun l' => (n <= l')%nat).
Proof.
  unfold _calculate_kdj. eapply keeps_bind; [apply keeps_copy|].
  intros df Hdf. keeps_walk.
Qed.

Lemma keeps__calculate_bollinger_bands n l :
  keeps n (_calculate_bollinger_bands l) (fun l' => (n <= l')%nat).
Proof.
  unfold _calculate_bollinger_bands. eapply keeps_bind; [apply keeps_copy|].
  intros df Hdf. keeps_walk.
Qed.

Lemma keeps__calculate_momentum n l :
  keeps n (_calculate_momentum l) (fun l' => (n <= l')%nat).
Proof.
  unfold _calculate_momentum. eapply keeps_bind; [apply keeps_copy|].
  intros df Hdf. keeps_walk.
Qed.

Lemma keeps__calculate_volume_ma n l :
  keeps n (_calculate_volume_ma l) (fun l' => (n <= l')%nat).
Proof.
  unfold _calculate_volume_ma. eapply keeps_bind; [apply keeps_copy|].
  intros df Hdf. keeps_walk.
Qed.

Lemma keeps_add_indicators n l :
  keeps n (add_indicators l) (fun _ => True).
Proof.
  unfold add_indicators.
  eapply keeps_bind; [apply keeps_sort_values|]. intros ? _.
  eapply keeps_bind; [apply keeps__calculate_mas|]. intros ? _.
  eapply keeps_bind; [apply keeps__calculate_macd|]. intros ? _.
  eapply keeps_bind; [apply keeps__calculate_rsi|]. intros ? _.
  eapply keeps_bind; [apply keeps__calculate_kdj|]. intros ? _.
  eapply keeps_bind; [apply keeps__calculate_bollinger_bands|]. intros ? _.
  eapply keeps_bind; [apply keeps__calculate_momentum|]. intros ? _.
  eapply keeps_bind; [apply keeps__calculate_volume_ma|]. intros ? _.
  apply keeps_ret. exact I.
Qed.

Lemma keeps_analyze n df code : keeps n (analyze df code) (fun _ => True).
Proof.
  unfold analyze. destruct df as [l|]; [|apply keeps_ret; exact I].
  eapply keeps_bind; [apply keeps_deref|]. intros f _.
  destruct (_ || _); [apply keeps_ret; exact I|].
  eapply keeps_bind; [apply keeps_add_indicators|]. intros ? _.
  eapply keeps_bind; [apply keeps_deref|]. intros ? _.
  apply keeps_lift.
Qed.

Lemma keeps_prefix {A : Type} (m : M A) (Q : A -> Prop) (s : store) :
  keeps (length s) m Q -> s `prefix_of` (m s).2.
Proof.
  intros H. destruct (m s) as [o s'] eqn:E.
  destruct (H s o s' (le_n _) E) as (T & _ & _).
  rewrite firstn_all in T. simpl. rewrite <- T. apply prefix_take.
Qed.

(* ===================================================================== *)
(** * The claims *)
(* ===================================================================== *)

Lemma six_actions_all (a : BuySignal.t) : a ∈ six_actions.
Proof. unfold six_actions. destruct a; set_solver. Qed.

Lemma short_input_frame s l f :
  s !! l = Some f -> (nrows f < 20)%nat -> short_input (Some l) s.
Proof. intros Hl Hn. exists f. split; [exact Hl|right; exact Hn]. Qed.

(** C1.  For every frame that [analyze] accepts (the columns it reads are
    present), [analyze] returns a result whose [signal_score] lies in
    [0, 100] and whose [buy_signal] is one of the six actions.  The six
    sub-scores of [_generate_signal] are bounded by 30, 20, 15, 10, 15 and
    10, and never sum below 0 or above 100. *)
Theorem signal_score_bounded (s : store) (l : ref) (f : DataFrame) (code : string) :
  s !! l = Some f -> accepted f ->
  (exists r s',
     analyze (Some l) code s = (Ok r, s')
     /\ 0 <= signal_score r <= 100
     /\ buy_signal r ∈ six_actions)
  /\ (forall (r0 : TrendAnalysisResult) (t : tally),
        score t <= score (score_trend r0 t) <= score t + 30
        /\ score t <= score (score_bias r0 t) <= score t + 20
        /\ score t <= score (score_volume r0 t) <= score t + 15
        /\ score t <= score (score_support r0 t) <= score t + 10
        /\ score t <= score (score_macd r0 t) <= score t + 15
        /\ score t <= score (score_rsi r0 t) <= score t + 10
        /\ 0 <= signal_score (_generate_signal r0) <= 100).
Proof.
  intros Hl Hacc. split.
  - destruct (decide (nrows f < 20)%nat) as [Hshort|Hlong].
    + exists (degenerate_result code), s. split.
      * apply analyze_short. eapply short_input_frame; eassumption.
      * rewrite degenerate_score. split; [lia|apply six_actions_all].
    + destruct (analyze_long s l f code Hl Hacc) as (r0 & s' & Hrun & _); [lia|].
      exists (_generate_signal r0), s'. split; [exact Hrun|].
      rewrite generate_signal_score. pose proof (total_score_range r0).
      split; [lia|apply six_actions_all].
  - intros r0 t.
    rewrite score_trend_points, score_volume_points, score_macd_points,
      score_rsi_points, generate_signal_score.
    pose proof (trend_scores_range (trend_status r0)).
    pose proof (volume_scores_range (volume_status r0)).
    pose proof (macd_scores_range (macd_status r0)).
    pose proof (rsi_scores_range (rsi_status r0)).
    pose proof (score_bias_points r0 t).
    pose proof (score_support_points r0 t).
    pose proof (total_score_range r0).
    lia.
Qed.

Lemma signal_score_bounded_witness :
  exists r s',
    analyze (Some 0%nat) "600519" [rising_bars] = (Ok r, s')
    /\ 0 <= signal_score r <= 100
    /\ buy_signal r ∈ six_actions.
Proof.
  apply (signal_score_bounded [rising_bars] 0%nat rising_bars "600519").
  - reflexivity.
  - exact accepted_rising.
Defined.

(** C3.  For [None], an empty frame or a frame with fewer than 20 bars,
    [analyze] returns (it does not raise) a result with exactly one risk
    factor, the insufficient-data message, with [signal_score] 0 and with
    every other field at its default. *)
Theorem insufficient_data_result (s : store) (df : option ref) (code : string) :
  short_input df s ->
  exists r,
    analyze df code s = (Ok r, s)
    /\ risk_factors r = [insufficient_data]
    /\ signal_score r = 0
    /\ set_risk_factors [] r = new_result code
    /\ trend_status r = TrendStatus.CONSOLIDATION
    /\ volume_status r = VolumeStatus.NORMAL
    /\ macd_status r = MACDStatus.BULLISH
    /\ rsi_status r = RSIStatus.NEUTRAL
    /\ buy_signal r = BuySignal.WAIT
    /\ signal_reasons r = [].
Proof.
  intros Hshort. exists (degenerate_result code).
  split; [apply analyze_short, Hshort|]. repeat split.
Qed.

Lemma insufficient_data_result_witness :
  exists r,
    analyze (Some 0%nat) "600519" [short_bars] = (Ok r, [short_bars])
    /\ risk_factors r = [insufficient_data]
    /\ signal_score r = 0.
Proof.
  destruct (insufficient_data_result [short_bars] (Some 0%nat) "600519")
    as (r & H1 & H2 & H3 & _).
  - exists short_bars. split; [reflexivity|]. right. vm_compute. lia.
  - exists r. auto.
Defined.

(** C4.  For a series with at least 20 bars, the [buy_signal] that [analyze]
    returns is the one the cascade assigns to the returned [signal_score]
    and [trend_status]; [_generate_signal] applies the cascade to whatever
    result it scores. *)
Theorem final_action_cascade (s : store) (l : ref) (f : DataFrame) (code : string) :
  s !! l = Some f -> accepted f -> (20 <= nrows f)%nat ->
  (exists r s',
     analyze (Some l) code s = (Ok r, s')
     /\ buy_signal r = cascade_spec (signal_score r) (trend_status r))
  /\ (forall r0 : TrendAnalysisResult,
        buy_signal (_generate_signal r0)
        = cascade_spec (signal_score (_generate_signal r0))
            (trend_status (_generate_signal r0))).
Proof.
  intros Hl Hacc Hn.
  assert (Hgen : forall r0 : TrendAnalysisResult,
             buy_signal (_generate_signal r0)
             = cascade_spec (signal_score (_generate_signal r0))
                 (trend_status (_generate_signal r0))).
  { intros r0. rewrite generate_signal_buy, generate_signal_score,
      generate_signal_trend. apply decide_signal_cascade. }
  split; [|exact Hgen].
  destruct (analyze_long s l f code Hl Hacc Hn) as (r0 & s' & Hrun & _).
  exists (_generate_signal r0), s'. split; [exact Hrun|apply Hgen].
Qed.

Lemma final_action_cascade_witness :
  exists r s',
    analyze (Some 0%nat) "600519" [rising_bars] = (Ok r, s')
    /\ buy_signal r = cascade_spec (signal_score r) (trend_status r).
Proof.
  apply (final_action_cascade [rising_bars] 0%nat rising_bars "600519").
  - reflexivity.
  - exact accepted_rising.
  - vm_compute. lia.
Defined.

(** C10.  In [_generate_signal] the bias sub-score is at least 4 and no
    other sub-score is negative.  So a result that [analyze] returns on the
    scoring path has [signal_score] at least 4, and a returned score of 0
    occurs exactly for the inputs of the early return: [None], an empty
    frame or fewer than 20 bars. *)
Theorem zero_score_iff_short (s : store) (df : option ref) (code : string)
    (r : TrendAnalysisResult) (s' : store) :
  analyze df code s = (Ok r, s') ->
  (signal_score r = 0 <-> short_input df s)
  /\ (~ short_input df s -> 4 <= signal_score r)
  /\ (forall (r0 : TrendAnalysisResult) (t : tally),
        score t + 4 <= score (score_bias r0 t)
        /\ score t <= score (score_trend r0 t)
        /\ score t <= score (score_volume r0 t)
        /\ score t <= score (score_support r0 t)
        /\ score t <= score (score_macd r0 t)
        /\ score t <= score (score_rsi r0 t)).
Proof.
  intros Hrun.
  assert (Hlong : ~ short_input df s -> 4 <= signal_score r).
  { intros Hns. destruct df as [l|]; [|exfalso; apply Hns; exact I].
    destruct (analyze_long_inv l code s r s' Hns Hrun) as [r0 ->].
    rewrite generate_signal_score. apply total_score_range. }
  repeat split.
  - intros Hz. destruct (short_input_dec df s) as [H|H]; [exact H|].
    apply Hlong in H. lia.
  - intros Hshort. rewrite (analyze_short df code s Hshort) in Hrun.
    injection Hrun as <- _. reflexivity.
  - exact Hlong.
  - apply score_bias_points.
  - rewrite score_trend_points. pose proof (trend_scores_range (trend_status r0)). lia.
  - rewrite score_volume_points. pose proof (volume_scores_range (volume_status r0)). lia.
  - apply score_support_points.
  - rewrite score_macd_points. pose proof (macd_scores_range (macd_status r0)). lia.
  - rewrite score_rsi_points. pose proof (rsi_scores_range (rsi_status r0)). lia.
Qed.

Lemma zero_score_iff_short_witness :
  exists r s',
    analyze (Some 0%nat) "600519" [rising_bars] = (Ok r, s')
    /\ (signal_score r = 0 <-> short_input (Some 0%nat) [rising_bars])
    /\ 4 <= signal_score r.
Proof.
  destruct (analyze_long [rising_bars] 0%nat rising_bars "600519" eq_refl
              accepted_rising)
    as (r0 & s' & Hrun & _); [vm_compute; lia|].
  exists (_generate_signal r0), s'.
  destruct (zero_score_iff_short _ _ _ _ _ Hrun) as (Hiff & Hlong & _).
  repeat split; [exact Hrun|apply Hiff|apply Hiff|].
  apply Hlong. intros (f & Hf & [He|Hn]).
  - injection Hf as <-. vm_compute in He. discriminate.
  - injection Hf as <-. vm_compute in Hn. lia.
Defined.

(** C2, as stated, fails: the mapping has no key for the support levels and
    none for the resistance levels. *)
Lemma to_dict_levels_counterexample :
  ~ ("support_levels" ∈ dom (to_dict (new_result "600519")))
  /\ ~ ("resistance_levels" ∈ dom (to_dict (new_result "600519"))).
Proof.
  split; intros H; apply elem_of_dom in H as [v H]; vm_compute in H;
    discriminate.
Qed.

(** C2, amended.  The key set of [to_dict] is the same for every result: a
    key for each field of the dataclass except [resistance_levels] and
    [support_levels]. *)
Theorem to_dict_keys (r : TrendAnalysisResult) :
  dom (to_dict r)
  = list_to_set field_names ∖ {["resistance_levels"; "support_levels"]}.
Proof.
  unfold to_dict. rewrite dom_list_to_map_L. cbn [fmap list_fmap fst].
  apply (bool_decide_unpack _). vm_compute. exact I.
Qed.

(** ** The trend classifier *)

Lemma fltb_asym (a b : fl) : (a <? b)%fl = true -> (b <? a)%fl = false.
Proof.
  destruct a as [p| | |], b as [q| | |]; simpl; try discriminate; try reflexivity.
  intros H. apply Qltb_lt in H. apply Qltb_ge. apply Qlt_le_weak, H.
Qed.

(** C5, as stated, fails.  On [plateau_bars] the latest bar has
    MA5 > MA10 > MA20, its spread exceeds 5 and exceeds the spread five bars
    earlier, and the classifier answers BULL: it looks four bars back.  On
    [steep_bars] the earlier bar has no MA20, so the current spread does not
    exceed a spread computed there, and the classifier answers STRONG_BULL:
    it takes the missing spread as 0. *)
Lemma trend_five_bars_back_counterexample :
  let spread (c : column) (i : nat) :=
    ((at_pos (rolling_mean 5 c) i - at_pos (rolling_mean 20 c) i)
     / at_pos (rolling_mean 20 c) i * F 100)%fl in
  let ordered (c : column) (i : nat) :=
    ((at_pos (rolling_mean 5 c) i >? at_pos (rolling_mean 10 c) i)
     && (at_pos (rolling_mean 10 c) i >? at_pos (rolling_mean 20 c) i))%fl in
  let plateau := F <$> plateau_closes in
  let steep := F <$> steep_closes in
  (nrows plateau_bars = 25%nat
   /\ ordered plateau 24%nat = true
   /\ ((spread plateau 24%nat >? spread plateau 19%nat)
       && (spread plateau 24%nat >? F 5))%fl = true
   /\ trend_status
        <$> returned (analyze (Some 0%nat) "600519" [plateau_bars])
      = Some TrendStatus.BULL)
  /\ (nrows steep_bars = 20%nat
      /\ ordered steep 19%nat = true
      /\ (spread steep 19%nat >? spread steep 14%nat)%fl = false
      /\ (spread steep 19%nat >? spread steep 15%nat)%fl = false
      /\ trend_status
           <$> returned (analyze (Some 0%nat) "600519" [steep_bars])
         = Some TrendStatus.STRONG_BULL).
Proof. vm_compute. repeat split; reflexivity. Qed.

(** C5, amended.  With MA5 > MA10 > MA20 the classifier compares the
    spread 100 (MA5 - MA20) / MA20 of the latest bar with the same spread on
    the fifth bar from the end ([df.iloc[-5]], four bars before the latest;
    a spread whose divisor is missing or not positive counts as 0), and
    answers STRONG_BULL exactly when the current spread exceeds both that
    one and 5, otherwise BULL.  With MA5 < MA10 < MA20 it does the same with
    the spread 100 (MA20 - MA5) / MA5 and answers STRONG_BEAR or BEAR. *)
Theorem trend_strong_or_plain (f : DataFrame) (r : TrendAnalysisResult)
    (c5 c20 : column) :
  (5 <= nrows f)%nat ->
  columns f !! "MA5" = Some c5 -> columns f !! "MA20" = Some c20 ->
  let fifth_last := (nrows f - 5)%nat in
  ((ma5 r >? ma10 r)%fl && (ma10 r >? ma20 r)%fl = true ->
   let curr := spread_pct (ma5 r) (ma20 r) in
   let prev := spread_pct (at_pos c5 fifth_last) (at_pos c20 fifth_last) in
   exists r',
     _analyze_trend f r = Ok r'
     /\ trend_status r'
        = if (curr >? prev)%fl && (curr >? F 5)%fl
          then TrendStatus.STRONG_BULL else TrendStatus.BULL)
  /\ ((ma5 r <? ma10 r)%fl && (ma10 r <? ma20 r)%fl = true ->
      let curr := spread_pct (ma20 r) (ma5 r) in
      let prev := spread_pct (at_pos c20 fifth_last) (at_pos c5 fifth_last) in
      exists r',
        _analyze_trend f r = Ok r'
        /\ trend_status r'
           = if (curr >? prev)%fl && (curr >? F 5)%fl
             then TrendStatus.STRONG_BEAR else TrendStatus.BEAR).
Proof.
  intros Hn H5 H20 fifth_last. split.
  - intros Hbull curr prev. unfold _analyze_trend. rewrite Hbull.
    rewrite prev_row_at by lia. rewrite decide_True by lia.
    read_rows. fold fifth_last.
    assert (E : (if (at_pos c20 fifth_last >? F 0)%fl
                 then Ok ((at_pos c5 fifth_last - at_pos c20 fifth_last)
                          / at_pos c20 fifth_last * F 100)%fl
                 else Ok (F 0)) = Ok prev).
    { unfold prev, spread_pct.
      destruct (at_pos c20 fifth_last >? F 0)%fl; reflexivity. }
    unfold mret, outcome_ret. rewrite E, bind_Ok.
    fold (spread_pct (ma5 r) (ma20 r)). fold curr.
    destruct ((curr >? prev)%fl && (curr >? F 5)%fl);
      eexists; split; reflexivity.
  - intros Hbear curr prev. unfold _analyze_trend.
    apply andb_true_iff in Hbear as [Hb1 Hb2].
    assert (G1 : (ma5 r >? ma10 r)%fl = false) by (apply fltb_asym, Hb1).
    rewrite G1. cbn [andb]. rewrite Hb1, Hb2. cbn [andb].
    rewrite prev_row_at by lia. rewrite decide_True by lia.
    read_rows. fold fifth_last.
    assert (E : (if (at_pos c5 fifth_last >? F 0)%fl
                 then Ok ((at_pos c20 fifth_last - at_pos c5 fifth_last)
                          / at_pos c5 fifth_last * F 100)%fl
                 else Ok (F 0)) = Ok prev).
    { unfold prev, spread_pct.
      destruct (at_pos c5 fifth_last >? F 0)%fl; reflexivity. }
    unfold mret, outcome_ret. rewrite E, bind_Ok.
    fold (spread_pct (ma20 r) (ma5 r)). fold curr.
    destruct ((curr >? prev)%fl && (curr >? F 5)%fl);
      eexists; split; reflexivity.
Qed.

Lemma trend_strong_or_plain_witness :
  let up := F <$> plateau_closes in
  let down := F <$> falling_closes in
  (exists r',
     _analyze_trend (mas_frame up plateau_bars)
       (with_latest_mas up (new_result "600519")) = Ok r'
     /\ trend_status r' = TrendStatus.BULL)
  /\ (exists r',
        _analyze_trend (mas_frame down falling_bars)
          (with_latest_mas down (new_result "600519")) = Ok r'
        /\ trend_status r' = TrendStatus.STRONG_BEAR).
Proof.
  intros up down. split.
  - destruct (trend_strong_or_plain (mas_frame up plateau_bars)
                (with_latest_mas up (new_result "600519"))
                (rolling_mean 5 up) (rolling_mean 20 up)) as [Hbull _].
    + vm_compute. lia.
    + reflexivity.
    + reflexivity.
    + destruct Hbull as (r' & Hrun & Hst); [vm_compute; reflexivity|].
      exists r'. split; [exact Hrun|]. rewrite Hst. vm_compute. reflexivity.
  - destruct (trend_strong_or_plain (mas_frame down falling_bars)
                (with_latest_mas down (new_result "600519"))
                (rolling_mean 5 down) (rolling_mean 20 down)) as [_ Hbear].
    + vm_compute. lia.
    + reflexivity.
    + reflexivity.
    + destruct Hbear as (r' & Hrun & Hst); [vm_compute; reflexivity|].
      exists r'. split; [exact Hrun|]. rewrite Hst. vm_compute. reflexivity.
Defined.

(** ** Bollinger bands *)

(** C6, as stated, fails.  Every close of [huge_bars] is a positive double
    and the bar at position 19 has 20 bars of history, but the sum of the
    window leaves the range of the doubles: the rolling mean is NaN there,
    and so are the three bands, which are not in order. *)
Lemma bollinger_overflow_counterexample :
  Forall (fun z => 0 < z <= DBL_MAX_Z) huge_closes
  /\ nrows huge_bars = 20%nat
  /\ exists f' lower middle upper,
       _calculate_bollinger_bands 0%nat [huge_bars]
       = (Ok 1%nat, [huge_bars; f'])
       /\ columns f' !! "BB_LOWER" = Some lower
       /\ columns f' !! "BB_MIDDLE" = Some middle
       /\ columns f' !! "BB_UPPER" = Some upper
       /\ lower !! 19%nat = Some NaN /\ middle !! 19%nat = Some NaN
       /\ upper !! 19%nat = Some NaN
       /\ (at_pos lower 19 <=? at_pos middle 19)%fl = false
       /\ (at_pos middle 19 <=? at_pos upper 19)%fl = false.
Proof.
  split.
  { unfold huge_closes. cbn [fmap list_fmap seq].
    repeat (constructor; [vm_compute; split; [reflexivity|discriminate]|]).
    constructor. }
  split; [reflexivity|].
  exists (bb_frame (F <$> huge_closes) huge_bars). eexists _, _, _.
  split; [apply (_calculate_bollinger_bands_run [huge_bars] 0%nat); reflexivity|].
  split; [unfold bb_frame; cbv zeta; find_column|].
  split; [unfold bb_frame; cbv zeta; find_column|].
  split; [unfold bb_frame; cbv zeta; find_column|].
  vm_compute. repeat split; reflexivity.
Qed.

(** C6, amended.  [_calculate_bollinger_bands] returns a frame in which, at
    every bar whose last 20 closes are numbers, when no close up to that bar
    exceeds [2^500] in magnitude, the three band columns hold numbers with
    BB_LOWER <= BB_MIDDLE <= BB_UPPER. *)
Theorem bollinger_band_order (s : store) (l : ref) (f : DataFrame) (c : column) :
  s !! l = Some f -> columns f !! "close" = Some c ->
  exists f' lower middle upper,
    _calculate_bollinger_bands l s = (Ok (length s), s ++ [f'])
    /\ columns f' !! "BB_LOWER" = Some lower
    /\ columns f' !! "BB_MIDDLE" = Some middle
    /\ columns f' !! "BB_UPPER" = Some upper
    /\ forall i, (BB_PERIOD <= i + 1)%nat -> (i < length c)%nat ->
         Forall finite (take BB_PERIOD (drop (i + 1 - BB_PERIOD) c)) ->
         Forall moderate (take (i + 1) c) ->
         exists lo mi up : Q,
           lower !! i = Some (Fin lo) /\ middle !! i = Some (Fin mi)
           /\ upper !! i = Some (Fin up)
           /\ (lo <= mi)%Q /\ (mi <= up)%Q.
Proof.
  intros Hl Hc.
  exists (bb_frame c f). eexists _, _, _.
  split; [apply _calculate_bollinger_bands_run; assumption|].
  split; [unfold bb_frame; cbv zeta; find_column|].
  split; [unfold bb_frame; cbv zeta; find_column|].
  split; [unfold bb_frame; cbv zeta; find_column|].
  intros i Hi Hlen Hfin Hmod. apply bb_columns_at; assumption.
Qed.

Lemma bollinger_band_order_witness :
  exists f' lower middle upper,
    _calculate_bollinger_bands 0%nat [rising_bars] = (Ok 1%nat, [rising_bars; f'])
    /\ columns f' !! "BB_LOWER" = Some lower
    /\ columns f' !! "BB_MIDDLE" = Some middle
    /\ columns f' !! "BB_UPPER" = Some upper
    /\ exists lo mi up : Q,
         lower !! 29%nat = Some (Fin lo) /\ middle !! 29%nat = Some (Fin mi)
         /\ upper !! 29%nat = Some (Fin up)
         /\ (lo <= mi)%Q /\ (mi <= up)%Q.
Proof.
  destruct (bollinger_band_order [rising_bars] 0%nat rising_bars
              (F <$> rising_closes))
    as (f' & lower & middle & upper & Hrun & H1 & H2 & H3 & Hord).
  - reflexivity.
  - reflexivity.
  - exists f', lower, middle, upper. repeat split; try assumption.
    apply (Hord 29%nat).
    + vm_compute. lia.
    + vm_compute. lia.
    + apply Forall_take, Forall_drop, Forall_fmap, Forall_forall.
      intros x _. exact I.
    + apply Forall_take, Forall_fmap, Forall_forall. intros z Hz.
      unfold rising_closes in Hz. apply list_elem_of_fmap in Hz as (k & -> & Hk).
      apply elem_of_seq in Hk. cbn [compose moderate F].
      apply Qabs_bound. unfold SAFE_MAGNITUDE, Qle, inject_Z.
      cbn [Qnum Qden Qopp].
      assert (200 <= 2 ^ 500) by (vm_compute; discriminate).
      set (B := 2 ^ 500) in *. clearbody B. split; lia.
Defined.

(** ** RSI *)

Lemma rsi_series_averages period (c : column) :
  rsi_series period c
  = fillna (F 50)
      ((fun x => (F 100 - F 100 / (F 1 + x))%fl)
         <$> col_div (avg_gain period c) (avg_loss period c)).
Proof. reflexivity. Qed.

Lemma rsi_series_at period (c : column) i ag al :
  avg_gain period c !! i = Some ag -> avg_loss period c !! i = Some al ->
  rsi_series period c !! i
  = Some (let x := rsi_of_rs (ag / al) in if is_nan x then F 50 else x).
Proof.
  intros Hg Hl. rewrite rsi_series_averages. unfold fillna, col_div.
  rewrite !list_lookup_fmap, lookup_zip_with, Hg, Hl. reflexivity.
Qed.



(** ** Frame effect *)

Lemma keeps_calculators n l (calc : ref -> M ref) :
  calc ∈ calculators -> keeps n (calc l) (fun l' => (n <= l')%nat).
Proof.
  unfold calculators. intros H.
  repeat (apply elem_of_cons in H as [->|H];
          [first [ apply keeps__calculate_mas | apply keeps__calculate_macd
                 | apply keeps__calculate_rsi | apply keeps__calculate_kdj
                 | apply keeps__calculate_bollinger_bands
                 | apply keeps__calculate_momentum
                 | apply keeps__calculate_volume_ma ]|]).
  apply elem_of_nil in H. contradiction.
Qed.

Lemma keeps_fresh (n : nat) (m : M ref) (s : store) (l' : ref) :
  keeps n m (fun l' => (n <= l')%nat) -> (n <= length s)%nat ->
  (m s).1 = Ok l' -> (n <= l')%nat.
Proof.
  intros H Hn E. destruct (m s) as [o s'] eqn:Em. simpl in E. subst o.
  destruct (H s _ _ Hn Em) as (_ & _ & HQ). apply HQ. reflexivity.
Qed.

(** C8.  [analyze] leaves every frame object of the store as it found it,
    the caller's frame included: after the call the frame holds exactly the
    columns and values it held before.  The sorted view is a new object, and
    each of the seven calculators returns a new object and leaves its
    argument as it was. *)
Theorem analyze_leaves_input (s : store) (df : option ref) (code : string)
    (l : ref) (f : DataFrame) :
  s !! l = Some f ->
  (analyze df code s).2 !! l = Some f
  /\ (sort_values "date" l s).2 !! l = Some f
  /\ (forall l', (sort_values "date" l s).1 = Ok l' -> l' <> l)
  /\ forall calc, calc ∈ calculators ->
       (calc l s).2 !! l = Some f
       /\ forall l', (calc l s).1 = Ok l' -> l' <> l.
Proof.
  intros Hl. pose proof (lookup_lt_Some _ _ _ Hl) as Hlt.
  split; [|split; [|split]].
  - eapply prefix_lookup_Some; [exact Hl|].
    eapply keeps_prefix, keeps_analyze.
  - eapply prefix_lookup_Some; [exact Hl|].
    eapply keeps_prefix, keeps_sort_values.
  - intros l' E.
    pose proof (keeps_fresh (length s) _ s l'
                  (keeps_sort_values (length s) "date" l) (le_n _) E).
    lia.
  - intros calc Hcalc. split.
    + eapply prefix_lookup_Some; [exact Hl|].
      eapply keeps_prefix, keeps_calculators, Hcalc.
    + intros l' E.
      pose proof (keeps_fresh (length s) _ s l'
                    (keeps_calculators (length s) l calc Hcalc) (le_n _) E).
      lia.
Qed.

Lemma analyze_leaves_input_witness :
  (analyze (Some 0%nat) "600519" [rising_bars]).2 !! 0%nat = Some rising_bars.
Proof.
  exact (proj1 (analyze_leaves_input [rising_bars] (Some 0%nat) "600519"
                  0%nat rising_bars eq_refl)).
Defined.

(** ** The MACD catch-all *)

(** C9.  With at least 26 bars, DIF and DEA of opposite signs on the latest
    bar and no golden cross, death cross or zero-axis crossing, the
    classifier takes its last branch: [macd_status] becomes BULLISH while the
    text says neutral, and the scorer adds the 8 points of the BULLISH
    entry. *)
Theorem macd_neutral_scored_bullish (f : DataFrame) (r : TrendAnalysisResult)
    (dif dea bar : column) (t : tally) :
  (MACD_SLOW <= nrows f)%nat ->
  columns f !! "MACD_DIF" = Some dif -> columns f !! "MACD_DEA" = Some dea ->
  columns f !! "MACD_BAR" = Some bar ->
  let d := at_pos dif (nrows f - 1) in
  let e := at_pos dea (nrows f - 1) in
  let pd := at_pos dif (nrows f - 2) in
  let pe := at_pos dea (nrows f - 2) in
  ((d >? F 0) && (e <? F 0) || (d <? F 0) && (e >? F 0))%fl = true ->
  ((pd - pe <=? F 0) && (d - e >? F 0))%fl = false ->
  ((pd - pe >=? F 0) && (d - e <? F 0))%fl = false ->
  ((pd <=? F 0) && (d >? F 0))%fl = false ->
  ((pd >=? F 0) && (d <? F 0))%fl = false ->
  exists r',
    _analyze_macd f r = Ok r'
    /\ macd_status r' = MACDStatus.BULLISH
    /\ macd_signal r' = [Lit " MACD 中性区域"]
    /\ score (score_macd r' t) = score t + 8
    /\ macd_scores MACDStatus.BULLISH = 8.
Proof.
  intros Hn Hdif Hdea Hbar d e pd pe Hopp Hgold Hdeath Hup Hdown.
  unfold _analyze_macd, len, MACD_SLOW in *.
  rewrite decide_False by lia.
  rewrite iloc_m1, iloc_m2 by lia. read_rows.
  fold d e pd pe.
  change (macd_dif (set_macd_bar (at_pos bar (nrows f - 1))
            (set_macd_dea e (set_macd_dif d r)))) with d.
  change (macd_dea (set_macd_bar (at_pos bar (nrows f - 1))
            (set_macd_dea e (set_macd_dif d r)))) with e.
  rewrite Hgold, Hdeath, Hup, Hdown. cbn [andb].
  assert (G1 : ((d >? F 0) && (e >? F 0))%fl = false).
  { apply orb_true_iff in Hopp as [H|H]; apply andb_true_iff in H as [H1 H2].
    - apply andb_false_iff. right. apply fltb_asym. exact H2.
    - apply andb_false_iff. left. apply fltb_asym. exact H1. }
  assert (G2 : ((d <? F 0) && (e <? F 0))%fl = false).
  { apply orb_true_iff in Hopp as [H|H]; apply andb_true_iff in H as [H1 H2].
    - apply andb_false_iff. left. apply fltb_asym. exact H1.
    - apply andb_false_iff. right. apply fltb_asym. exact H2. }
  rewrite G1, G2.
  eexists. split; [reflexivity|]. repeat split.
Qed.

Lemma macd_neutral_scored_bullish_witness :
  let c := F <$> rebound_closes in
  (exists r',
     _analyze_macd (macd_frame c rebound_bars) (new_result "600519") = Ok r'
     /\ macd_status r' = MACDStatus.BULLISH
     /\ macd_signal r' = [Lit " MACD 中性区域"]
     /\ score (score_macd r' (mkTally 0 [] [])) = 8)
  /\ macd_signal <$> returned (analyze (Some 0%nat) "600519" [rebound_bars])
     = Some [Lit " MACD 中性区域"].
Proof.
  intros c. split; [|vm_compute; reflexivity].
  destruct (macd_neutral_scored_bullish (macd_frame c rebound_bars)
              (new_result "600519")
              (col_sub (ewm_mean 12 c) (ewm_mean 26 c))
              (ewm_mean 9 (col_sub (ewm_mean 12 c) (ewm_mean 26 c)))
              (col_scale (F 2)
                 (col_sub (col_sub (ewm_mean 12 c) (ewm_mean 26 c))
                    (ewm_mean 9 (col_sub (ewm_mean 12 c) (ewm_mean 26 c)))))
              (mkTally 0 [] []))
    as (r' & H1 & H2 & H3 & H4 & _).
  - vm_compute. lia.
  - reflexivity.
  - reflexivity.
  - reflexivity.
  - vm_compute. reflexivity.
  - vm_compute. reflexivity.
  - vm_compute. reflexivity.
  - vm_compute. reflexivity.
  - vm_compute. reflexivity.
  - exists r'. repeat split; assumption.
Defined.

(** ** What each classifier writes *)

(** Take apart a run that returned. *)
Ltac inv_ok H :=
  cbv zeta in H;
  lazymatch type of H with
  | Ok _ = Ok _ => injection H as <-
  | mret _ = Ok _ => injection H as <-
  | (if ?b then _ else _) = Ok _ => destruct b eqn:?; inv_ok H
  | (_ ≫= _) = Ok _ =>
      let H1 := fresh "Hm" in
      let a := fresh "a" in
      apply bind_Ok_inv in H as (a & H1 & H); inv_ok H1; inv_ok H
  | _ => idtac
  end.

Lemma _analyze_trend_writes f r r' :
  _analyze_trend f r = Ok r' ->
  r' = r |> set_trend_status (trend_status r')
         |> set_ma_alignment (ma_alignment r')
         |> set_trend_strength (trend_strength r').
Proof.
  intros H. unfold _analyze_trend in H. inv_ok H; repeat split_if; destruct r; reflexivity.
Qed.

Lemma _analyze_volume_writes f r r' :
  _analyze_volume f r = Ok r' ->
  r' = r |> set_volume_ratio_5d (volume_ratio_5d r')
         |> set_volume_status (volume_status r')
         |> set_volume_trend (volume_trend r').
Proof.
  intros H. unfold _analyze_volume in H. inv_ok H; repeat split_if; destruct r; reflexivity.
Qed.

Lemma _analyze_support_resistance_writes f r r' :
  _analyze_support_resistance f r = Ok r' ->
  r' = r |> set_support_ma5 (support_ma5 r')
         |> set_support_ma10 (support_ma10 r')
         |> set_support_levels (support_levels r')
         |> set_resistance_levels (resistance_levels r').
Proof.
  intros H. unfold _analyze_support_resistance in H.
  inv_ok H; repeat split_if; destruct r; reflexivity.
Qed.

Lemma _analyze_macd_writes f r r' :
  _analyze_macd f r = Ok r' ->
  r' = r |> set_macd_dif (macd_dif r') |> set_macd_dea (macd_dea r')
         |> set_macd_bar (macd_bar r') |> set_macd_status (macd_status r')
         |> set_macd_signal (macd_signal r').
Proof.
  intros H. unfold _analyze_macd in H. inv_ok H; repeat split_if; destruct r; reflexivity.
Qed.

Lemma _analyze_rsi_writes f r r' :
  _analyze_rsi f r = Ok r' ->
  r' = r |> set_rsi_6 (rsi_6 r') |> set_rsi_12 (rsi_12 r')
         |> set_rsi_24 (rsi_24 r') |> set_rsi_status (rsi_status r')
         |> set_rsi_signal (rsi_signal r').
Proof.
  intros H. unfold _analyze_rsi in H. inv_ok H; repeat split_if; destruct r; reflexivity.
Qed.

Lemma _analyze_bollinger_bands_writes f r r' :
  _analyze_bollinger_bands f r = Ok r' ->
  r' = r |> set_bb_width (bb_width r') |> set_bb_position (bb_position r').
Proof.
  intros H. unfold _analyze_bollinger_bands, py_div in H.
  inv_ok H; repeat split_if; destruct r; reflexivity.
Qed.

Lemma _analyze_volume_ma_writes f r r' :
  _analyze_volume_ma f r = Ok r' ->
  r' = r |> set_vol_ratio_ma5 (vol_ratio_ma5 r') |> set_vol_trend (vol_trend r').
Proof.
  intros H. unfold _analyze_volume_ma in H. inv_ok H; repeat split_if; destruct r; reflexivity.
Qed.

Lemma _calculate_bias_writes r :
  let r' := _calculate_bias r in
  r' = r |> set_bias_ma5 (bias_ma5 r') |> set_bias_ma10 (bias_ma10 r')
         |> set_bias_ma20 (bias_ma20 r') |> set_bias_ma60 (bias_ma60 r')
         |> set_bias_ma250 (bias_ma250 r').
Proof.
  unfold _calculate_bias. cbv zeta.
  repeat match goal with
         | |- context [if ?b then _ else _] =>
             lazymatch b with
             | context [if _ then _ else _] => fail
             | _ => destruct b
             end
         end; destruct r; reflexivity.
Qed.

Lemma _analyze_kdj_writes f r :
  _analyze_kdj f r = set_kdj_signal (kdj_signal (_analyze_kdj f r)) r.
Proof.
  unfold _analyze_kdj. repeat split_if; destruct r; reflexivity.
Qed.

Lemma _analyze_momentum_writes f r :
  _analyze_momentum f r
  = set_momentum_signal (momentum_signal (_analyze_momentum f r)) r.
Proof.
  unfold _analyze_momentum. repeat split_if; destruct r; reflexivity.
Qed.

Lemma _generate_signal_writes r :
  let r' := _generate_signal r in
  r' = r |> set_signal_score (signal_score r')
         |> set_signal_reasons (signal_reasons r')
         |> set_risk_factors (risk_factors r')
         |> set_buy_signal (buy_signal r').
Proof. destruct r; reflexivity. Qed.

(** ** The fields read from the latest bar *)

Lemma iloc_m1_inv f latest :
  iloc (-1) f = Ok latest ->
  (1 <= nrows f)%nat /\ latest = row_at f (nrows f - 1).
Proof.
  intros H. destruct (decide (1 <= nrows f)%nat) as [Hn|Hn].
  - rewrite iloc_m1 in H by exact Hn. injection H as <-. auto.
  - unfold iloc in H. simpl in H.
    replace ((0 <=? Z.of_nat (nrows f) + -1)
             && (Z.of_nat (nrows f) + -1 <? Z.of_nat (nrows f))) with false in H;
      [discriminate|].
    symmetry. apply andb_false_iff. left. apply Z.leb_gt. lia.
Qed.

Lemma row_getitem_inv k (latest : row) x :
  row_getitem k latest = Ok x -> latest !! k = Some x.
Proof. unfold row_getitem. destruct (latest !! k); [congruence|discriminate]. Qed.

(** The steps of a run of [classify] that returned. *)
Lemma classify_steps f r r' :
  classify f r = Ok r' ->
  let latest := row_at f (nrows f - 1) in
  exists x xa xb xc r1 r2 r3 r4 r5 r7 r9,
    (1 <= nrows f)%nat
    /\ latest !! "close" = Some x /\ latest !! "MA5" = Some xa
    /\ latest !! "MA10" = Some xb /\ latest !! "MA20" = Some xc
    /\ _analyze_trend f
         (r |> set_current_price x |> set_ma5 xa |> set_ma10 xb |> set_ma20 xc
            |> set_ma60 (row_get "MA60" (F 0) latest)
            |> set_ma250 (row_get "MA250" (F 0) latest)) = Ok r1
    /\ _analyze_volume f
         (_calculate_bias r1
            |> set_kdj_k (row_get "KDJ_K" (F 0) latest)
            |> set_kdj_d (row_get "KDJ_D" (F 0) latest)
            |> set_kdj_j (row_get "KDJ_J" (F 0) latest)
            |> set_bb_upper (row_get "BB_UPPER" (F 0) latest)
            |> set_bb_middle (row_get "BB_MIDDLE" (F 0) latest)
            |> set_bb_lower (row_get "BB_LOWER" (F 0) latest)
            |> set_momentum_5d (row_get "MOMENTUM_5D" (F 0) latest)
            |> set_momentum_10d (row_get "MOMENTUM_10D" (F 0) latest)
            |> set_vol_ma5 (row_get "VOL_MA5" (F 0) latest)
            |> set_vol_ma10 (row_get "VOL_MA10" (F 0) latest)
            |> set_vol_ma20 (row_get "VOL_MA20" (F 0) latest)) = Ok r2
    /\ _analyze_support_resistance f r2 = Ok r3
    /\ _analyze_macd f r3 = Ok r4
    /\ _analyze_rsi f r4 = Ok r5
    /\ _analyze_bollinger_bands f (_analyze_kdj f r5) = Ok r7
    /\ _analyze_volume_ma f (_analyze_momentum f r7) = Ok r9
    /\ r' = _generate_signal r9.
Proof.
  intros H latest. unfold classify in H.
  apply bind_Ok_inv in H as (l1 & Hl1 & H).
  apply iloc_m1_inv in Hl1 as [Hn ->]. fold latest in H.
  apply bind_Ok_inv in H as (x & Hx & H). apply row_getitem_inv in Hx.
  apply bind_Ok_inv in H as (xa & Hxa & H). apply row_getitem_inv in Hxa.
  apply bind_Ok_inv in H as (xb & Hxb & H). apply row_getitem_inv in Hxb.
  apply bind_Ok_inv in H as (xc & Hxc & H). apply row_getitem_inv in Hxc.
  cbv zeta in H.
  apply bind_Ok_inv in H as (r1 & H1 & H).
  rewrite iloc_m1 in H by exact Hn. rewrite bind_Ok in H. fold latest in H.
  apply bind_Ok_inv in H as (r2 & H2 & H).
  apply bind_Ok_inv in H as (r3 & H3 & H).
  apply bind_Ok_inv in H as (r4 & H4 & H).
  apply bind_Ok_inv in H as (r5 & H5 & H).
  apply bind_Ok_inv in H as (r7 & H7 & H).
  apply bind_Ok_inv in H as (r9 & H9 & H).
  injection H as <-.
  exists x, xa, xb, xc, r1, r2, r3, r4, r5, r7, r9.
  repeat split; assumption.
Qed.

Lemma kept_trans r1 r2 r3 : kept r1 r2 -> kept r2 r3 -> kept r1 r3.
Proof. intros [? ?] [? ?]. split; congruence. Qed.

Ltac kept_by W := split; rewrite W; reflexivity.

Lemma kept__analyze_trend f r r' : _analyze_trend f r = Ok r' -> kept r r'.
Proof. intros H. kept_by (_analyze_trend_writes _ _ _ H). Qed.

Lemma kept__calculate_bias r : kept r (_calculate_bias r).
Proof. kept_by (_calculate_bias_writes r). Qed.

Lemma kept__analyze_volume f r r' : _analyze_volume f r = Ok r' -> kept r r'.
Proof. intros H. kept_by (_analyze_volume_writes _ _ _ H). Qed.

Lemma kept__analyze_support_resistance f r r' :
  _analyze_support_resistance f r = Ok r' -> kept r r'.
Proof. intros H. kept_by (_analyze_support_resistance_writes _ _ _ H). Qed.

Lemma kept__analyze_macd f r r' : _analyze_macd f r = Ok r' -> kept r r'.
Proof. intros H. kept_by (_analyze_macd_writes _ _ _ H). Qed.

Lemma kept__analyze_rsi f r r' : _analyze_rsi f r = Ok r' -> kept r r'.
Proof. intros H. kept_by (_analyze_rsi_writes _ _ _ H). Qed.

Lemma kept__analyze_kdj f r : kept r (_analyze_kdj f r).
Proof. kept_by (_analyze_kdj_writes f r). Qed.

Lemma kept__analyze_bollinger_bands f r r' :
  _analyze_bollinger_bands f r = Ok r' -> kept r r'.
Proof. intros H. kept_by (_analyze_bollinger_bands_writes _ _ _ H). Qed.

Lemma kept__analyze_momentum f r : kept r (_analyze_momentum f r).
Proof. kept_by (_analyze_momentum_writes f r). Qed.

Lemma kept__analyze_volume_ma f r r' :
  _analyze_volume_ma f r = Ok r' -> kept r r'.
Proof. intros H. kept_by (_analyze_volume_ma_writes _ _ _ H). Qed.

Lemma kept__generate_signal r : kept r (_generate_signal r).
Proof. split; reflexivity. Qed.

Lemma classify_latest_fields f r r' :
  classify f r = Ok r' ->
  let latest := row_at f (nrows f - 1) in
  (1 <= nrows f)%nat
  /\ latest !! "close" = Some (current_price r')
  /\ latest !! "MA5" = Some (ma5 r')
  /\ latest !! "MA10" = Some (ma10 r')
  /\ latest !! "MA20" = Some (ma20 r')
  /\ ma60 r' = row_get "MA60" (F 0) latest
  /\ ma250 r' = row_get "MA250" (F 0) latest
  /\ indicator_fields r'
     = (fun k => row_get k (F 0) latest)
         <$> ["KDJ_K"; "KDJ_D"; "KDJ_J"; "BB_UPPER"; "BB_MIDDLE"; "BB_LOWER";
              "MOMENTUM_5D"; "MOMENTUM_10D"; "VOL_MA5"; "VOL_MA10"; "VOL_MA20"].
Proof.
  intros H latest.
  destruct (classify_steps f r r' H)
    as (x & xa & xb & xc & r1 & r2 & r3 & r4 & r5 & r7 & r9 & Hn & Hx & Hxa
        & Hxb & Hxc & H1 & H2 & H3 & H4 & H5 & H7 & H9 & ->).
  fold latest in Hx, Hxa, Hxb, Hxc, H1, H2.
  pose proof (kept__analyze_trend _ _ _ H1) as K1.
  pose proof (kept__calculate_bias r1) as Kb.
  pose proof (kept__analyze_volume _ _ _ H2) as K2.
  pose proof (kept__analyze_support_resistance _ _ _ H3) as K3.
  pose proof (kept__analyze_macd _ _ _ H4) as K4.
  pose proof (kept__analyze_rsi _ _ _ H5) as K5.
  pose proof (kept__analyze_kdj f r5) as K6.
  pose proof (kept__analyze_bollinger_bands _ _ _ H7) as K7.
  pose proof (kept__analyze_momentum f r7) as K8.
  pose proof (kept__analyze_volume_ma _ _ _ H9) as K9.
  pose proof (kept__generate_signal r9) as K10.
  set (r' := _generate_signal r9) in *. clearbody r'.
  pose proof (kept_trans _ _ _ K2 (kept_trans _ _ _ K3 (kept_trans _ _ _ K4
    (kept_trans _ _ _ K5 (kept_trans _ _ _ K6 (kept_trans _ _ _ K7
    (kept_trans _ _ _ K8 (kept_trans _ _ _ K9 K10)))))))) as [Kp Ki].
  destruct K1 as [K1 _]. destruct Kb as [Kb _].
  match type of Kp with
  | _ = price_fields ?rb =>
      change (price_fields rb) with (price_fields (_calculate_bias r1)) in Kp
  end.
  rewrite Kb, K1 in Kp.
  injection Kp as E1 E2 E3 E4 E5 E6.
  rewrite E1, E2, E3, E4, E5, E6, Ki.
  repeat split; assumption || reflexivity.
Qed.

(** ** [analyze] on an accepted frame *)

Lemma analyze_accepted s l f code :
  s !! l = Some f -> accepted f -> (20 <= nrows f)%nat ->
  exists r s',
    analyze (Some l) code s = (Ok r, s')
    /\ classify (indicator_frame f) (new_result code) = Ok r
    /\ s `prefix_of` s'.
Proof.
  intros Hl Hacc Hn.
  destruct (accepted_columns f Hacc) as (d & c & lo & hi & v & Hd & Hc & Hlo & Hhi & Hv).
  destruct (add_indicators_run s l f d c lo hi v Hl Hd Hc Hlo Hhi Hv)
    as (s1 & Hrun & Hpre).
  assert (E : indicator_frame f
              = augmented (take_rows (sort_perm d) c) (take_rows (sort_perm d) lo)
                  (take_rows (sort_perm d) hi) (take_rows (sort_perm d) v)
                  (sorted_frame d f)).
  { unfold indicator_frame, sorted_column. rewrite Hd, Hc, Hlo, Hhi, Hv.
    reflexivity. }
  unfold analyze.
  erewrite bind_run by (unfold deref; rewrite Hl; reflexivity).
  replace (empty_frame f || bool_decide (len f < 20)%nat) with false.
  2: { symmetry. apply orb_false_iff. split.
       - unfold empty_frame. apply orb_false_iff. split.
         + apply bool_decide_eq_false. lia.
         + apply bool_decide_eq_false. intros E0. rewrite E0 in Hc.
           rewrite lookup_empty in Hc. discriminate.
       - apply bool_decide_eq_false. unfold len. lia. }
  erewrite bind_run by exact Hrun.
  erewrite bind_run by (unfold deref; rewrite lookup_last; reflexivity).
  unfold lift. rewrite <- E.
  edestruct (classify_ok (take_rows (sort_perm d) c) (take_rows (sort_perm d) lo)
               (take_rows (sort_perm d) hi) (take_rows (sort_perm d) v)
               (sorted_frame d f) (new_result code)) as [r0 Hr0].
  - exact Hn.
  - apply sorted_frame_column, Hc.
  - apply sorted_frame_column, Hhi.
  - apply sorted_frame_column, Hv.
  - rewrite <- E in Hr0. rewrite Hr0.
    exists (_generate_signal r0). eexists. split; [reflexivity|].
    split; [reflexivity|].
    etrans; [exact Hpre|]. apply prefix_app_r. reflexivity.
Qed.

(** The columns of the frame [analyze] classifies. *)
Lemma indicator_frame_close f :
  is_Some (columns f !! "close") ->
  columns (indicator_frame f) !! "close" = Some (sorted_column "close" f).
Proof.
  intros [c Hc]. unfold indicator_frame.
  assert (columns (sorted_frame (default [] (columns f !! "date")) f) !! "close"
          = Some (sorted_column "close" f)).
  { unfold sorted_column. rewrite Hc. apply sorted_frame_column, Hc. }
  frame_column.
Qed.

Lemma indicator_frame_volume f :
  is_Some (columns f !! "volume") ->
  columns (indicator_frame f) !! "volume" = Some (sorted_column "volume" f).
Proof.
  intros [c Hc]. unfold indicator_frame.
  assert (columns (sorted_frame (default [] (columns f !! "date")) f) !! "volume"
          = Some (sorted_column "volume" f)).
  { unfold sorted_column. rewrite Hc. apply sorted_frame_column, Hc. }
  frame_column.
Qed.

Lemma indicator_frame_high f :
  is_Some (columns f !! "high") ->
  columns (indicator_frame f) !! "high" = Some (sorted_column "high" f).
Proof.
  intros [c Hc]. unfold indicator_frame.
  assert (columns (sorted_frame (default [] (columns f !! "date")) f) !! "high"
          = Some (sorted_column "high" f)).
  { unfold sorted_column. rewrite Hc. apply sorted_frame_column, Hc. }
  frame_column.
Qed.

Lemma indicator_frame_nrows f : nrows (indicator_frame f) = nrows f.
Proof. reflexivity. Qed.

Lemma row_at_lookup f j k c :
  columns f !! k = Some c -> row_at f j !! k = Some (at_pos c j).
Proof. intros H. unfold row_at. rewrite lookup_fmap, H. reflexivity. Qed.

Lemma row_get_row_at f j k c d :
  columns f !! k = Some c -> row_get k d (row_at f j) = at_pos c j.
Proof. intros H. unfold row_get. rewrite (row_at_lookup _ _ _ _ H). reflexivity. Qed.

Ltac indicator_column := unfold indicator_frame; frame_column.

Lemma indicator_frame_mas f :
  let c := sorted_column "close" f in
  let g := indicator_frame f in
  columns g !! "MA5" = Some (rolling_mean 5 c)
  /\ columns g !! "MA10" = Some (rolling_mean 10 c)
  /\ columns g !! "MA20" = Some (rolling_mean 20 c)
  /\ columns g !! "MA60"
     = Some (if decide (60 <= nrows f)%nat then rolling_mean 60 c
             else rolling_mean 20 c)
  /\ columns g !! "MA250"
     = Some (if decide (250 <= nrows f)%nat then rolling_mean 250 c
             else if decide (60 <= nrows f)%nat then rolling_mean 60 c
                  else rolling_mean 20 c).
Proof. repeat split; indicator_column. Qed.

Lemma indicator_frame_macd f :
  let c := sorted_column "close" f in
  let g := indicator_frame f in
  let dif := col_sub (ewm_mean 12 c) (ewm_mean 26 c) in
  let dea := ewm_mean 9 dif in
  columns g !! "MACD_DIF" = Some dif
  /\ columns g !! "MACD_DEA" = Some dea
  /\ columns g !! "MACD_BAR" = Some (col_scale (F 2) (col_sub dif dea)).
Proof. repeat split; indicator_column. Qed.

Lemma indicator_frame_rsi f :
  let c := sorted_column "close" f in
  let g := indicator_frame f in
  columns g !! "RSI_6" = Some (rsi_series 6 c)
  /\ columns g !! "RSI_12" = Some (rsi_series 12 c)
  /\ columns g !! "RSI_24" = Some (rsi_series 24 c).
Proof. repeat split; indicator_column. Qed.

Lemma indicator_frame_kdj f :
  let g := indicator_frame f in
  exists k d,
    columns g !! "KDJ_K" = Some k
    /\ columns g !! "KDJ_D" = Some d
    /\ d = ewm_mean 3 k
    /\ columns g !! "KDJ_J"
       = Some (col_sub ((fun x => (F 3 * x)%fl) <$> k)
                 ((fun x => (F 2 * x)%fl) <$> d)).
Proof. do 2 eexists. repeat split; try indicator_column. Qed.

Lemma indicator_frame_bb f :
  let c := sorted_column "close" f in
  let g := indicator_frame f in
  columns g !! "BB_MIDDLE" = Some (rolling_mean 20 c)
  /\ columns g !! "BB_UPPER"
     = Some (col_add (rolling_mean 20 c) (col_scale (F 2) (rolling_std 20 c)))
  /\ columns g !! "BB_LOWER"
     = Some (col_sub (rolling_mean 20 c) (col_scale (F 2) (rolling_std 20 c))).
Proof. repeat split; indicator_column. Qed.

Lemma indicator_frame_momentum f :
  let c := sorted_column "close" f in
  let g := indicator_frame f in
  columns g !! "MOMENTUM_5D" = Some (col_scale (F 100) (pct_change 5 c))
  /\ columns g !! "MOMENTUM_10D" = Some (col_scale (F 100) (pct_change 10 c)).
Proof. repeat split; indicator_column. Qed.

Lemma indicator_frame_volume_ma f :
  let v := sorted_column "volume" f in
  let g := indicator_frame f in
  columns g !! "VOL_MA5" = Some (rolling_mean 5 v)
  /\ columns g !! "VOL_MA10" = Some (rolling_mean 10 v)
  /\ columns g !! "VOL_MA20" = Some (rolling_mean 20 v).
Proof. repeat split; indicator_column. Qed.

(** ** The values [analyze] copies into its result *)

Lemma classify_indicator_fields f r0 r :
  is_Some (columns f !! "close") ->
  classify (indicator_frame f) r0 = Ok r ->
  let c := sorted_column "close" f in
  let v := sorted_column "volume" f in
  let i := latest_pos f in
  let dif := col_sub (ewm_mean 12 c) (ewm_mean 26 c) in
  (1 <= nrows f)%nat
  /\ price_fields r
     = [at_pos c i; at_pos (rolling_mean 5 c) i; at_pos (rolling_mean 10 c) i;
        at_pos (rolling_mean 20 c) i;
        at_pos (if decide (60 <= nrows f)%nat then rolling_mean 60 c
                else rolling_mean 20 c) i;
        at_pos (if decide (250 <= nrows f)%nat then rolling_mean 250 c
                else if decide (60 <= nrows f)%nat then rolling_mean 60 c
                     else rolling_mean 20 c) i]
  /\ (exists k,
        kdj_k r = at_pos k i /\ kdj_d r = at_pos (ewm_mean 3 k) i
        /\ kdj_j r = at_pos (col_sub ((fun x => (F 3 * x)%fl) <$> k)
                               ((fun x => (F 2 * x)%fl) <$> ewm_mean 3 k)) i)
  /\ bb_middle r = at_pos (rolling_mean 20 c) i
  /\ bb_upper r
     = at_pos (col_add (rolling_mean 20 c) (col_scale (F 2) (rolling_std 20 c))) i
  /\ bb_lower r
     = at_pos (col_sub (rolling_mean 20 c) (col_scale (F 2) (rolling_std 20 c))) i
  /\ momentum_5d r = at_pos (col_scale (F 100) (pct_change 5 c)) i
  /\ momentum_10d r = at_pos (col_scale (F 100) (pct_change 10 c)) i
  /\ vol_ma5 r = at_pos (rolling_mean 5 v) i
  /\ vol_ma10 r = at_pos (rolling_mean 10 v) i
  /\ vol_ma20 r = at_pos (rolling_mean 20 v) i.
Proof.
  intros Hc H c v i dif.
  destruct (classify_latest_fields _ _ _ H)
    as (Hn & Hp & H5 & H10 & H20 & H60 & H250 & Hi).
  rewrite indicator_frame_nrows in *. fold (latest_pos f) in *. fold i in Hp, H5, H10, H20, H60, H250, Hi.
  destruct (indicator_frame_mas f) as (M5 & M10 & M20 & M60 & M250).
  destruct (indicator_frame_kdj f) as (k & d & Kk & Kd & -> & Kj).
  destruct (indicator_frame_bb f) as (Bm & Bu & Bl).
  destruct (indicator_frame_momentum f) as (Q5 & Q10).
  destruct (indicator_frame_volume_ma f) as (V5 & V10 & V20).
  pose proof (indicator_frame_close f Hc) as Kc.
  rewrite (row_at_lookup _ _ _ _ Kc) in Hp.
  rewrite (row_at_lookup _ _ _ _ M5) in H5.
  rewrite (row_at_lookup _ _ _ _ M10) in H10.
  rewrite (row_at_lookup _ _ _ _ M20) in H20.
  rewrite (row_get_row_at _ _ _ _ _ M60) in H60.
  rewrite (row_get_row_at _ _ _ _ _ M250) in H250.
  cbn [fmap list_fmap] in Hi.
  rewrite (row_get_row_at _ _ _ _ _ Kk), (row_get_row_at _ _ _ _ _ Kd),
    (row_get_row_at _ _ _ _ _ Kj), (row_get_row_at _ _ _ _ _ Bm),
    (row_get_row_at _ _ _ _ _ Bu), (row_get_row_at _ _ _ _ _ Bl),
    (row_get_row_at _ _ _ _ _ Q5), (row_get_row_at _ _ _ _ _ Q10),
    (row_get_row_at _ _ _ _ _ V5), (row_get_row_at _ _ _ _ _ V10),
    (row_get_row_at _ _ _ _ _ V20) in Hi.
  injection Hi as -> -> -> -> -> -> -> -> -> -> ->.
  injection Hp as Hp. injection H5 as H5. injection H10 as H10.
  injection H20 as H20.
  split; [exact Hn|]. split.
  { unfold price_fields. rewrite H60, H250, <- Hp, <- H5, <- H10, <- H20.
    reflexivity. }
  split; [exists k; auto|]. repeat split.
Qed.

Lemma accepted_close f : accepted f -> is_Some (columns f !! "close").
Proof.
  intros H. destruct (accepted_columns f H) as (? & c & ? & ? & ? & _ & Hc & _).
  exists c. exact Hc.
Qed.



(** X2.  The long averages fall back on the shorter ones: in the result of
    [analyze], MA60 equals MA20 when the frame has fewer than 60 bars, and
    MA250 equals MA60 when it has fewer than 250. *)
Theorem analyze_ma_fallback s l f code :
  s !! l = Some f -> accepted f -> (20 <= nrows f)%nat ->
  exists r s',
    analyze (Some l) code s = (Ok r, s')
    /\ ((nrows f < 60)%nat -> ma60 r = ma20 r)
    /\ ((nrows f < 250)%nat -> ma250 r = ma60 r).
Proof.
  intros Hl Hacc Hn.
  destruct (analyze_accepted s l f code Hl Hacc Hn) as (r & s' & Hrun & Hcl & _).
  exists r, s'. split; [exact Hrun|].
  destruct (classify_indicator_fields f _ r (accepted_close f Hacc) Hcl)
    as (_ & Hp & _).
  unfold price_fields in Hp. injection Hp as _ _ _ -> -> ->.
  split; intros Hlt; repeat case_decide; reflexivity || lia.
Qed.

Lemma analyze_ma_fallback_witness :
  exists r s',
    analyze (Some 0%nat) "600519" [rising_bars] = (Ok r, s')
    /\ ma60 r = ma20 r /\ ma250 r = ma60 r.
Proof.
  destruct (analyze_ma_fallback [rising_bars] 0 rising_bars "600519"
              eq_refl accepted_rising ltac:(vm_compute; lia))
    as (r & s' & Hrun & H60 & H250).
  exists r, s'. split; [exact Hrun|].
  split; [apply H60|apply H250]; vm_compute; lia.
Defined.

Lemma ewm_from_length a weighted old_wt xs :
  length (ewm_from a weighted old_wt xs) = length xs.
Proof.
  revert weighted old_wt. induction xs as [|x xs IH]; intros weighted old_wt;
    [reflexivity|].
  cbn [ewm_from]. destruct (is_nan weighted); [cbn [length]; rewrite IH; reflexivity|].
  destruct (is_nan x); cbn [length]; rewrite IH; reflexivity.
Qed.

Lemma ewm_mean_length span c : length (ewm_mean span c) = length c.
Proof.
  destruct c as [|x xs]; [reflexivity|].
  cbn [ewm_mean length]. rewrite ewm_from_length. reflexivity.
Qed.

Lemma shift_length n (c : column) : length (shift n c) = length c.
Proof.
  unfold shift. rewrite length_take, length_app, length_replicate. lia.
Qed.

Lemma at_pos_shift n (c : column) i :
  at_pos (shift n c) i
  = if decide (n <= i < length c)%nat then at_pos c (i - n) else NaN.
Proof.
  unfold at_pos, shift.
  destruct (decide (i < length c)%nat) as [Hi|Hi].
  - rewrite lookup_take_lt by exact Hi.
    destruct (decide (n <= i)%nat) as [Hn|Hn].
    + rewrite lookup_app_r by (rewrite length_replicate; exact Hn).
      rewrite length_replicate. rewrite decide_True by lia. reflexivity.
    + rewrite lookup_app_l by (rewrite length_replicate; lia).
      rewrite (lookup_replicate_2 n NaN i) by lia.
      rewrite decide_False by lia. reflexivity.
  - rewrite lookup_take_ge by lia. rewrite decide_False by lia. reflexivity.
Qed.

Lemma fmul_NaN_r x : (x * NaN)%fl = NaN.
Proof. destruct x; reflexivity. Qed.

Lemma fadd_NaN_r x : (x + NaN)%fl = NaN.
Proof. destruct x; reflexivity. Qed.

Lemma fsub_NaN_r x : (x - NaN)%fl = NaN.
Proof. destruct x; reflexivity. Qed.

Lemma fdiv_NaN_r x : (x / NaN)%fl = NaN.
Proof. destruct x; reflexivity. Qed.

(** X3.  In every result [analyze] returns on an accepted frame of at least
    20 bars the KDJ fields satisfy J = 3K - 2D. *)
Theorem analyze_kdj_j_identity s l f code :
  s !! l = Some f -> accepted f -> (20 <= nrows f)%nat ->
  exists r s',
    analyze (Some l) code s = (Ok r, s')
    /\ kdj_j r = (F 3 * kdj_k r - F 2 * kdj_d r)%fl.
Proof.
  intros Hl Hacc Hn.
  destruct (analyze_accepted s l f code Hl Hacc Hn) as (r & s' & Hrun & Hcl & _).
  exists r, s'. split; [exact Hrun|].
  destruct (classify_indicator_fields f _ r (accepted_close f Hacc) Hcl)
    as (_ & _ & (k & -> & -> & ->) & _).
  unfold col_sub.
  rewrite at_pos_zip_with by (rewrite !length_fmap, ewm_mean_length; reflexivity).
  rewrite !at_pos_fmap, length_fmap, ewm_mean_length.
  case_decide; [reflexivity|].
  rewrite (at_pos_ge k) by lia. reflexivity.
Qed.

Lemma analyze_kdj_j_identity_witness :
  exists r s',
    analyze (Some 0%nat) "600519" [rising_bars] = (Ok r, s')
    /\ kdj_j r = (F 3 * kdj_k r - F 2 * kdj_d r)%fl.
Proof.
  exact (analyze_kdj_j_identity [rising_bars] 0 rising_bars "600519"
           eq_refl accepted_rising ltac:(vm_compute; lia)).
Defined.



(** ** The scorer and the cascade *)

(** The tally of the six sub-scores. *)
Lemma generate_signal_tally r :
  _generate_signal r
  = let t := score_rsi r (score_macd r (score_support r (score_volume r
               (score_bias r (score_trend r (mkTally 0 [] [])))))) in
    r |> set_signal_score (score t) |> set_signal_reasons (reasons t)
      |> set_risk_factors (risks t)
      |> set_buy_signal (decide_signal (score t) (trend_status r)).
Proof. reflexivity. Qed.

Lemma tally_ignores_signal r a b c d :
  score_rsi (r |> set_signal_score a |> set_signal_reasons b
               |> set_risk_factors c |> set_buy_signal d)
    (score_macd (r |> set_signal_score a |> set_signal_reasons b
                   |> set_risk_factors c |> set_buy_signal d)
       (score_support (r |> set_signal_score a |> set_signal_reasons b
                         |> set_risk_factors c |> set_buy_signal d)
          (score_volume (r |> set_signal_score a |> set_signal_reasons b
                           |> set_risk_factors c |> set_buy_signal d)
             (score_bias (r |> set_signal_score a |> set_signal_reasons b
                            |> set_risk_factors c |> set_buy_signal d)
                (score_trend (r |> set_signal_score a |> set_signal_reasons b
                                |> set_risk_factors c |> set_buy_signal d)
                   (mkTally 0 [] []))))))
  = score_rsi r (score_macd r (score_support r (score_volume r
      (score_bias r (score_trend r (mkTally 0 [] [])))))).
Proof. destruct r. reflexivity. Qed.

Lemma signal_fields_overwritten r a b c d a' b' c' d' :
  r |> set_signal_score a |> set_signal_reasons b |> set_risk_factors c
    |> set_buy_signal d
    |> set_signal_score a' |> set_signal_reasons b' |> set_risk_factors c'
    |> set_buy_signal d'
  = r |> set_signal_score a' |> set_signal_reasons b' |> set_risk_factors c'
      |> set_buy_signal d'.
Proof. destruct r. reflexivity. Qed.

(** X5.  [_generate_signal] is idempotent: it starts from an empty tally
    and reads none of the four fields it writes, so scoring a scored result
    again changes nothing. *)
Theorem _generate_signal_idempotent r :
  _generate_signal (_generate_signal r) = _generate_signal r.
Proof.
  rewrite (generate_signal_tally (_generate_signal r)).
  rewrite (generate_signal_tally r). cbv zeta.
  set (t := score_rsi r _).
  rewrite (tally_ignores_signal r (score t) (reasons t) (risks t)
             (decide_signal (score t) (trend_status r))).
  fold t.
  rewrite signal_fields_overwritten. reflexivity.
Qed.

Ltac split_score s :=
  destruct (Z.leb_spec 75 s); [|destruct (Z.leb_spec 60 s);
    [|destruct (Z.leb_spec 45 s); [|destruct (Z.leb_spec 30 s)]]];
  [ replace (60 <=? s) with true by (symmetry; apply Z.leb_le; lia);
    replace (45 <=? s) with true by (symmetry; apply Z.leb_le; lia);
    replace (30 <=? s) with true by (symmetry; apply Z.leb_le; lia)
  | replace (45 <=? s) with true by (symmetry; apply Z.leb_le; lia);
    replace (30 <=? s) with true by (symmetry; apply Z.leb_le; lia)
  | replace (30 <=? s) with true by (symmetry; apply Z.leb_le; lia)
  | | ].

(** X6.  For a fixed trend the cascade is monotone in the score: a higher
    score never gives a more cautious action. *)
Theorem decide_signal_monotone trend (s1 s2 : Z) :
  s1 <= s2 ->
  action_rank (decide_signal s1 trend) <= action_rank (decide_signal s2 trend).
Proof.
  intros H. unfold decide_signal.
  split_score s1; split_score s2; try lia;
    destruct trend; vm_compute; congruence.
Qed.

Lemma decide_signal_monotone_witness :
  action_rank (decide_signal 40 TrendStatus.BULL)
  <= action_rank (decide_signal 80 TrendStatus.BULL).
Proof. apply decide_signal_monotone. lia. Defined.

Lemma total_score_by_trend r :
  trend_scores (trend_status r) + 4 <= total_score r
  <= trend_scores (trend_status r) + 70.
Proof.
  unfold total_score.
  rewrite score_rsi_points, score_macd_points.
  pose proof (score_support_points r
    (score_volume r (score_bias r (score_trend r (mkTally 0 [] []))))) as Hs.
  rewrite score_volume_points in Hs.
  pose proof (score_bias_points r (score_trend r (mkTally 0 [] []))) as Hb.
  rewrite score_trend_points in Hb. simpl in Hb.
  pose proof (volume_scores_range (volume_status r)).
  pose proof (macd_scores_range (macd_status r)).
  pose proof (rsi_scores_range (rsi_status r)).
  lia.
Qed.

(** X7.  The action of a scored result agrees with its trend: a BULL or
    STRONG_BULL trend scores at least 30 and is never given SELL or
    STRONG_SELL; a BEAR or STRONG_BEAR trend scores at most 74 and is never
    given BUY or STRONG_BUY; STRONG_SELL is only given to a bear trend. *)
Theorem signal_agrees_with_trend r :
  let r' := _generate_signal r in
  (is_bull (trend_status r) = true ->
     30 <= signal_score r'
     /\ buy_signal r' <> BuySignal.SELL /\ buy_signal r' <> BuySignal.STRONG_SELL)
  /\ (is_bear (trend_status r) = true ->
        signal_score r' <= 74
        /\ buy_signal r' <> BuySignal.BUY /\ buy_signal r' <> BuySignal.STRONG_BUY)
  /\ (buy_signal r' = BuySignal.STRONG_SELL -> is_bear (trend_status r) = true).
Proof.
  cbv zeta. rewrite generate_signal_score, generate_signal_buy.
  pose proof (total_score_by_trend r) as Hs.
  unfold decide_signal.
  set (sc := total_score r) in *. clearbody sc.
  split_score sc;
    destruct (trend_status r); cbn in Hs |- *;
    repeat split; intros; try discriminate; try lia; try reflexivity.
Qed.

Ltac count_messages :=
  repeat match goal with
         | |- context [if ?b then _ else _] => destruct b
         end;
  unfold messages, add_reason, add_risk, add_score; cbn [reasons risks score];
  rewrite ?length_app; cbn [length]; lia.

Lemma score_trend_messages r t :
  (messages t <= messages (score_trend r t) <= messages t + 1)%nat.
Proof. unfold score_trend. cbv zeta. count_messages. Qed.

Lemma score_bias_messages r t :
  messages (score_bias r t) = (messages t + 1)%nat.
Proof. unfold score_bias. cbv zeta. count_messages. Qed.

Lemma score_volume_messages r t :
  (messages t <= messages (score_volume r t) <= messages t + 1)%nat.
Proof. unfold score_volume. cbv zeta. count_messages. Qed.

Lemma score_support_messages r t :
  (messages t <= messages (score_support r t) <= messages t + 2)%nat.
Proof. unfold score_support. cbv zeta. count_messages. Qed.

Lemma score_macd_messages r t :
  messages (score_macd r t) = (messages t + 1)%nat.
Proof. unfold score_macd. cbv zeta. count_messages. Qed.

Lemma score_rsi_messages r t :
  messages (score_rsi r t) = (messages t + 1)%nat.
Proof. unfold score_rsi. cbv zeta. count_messages. Qed.

(** X8.  A scored result carries between three and seven messages over its
    reasons and its risk factors: one each for the bias, MACD and RSI
    sub-scores, at most one each for trend and volume, and at most two for
    the supports. *)
Theorem signal_message_count r :
  let r' := _generate_signal r in
  (3 <= length (signal_reasons r') + length (risk_factors r') <= 7)%nat.
Proof.
  cbv zeta. rewrite generate_signal_tally. cbv zeta.
  set (t := score_rsi r _).
  change (3 <= messages t <= 7)%nat. subst t.
  rewrite score_rsi_messages, score_macd_messages.
  pose proof (score_support_messages r
    (score_volume r (score_bias r (score_trend r (mkTally 0 [] []))))) as Hs.
  pose proof (score_volume_messages r
    (score_bias r (score_trend r (mkTally 0 [] [])))) as Hv.
  rewrite score_bias_messages in Hv.
  pose proof (score_trend_messages r (mkTally 0 [] [])) as Ht.
  change (messages (mkTally 0 [] [])) with 0%nat in Ht.
  lia.
Qed.

(** ** Fields a classifier leaves alone *)

Section Frames.
Context {A : Type} (p : TrendAnalysisResult -> A).

Lemma _analyze_trend_frame f r r' :
  _analyze_trend f r = Ok r' ->
  (forall r0 a b c,
     p (r0 |> set_trend_status a |> set_ma_alignment b
           |> set_trend_strength c) = p r0) ->
  p r' = p r.
Proof. intros H Hp. rewrite (_analyze_trend_writes _ _ _ H). apply Hp. Qed.

Lemma _calculate_bias_frame r :
  (forall r0 a b c d e,
     p (r0 |> set_bias_ma5 a |> set_bias_ma10 b |> set_bias_ma20 c
           |> set_bias_ma60 d |> set_bias_ma250 e) = p r0) ->
  p (_calculate_bias r) = p r.
Proof. intros Hp. rewrite (_calculate_bias_writes r). apply Hp. Qed.

Lemma _analyze_volume_frame f r r' :
  _analyze_volume f r = Ok r' ->
  (forall r0 a b c,
     p (r0 |> set_volume_ratio_5d a |> set_volume_status b
           |> set_volume_trend c) = p r0) ->
  p r' = p r.
Proof. intros H Hp. rewrite (_analyze_volume_writes _ _ _ H). apply Hp. Qed.

Lemma _analyze_support_resistance_frame f r r' :
  _analyze_support_resistance f r = Ok r' ->
  (forall r0 a b c d,
     p (r0 |> set_support_ma5 a |> set_support_ma10 b
           |> set_support_levels c |> set_resistance_levels d) = p r0) ->
  p r' = p r.
Proof.
  intros H Hp. rewrite (_analyze_support_resistance_writes _ _ _ H). apply Hp.
Qed.

Lemma _analyze_macd_frame f r r' :
  _analyze_macd f r = Ok r' ->
  (forall r0 a b c d e,
     p (r0 |> set_macd_dif a |> set_macd_dea b |> set_macd_bar c
           |> set_macd_status d |> set_macd_signal e) = p r0) ->
  p r' = p r.
Proof. intros H Hp. rewrite (_analyze_macd_writes _ _ _ H). apply Hp. Qed.

Lemma _analyze_rsi_frame f r r' :
  _analyze_rsi f r = Ok r' ->
  (forall r0 a b c d e,
     p (r0 |> set_rsi_6 a |> set_rsi_12 b |> set_rsi_24 c
           |> set_rsi_status d |> set_rsi_signal e) = p r0) ->
  p r' = p r.
Proof. intros H Hp. rewrite (_analyze_rsi_writes _ _ _ H). apply Hp. Qed.

Lemma _analyze_kdj_frame f r :
  (forall r0 a, p (set_kdj_signal a r0) = p r0) ->
  p (_analyze_kdj f r) = p r.
Proof. intros Hp. rewrite (_analyze_kdj_writes f r). apply Hp. Qed.

Lemma _analyze_bollinger_bands_frame f r r' :
  _analyze_bollinger_bands f r = Ok r' ->
  (forall r0 a b, p (r0 |> set_bb_width a |> set_bb_position b) = p r0) ->
  p r' = p r.
Proof.
  intros H Hp. rewrite (_analyze_bollinger_bands_writes _ _ _ H). apply Hp.
Qed.

Lemma _analyze_momentum_frame f r :
  (forall r0 a, p (set_momentum_signal a r0) = p r0) ->
  p (_analyze_momentum f r) = p r.
Proof. intros Hp. rewrite (_analyze_momentum_writes f r). apply Hp. Qed.

Lemma _analyze_volume_ma_frame f r r' :
  _analyze_volume_ma f r = Ok r' ->
  (forall r0 a b, p (r0 |> set_vol_ratio_ma5 a |> set_vol_trend b) = p r0) ->
  p r' = p r.
Proof. intros H Hp. rewrite (_analyze_volume_ma_writes _ _ _ H). apply Hp. Qed.

Lemma _generate_signal_frame r :
  (forall r0 a b c d,
     p (r0 |> set_signal_score a |> set_signal_reasons b
           |> set_risk_factors c |> set_buy_signal d) = p r0) ->
  p (_generate_signal r) = p r.
Proof. intros Hp. rewrite generate_signal_tally. apply Hp. Qed.
End Frames.

Lemma latest_indicators_frame {A : Type} (p : TrendAnalysisResult -> A)
    r a b c d e g h i j k m :
  (forall r0,
     p (r0 |> set_kdj_k a |> set_kdj_d b |> set_kdj_j c |> set_bb_upper d
           |> set_bb_middle e |> set_bb_lower g |> set_momentum_5d h
           |> set_momentum_10d i |> set_vol_ma5 j |> set_vol_ma10 k
           |> set_vol_ma20 m) = p r0) ->
  p (r |> set_kdj_k a |> set_kdj_d b |> set_kdj_j c |> set_bb_upper d
       |> set_bb_middle e |> set_bb_lower g |> set_momentum_5d h
       |> set_momentum_10d i |> set_vol_ma5 j |> set_vol_ma10 k
       |> set_vol_ma20 m) = p r.
Proof. intros Hp. apply Hp. Qed.

Lemma latest_prices_frame {A : Type} (p : TrendAnalysisResult -> A)
    r a b c d e g :
  (forall r0,
     p (r0 |> set_current_price a |> set_ma5 b |> set_ma10 c |> set_ma20 d
           |> set_ma60 e |> set_ma250 g) = p r0) ->
  p (r |> set_current_price a |> set_ma5 b |> set_ma10 c |> set_ma20 d
       |> set_ma60 e |> set_ma250 g) = p r.
Proof. intros Hp. apply Hp. Qed.

(** Follow a field group back through the steps of [classify], as far as
    the step that writes it. *)
Ltac carry p H1 H2 H3 H4 H5 H7 H9 :=
  try rewrite (_generate_signal_frame p) by (intros; reflexivity);
  try rewrite (_analyze_volume_ma_frame p _ _ _ H9) by (intros; reflexivity);
  try rewrite (_analyze_momentum_frame p) by (intros; reflexivity);
  try rewrite (_analyze_bollinger_bands_frame p _ _ _ H7) by (intros; reflexivity);
  try rewrite (_analyze_kdj_frame p) by (intros; reflexivity);
  try rewrite (_analyze_rsi_frame p _ _ _ H5) by (intros; reflexivity);
  try rewrite (_analyze_macd_frame p _ _ _ H4) by (intros; reflexivity);
  try rewrite (_analyze_support_resistance_frame p _ _ _ H3)
    by (intros; reflexivity);
  try rewrite (_analyze_volume_frame p _ _ _ H2) by (intros; reflexivity);
  try rewrite (latest_indicators_frame p) by (intros; reflexivity);
  try rewrite (_calculate_bias_frame p) by (intros; reflexivity);
  try rewrite (_analyze_trend_frame p _ _ _ H1) by (intros; reflexivity);
  try rewrite (latest_prices_frame p) by (intros; reflexivity);
  try reflexivity.

(** The steps of a run of [classify] that returned, with the field groups
    each step found and left. *)
Lemma classify_trace f r0 r' :
  classify f r0 = Ok r' ->
  exists ra r1 rb r2 r3 r4 r5,
    (1 <= nrows f)%nat
    /\ _analyze_trend f ra = Ok r1
    /\ _analyze_volume f rb = Ok r2
    /\ _analyze_support_resistance f r2 = Ok r3
    /\ _analyze_macd f r3 = Ok r4
    /\ _analyze_rsi f r4 = Ok r5
    /\ code r' = code r0
    /\ price_fields ra = price_fields r'
    /\ price_fields r2 = price_fields r'
    /\ trend_group r' = trend_group r1
    /\ volume_group rb = volume_group r0
    /\ volume_group r' = volume_group r2
    /\ support_group r2 = support_group r0
    /\ support_group r' = support_group r3
    /\ macd_group r3 = macd_group r0
    /\ macd_group r' = macd_group r4
    /\ rsi_group r4 = rsi_group r0
    /\ rsi_group r' = rsi_group r5
    /\ trend_status r' = trend_status r1.
Proof.
  intros H.
  destruct (classify_steps f r0 r' H)
    as (x & xa & xb & xc & r1 & r2 & r3 & r4 & r5 & r7 & r9 & Hn & _ & _ & _
        & _ & H1 & H2 & H3 & H4 & H5 & H7 & H9 & ->).
  eexists _, r1, _, r2, r3, r4, r5.
  split; [exact Hn|]. split; [exact H1|]. split; [exact H2|].
  split; [exact H3|]. split; [exact H4|]. split; [exact H5|].
  split; [carry code H1 H2 H3 H4 H5 H7 H9|].
  split; [carry price_fields H1 H2 H3 H4 H5 H7 H9|].
  split; [carry price_fields H1 H2 H3 H4 H5 H7 H9|].
  split; [carry trend_group H1 H2 H3 H4 H5 H7 H9|].
  split; [carry volume_group H1 H2 H3 H4 H5 H7 H9|].
  split; [carry volume_group H1 H2 H3 H4 H5 H7 H9|].
  split; [carry support_group H1 H2 H3 H4 H5 H7 H9|].
  split; [carry support_group H1 H2 H3 H4 H5 H7 H9|].
  split; [carry macd_group H1 H2 H3 H4 H5 H7 H9|].
  split; [carry macd_group H1 H2 H3 H4 H5 H7 H9|].
  split; [carry rsi_group H1 H2 H3 H4 H5 H7 H9|].
  split; [carry rsi_group H1 H2 H3 H4 H5 H7 H9|].
  carry trend_status H1 H2 H3 H4 H5 H7 H9.
Qed.

(** ** The trend classifier *)

Lemma _analyze_trend_strength f r r' :
  _analyze_trend f r = Ok r' ->
  trend_strength r' = strength_of (trend_status r') /\ ma_alignment r' <> [].
Proof.
  intros H. unfold _analyze_trend in H.
  inv_ok H; repeat split_if; split; (reflexivity || discriminate).
Qed.

(** X9.  On the scoring path the trend strength of the result is fixed by
    its trend status (90, 75, 55, 50, 40, 25, 10 from STRONG_BULL to
    STRONG_BEAR) and the alignment text is not empty.  (The result for
    short input keeps CONSOLIDATION with strength 0 and an empty text.) *)
Theorem analyze_trend_strength s l f code :
  s !! l = Some f -> accepted f -> (20 <= nrows f)%nat ->
  exists r s',
    analyze (Some l) code s = (Ok r, s')
    /\ trend_strength r = strength_of (trend_status r)
    /\ ma_alignment r <> [].
Proof.
  intros Hl Hacc Hn.
  destruct (analyze_accepted s l f code Hl Hacc Hn) as (r & s' & Hrun & Hcl & _).
  exists r, s'. split; [exact Hrun|].
  destruct (classify_trace _ _ _ Hcl)
    as (ra & r1 & rb & r2 & r3 & r4 & r5 & _ & H1 & _ & _ & _ & _ & _ & _ & _
        & Ht & _).
  apply _analyze_trend_strength in H1 as [E1 E2].
  unfold trend_group in Ht. injection Ht as -> -> ->. split; assumption.
Qed.

Lemma analyze_trend_strength_witness :
  (exists r s',
     analyze (Some 0%nat) "600519" [rising_bars] = (Ok r, s')
     /\ trend_strength r = strength_of (trend_status r))
  /\ trend_strength (degenerate_result "600519") = F 0.
Proof.
  split; [|reflexivity].
  destruct (analyze_trend_strength [rising_bars] 0 rising_bars "600519"
              eq_refl accepted_rising ltac:(vm_compute; lia))
    as (r & s' & Hrun & E & _).
  exists r, s'. split; assumption.
Defined.

(** ** The MACD classifier *)

Ltac split_if_eqn :=
  match goal with
  | |- context [if ?b then _ else _] =>
      lazymatch b with
      | context [if _ then _ else _] => fail
      | _ => destruct b eqn:?
      end
  end.

Ltac bool_facts :=
  repeat match goal with
         | H : _ && _ = true |- _ => apply andb_true_iff in H as [? ?]
         end.

Lemma _analyze_macd_reads f r dif dea bar :
  (MACD_SLOW <= nrows f)%nat ->
  columns f !! "MACD_DIF" = Some dif -> columns f !! "MACD_DEA" = Some dea ->
  columns f !! "MACD_BAR" = Some bar ->
  exists r',
    _analyze_macd f r = Ok r'
    /\ macd_dif r' = at_pos dif (nrows f - 1)
    /\ macd_dea r' = at_pos dea (nrows f - 1)
    /\ macd_bar r' = at_pos bar (nrows f - 1)
    /\ macd_status_sign (macd_status r') (macd_dif r') (macd_dea r').
Proof.
  intros Hn Hdif Hdea Hbar. unfold _analyze_macd, len, MACD_SLOW in *.
  rewrite decide_False by lia.
  rewrite iloc_m1, iloc_m2 by lia. read_rows.
  set (d := at_pos dif (nrows f - 1)). set (e := at_pos dea (nrows f - 1)).
  set (pd := at_pos dif (nrows f - 2)). set (pe := at_pos dea (nrows f - 2)).
  change (macd_dif (set_macd_bar (at_pos bar (nrows f - 1))
            (set_macd_dea e (set_macd_dif d r)))) with d.
  change (macd_dea (set_macd_bar (at_pos bar (nrows f - 1))
            (set_macd_dea e (set_macd_dif d r)))) with e.
  repeat split_if_eqn; (eexists; split; [reflexivity|]);
    (split; [reflexivity|]); (split; [reflexivity|]); (split; [reflexivity|]);
    cbn; bool_facts; auto.
  match goal with
  | H : (d >? F 0)%fl = true |- _ =>
      unfold fgtb in H; rewrite (fltb_asym _ _ H); reflexivity
  end.
Qed.

(** X10.  With at least 26 bars the MACD fields of the result satisfy
    BAR = (DIF - DEA) * 2, and the status agrees with the signs of the
    latest DIF and DEA: a golden cross above zero has DIF above DEA and
    above zero, a plain golden cross has DIF above DEA and not above zero,
    a death cross has DIF below DEA, the zero-axis crossings have DIF above
    or below zero, and BEARISH has both below zero. *)
Theorem analyze_macd_fields s l f code :
  s !! l = Some f -> accepted f -> (MACD_SLOW <= nrows f)%nat ->
  exists r s',
    analyze (Some l) code s = (Ok r, s')
    /\ macd_bar r = ((macd_dif r - macd_dea r) * F 2)%fl
    /\ macd_status_sign (macd_status r) (macd_dif r) (macd_dea r).
Proof.
  intros Hl Hacc Hn.
  destruct (analyze_accepted s l f code Hl Hacc) as (r & s' & Hrun & Hcl & _);
    [unfold MACD_SLOW in Hn; lia|].
  exists r, s'. split; [exact Hrun|].
  destruct (classify_trace _ _ _ Hcl)
    as (ra & r1 & rb & r2 & r3 & r4 & r5 & _ & _ & _ & _ & H4 & _ & _ & _ & _
        & _ & _ & _ & _ & _ & _ & Hm & _).
  destruct (indicator_frame_macd f) as (Kdif & Kdea & Kbar).
  destruct (_analyze_macd_reads (indicator_frame f) r3 _ _ _ Hn Kdif Kdea Kbar)
    as (r' & Hr' & Ed & Ee & Eb & Hsign).
  rewrite H4 in Hr'. injection Hr' as <-.
  unfold macd_group in Hm. injection Hm as -> -> -> -> _.
  split; [|exact Hsign].
  rewrite Eb, Ed, Ee.
  set (dif := col_sub (ewm_mean 12 _) _). set (i := (nrows _ - 1)%nat).
  unfold col_scale. unfold col_sub at 1.
  rewrite at_pos_fmap, length_zip_with, ewm_mean_length, Nat.min_id.
  rewrite at_pos_zip_with by (rewrite ewm_mean_length; reflexivity).
  case_decide; [reflexivity|].
  rewrite (at_pos_ge dif) by lia. reflexivity.
Qed.

Lemma analyze_macd_fields_witness :
  exists r s',
    analyze (Some 0%nat) "600519" [rising_bars] = (Ok r, s')
    /\ macd_bar r = ((macd_dif r - macd_dea r) * F 2)%fl.
Proof.
  destruct (analyze_macd_fields [rising_bars] 0 rising_bars "600519"
              eq_refl accepted_rising ltac:(vm_compute; lia))
    as (r & s' & Hrun & E & _).
  exists r, s'. split; assumption.
Defined.

(** ** Too few bars for MACD and RSI *)

Lemma score_rsi_keeps_reasons r t x :
  x ∈ reasons t -> x ∈ reasons (score_rsi r t).
Proof.
  intros H. unfold score_rsi. cbv zeta.
  repeat split_if; unfold add_reason, add_risk, add_score; cbn [reasons];
    try apply elem_of_app; auto.
Qed.

Lemma macd_message_listed r t :
  macd_status r = MACDStatus.BULLISH ->
  macd_signal r ∈ reasons (score_rsi r (score_macd r t)).
Proof.
  intros H. apply score_rsi_keeps_reasons. unfold score_macd. rewrite H.
  cbn. apply elem_of_app. right. apply list_elem_of_singleton. reflexivity.
Qed.

Lemma rsi_message_listed r t :
  rsi_status r = RSIStatus.NEUTRAL -> rsi_signal r ∈ reasons (score_rsi r t).
Proof.
  intros H. unfold score_rsi. rewrite H.
  cbn. apply elem_of_app. right. apply list_elem_of_singleton. reflexivity.
Qed.

(** X11.  With 20 to 23 bars [analyze] scores the stock although MACD needs
    26 bars and RSI 24: both signal texts say that data are insufficient, the
    numeric fields stay 0 and the statuses stay at their defaults BULLISH
    and NEUTRAL, which the scorer counts as 8 and 5 points and lists among
    the reasons. *)
Theorem analyze_few_bars s l f code :
  s !! l = Some f -> accepted f -> (20 <= nrows f < RSI_LONG)%nat ->
  exists r s',
    analyze (Some l) code s = (Ok r, s')
    /\ macd_group r
       = (F 0, F 0, F 0, MACDStatus.BULLISH, [Lit "数据不足"])
    /\ rsi_group r
       = (F 0, F 0, F 0, RSIStatus.NEUTRAL, [Lit "数据不足"])
    /\ macd_scores (macd_status r) = 8 /\ rsi_scores (rsi_status r) = 5
    /\ macd_signal r ∈ signal_reasons r /\ rsi_signal r ∈ signal_reasons r.
Proof.
  intros Hl Hacc [Hn Hlt]. unfold RSI_LONG in Hlt.
  destruct (analyze_accepted s l f code Hl Hacc Hn) as (r & s' & Hrun & Hcl & _).
  exists r, s'. split; [exact Hrun|].
  destruct (classify_trace _ _ _ Hcl)
    as (ra & r1 & rb & r2 & r3 & r4 & r5 & _ & _ & _ & _ & H4 & H5 & _ & _ & _
        & _ & _ & _ & _ & _ & Hm0 & Hm & Hr0 & Hr & _).
  unfold _analyze_macd, len, MACD_SLOW in H4.
  rewrite indicator_frame_nrows, decide_True in H4 by lia.
  injection H4 as <-.
  unfold _analyze_rsi, len, RSI_LONG in H5.
  rewrite indicator_frame_nrows, decide_True in H5 by lia.
  injection H5 as <-.
  assert (Em : macd_group r
               = (F 0, F 0, F 0, MACDStatus.BULLISH, [Lit "数据不足"])).
  { rewrite Hm. unfold macd_group in *. cbn. injection Hm0 as -> -> -> -> _.
    reflexivity. }
  assert (Er : rsi_group r
               = (F 0, F 0, F 0, RSIStatus.NEUTRAL, [Lit "数据不足"])).
  { rewrite Hr. unfold rsi_group in *. cbn. cbn in Hr0.
    injection Hr0 as -> -> -> -> _. reflexivity. }
  split; [exact Em|]. split; [exact Er|].
  unfold macd_group in Em. injection Em as _ _ _ Est Esig.
  unfold rsi_group in Er. injection Er as _ _ _ Erst Ersig.
  rewrite Est, Erst. split; [reflexivity|]. split; [reflexivity|].
  destruct (classify_inv _ _ _ Hcl) as [r0 ->].
  rewrite generate_signal_tally in Est, Erst |- *. cbv zeta in *.
  cbn [macd_status rsi_status macd_signal rsi_signal signal_reasons
       set_buy_signal set_risk_factors set_signal_reasons set_signal_score]
    in Est, Erst |- *.
  split; [apply macd_message_listed, Est|apply rsi_message_listed, Erst].
Qed.

Lemma analyze_few_bars_witness :
  exists r s',
    analyze (Some 0%nat) "600519" [steep_bars] = (Ok r, s')
    /\ macd_signal r = [Lit "数据不足"] /\ macd_signal r ∈ signal_reasons r.
Proof.
  destruct (analyze_few_bars [steep_bars] 0 steep_bars "600519" eq_refl)
    as (r & s' & Hrun & Em & _ & _ & _ & Hin & _).
  - unfold accepted, required_columns.
    repeat (constructor; [eexists; reflexivity|]). constructor.
  - vm_compute. lia.
  - exists r, s'. split; [exact Hrun|].
    unfold macd_group in Em. injection Em as _ _ _ _ Esig.
    split; assumption.
Defined.

(** ** Support and resistance *)

Lemma _analyze_support_resistance_steps f r :
  _analyze_support_resistance f r
  = resistance_at_high f (current_price r)
      (support_at_ma20 (current_price r)
         (support_at_ma10 (current_price r) (support_at_ma5 r))).
Proof. reflexivity. Qed.

Lemma support_at_ma5_adds r :
  adds_support (current_price r) r (support_at_ma5 r)
  /\ (support_ma5 (support_at_ma5 r) = true ->
      support_ma5 r = true \/ ma5 r ∈ support_levels (support_at_ma5 r))
  /\ support_ma10 (support_at_ma5 r) = support_ma10 r.
Proof.
  unfold support_at_ma5, adds_support. cbv zeta.
  repeat split_if_eqn; bool_facts; cbn.
  - repeat split; auto.
    + exists [ma5 r]. repeat split; [cbn [length]; lia|]. repeat constructor; assumption.
    + intros _. right. apply elem_of_app. right.
      apply list_elem_of_singleton. reflexivity.
  - repeat split; auto. exists []. rewrite app_nil_r. repeat split; [cbn [length]; lia|constructor].
  - repeat split; auto. exists []. rewrite app_nil_r. repeat split; [cbn [length]; lia|constructor].
Qed.

Lemma support_at_ma10_adds price r :
  adds_support price r (support_at_ma10 price r)
  /\ support_ma5 (support_at_ma10 price r) = support_ma5 r.
Proof.
  unfold support_at_ma10, adds_support. cbv zeta.
  repeat split_if_eqn; bool_facts; cbn.
  - repeat split; auto.
    exists [ma10 r]. repeat split; [cbn [length]; lia|]. repeat constructor; assumption.
  - repeat split; auto. exists []. rewrite app_nil_r. repeat split; [cbn [length]; lia|constructor].
  - repeat split; auto. exists []. rewrite app_nil_r. repeat split; [cbn [length]; lia|constructor].
  - repeat split; auto. exists []. rewrite app_nil_r. repeat split; [cbn [length]; lia|constructor].
Qed.

Lemma support_at_ma20_adds price r :
  adds_support price r (support_at_ma20 price r)
  /\ support_ma5 (support_at_ma20 price r) = support_ma5 r.
Proof.
  unfold support_at_ma20, adds_support.
  repeat split_if_eqn; bool_facts; cbn.
  - repeat split; auto.
    exists [ma20 r]. repeat split; [cbn [length]; lia|]. repeat constructor; assumption.
  - repeat split; auto. exists []. rewrite app_nil_r. repeat split; [cbn [length]; lia|constructor].
Qed.

Lemma resistance_at_high_adds f price r r' :
  resistance_at_high f price r = Ok r' ->
  price_fields r' = price_fields r
  /\ support_levels r' = support_levels r
  /\ support_ma5 r' = support_ma5 r
  /\ exists added,
       resistance_levels r' = resistance_levels r ++ added
       /\ (length added <= 1)%nat
       /\ Forall (fun x => (x >? price)%fl = true) added.
Proof.
  intros H. unfold resistance_at_high in H. inv_ok H; cbn.
  - repeat split. eexists [_]. repeat split; [cbn [length]; lia|]. repeat constructor; assumption.
  - repeat split. exists []. rewrite app_nil_r. repeat split; [cbn [length]; lia|constructor].
  - repeat split. exists []. rewrite app_nil_r. repeat split; [cbn [length]; lia|constructor].
Qed.

Lemma _analyze_support_resistance_levels f r r' :
  _analyze_support_resistance f r = Ok r' ->
  support_levels r = [] -> resistance_levels r = [] -> support_ma5 r = false ->
  price_fields r' = price_fields r
  /\ Forall (supports (current_price r)) (support_levels r')
  /\ (length (support_levels r') <= 3)%nat
  /\ Forall (fun x => (x >? current_price r)%fl = true) (resistance_levels r')
  /\ (length (resistance_levels r') <= 1)%nat
  /\ (support_ma5 r' = true -> ma5 r ∈ support_levels r').
Proof.
  intros H Hs Hr H5. rewrite _analyze_support_resistance_steps in H.
  set (price := current_price r) in *.
  destruct (support_at_ma5_adds r)
    as ((P1 & R1 & a1 & S1 & L1 & F1) & M1 & _).
  fold price in F1.
  set (r1 := support_at_ma5 r) in *.
  destruct (support_at_ma10_adds price r1)
    as ((P2 & R2 & a2 & S2 & L2 & F2) & M2).
  set (r2 := support_at_ma10 price r1) in *.
  destruct (support_at_ma20_adds price r2)
    as ((P3 & R3 & a3 & S3 & L3 & F3) & M3).
  set (r3 := support_at_ma20 price r2) in *.
  destruct (resistance_at_high_adds _ _ _ _ H)
    as (P4 & S4 & M4 & a4 & R4 & L4 & F4).
  rewrite S4, S3, S2, S1, Hs. rewrite R4, R3, R2, R1, Hr.
  rewrite M4, M3, M2. cbn [app].
  split; [congruence|].
  split; [repeat (apply Forall_app; split); assumption|].
  split; [rewrite !length_app; lia|].
  split; [exact F4|]. split; [exact L4|].
  intros E. destruct (M1 E) as [E'|E']; [congruence|].
  rewrite S1, Hs in E'. cbn [app] in E'.
  apply elem_of_app. left. apply elem_of_app. left. exact E'.
Qed.

(** X12.  In the result of [analyze] every support level is a positive
    average not above the price and there are at most three of them; there
    is at most one resistance level and it is above the price; and when the
    MA5 support flag is set, MA5 is among the support levels. *)
Theorem analyze_support_levels s l f code :
  s !! l = Some f -> accepted f -> (20 <= nrows f)%nat ->
  exists r s',
    analyze (Some l) code s = (Ok r, s')
    /\ Forall (supports (current_price r)) (support_levels r)
    /\ (length (support_levels r) <= 3)%nat
    /\ Forall (fun x => (x >? current_price r)%fl = true) (resistance_levels r)
    /\ (length (resistance_levels r) <= 1)%nat
    /\ (support_ma5 r = true -> ma5 r ∈ support_levels r).
Proof.
  intros Hl Hacc Hn.
  destruct (analyze_accepted s l f code Hl Hacc Hn) as (r & s' & Hrun & Hcl & _).
  exists r, s'. split; [exact Hrun|].
  destruct (classify_trace _ _ _ Hcl)
    as (ra & r1 & rb & r2 & r3 & r4 & r5 & _ & _ & _ & H3 & _ & _ & _ & _ & Hp2
        & _ & _ & _ & Hs0 & Hs & _).
  unfold support_group in Hs0, Hs. cbn in Hs0.
  injection Hs0 as E5 _ Es Er. injection Hs as -> _ -> ->.
  destruct (_analyze_support_resistance_levels _ _ _ H3 Es Er E5)
    as (Hp3 & G1 & G2 & G3 & G4 & G5).
  unfold price_fields in Hp2. injection Hp2 as Ec E5' _ _ _ _.
  rewrite Ec, E5' in *. repeat split; assumption.
Qed.

Lemma analyze_support_levels_witness :
  exists r s',
    analyze (Some 0%nat) "600519" [rising_bars] = (Ok r, s')
    /\ (length (support_levels r) <= 3)%nat.
Proof.
  destruct (analyze_support_levels [rising_bars] 0 rising_bars "600519"
              eq_refl accepted_rising ltac:(vm_compute; lia))
    as (r & s' & Hrun & _ & G & _).
  exists r, s'. split; assumption.
Defined.

(** ** The RSI classifier *)

Lemma _analyze_rsi_reads f r c6 c12 c24 :
  (RSI_LONG <= nrows f)%nat ->
  columns f !! "RSI_6" = Some c6 -> columns f !! "RSI_12" = Some c12 ->
  columns f !! "RSI_24" = Some c24 ->
  exists r',
    _analyze_rsi f r = Ok r'
    /\ rsi_6 r' = at_pos c6 (nrows f - 1)
    /\ rsi_12 r' = at_pos c12 (nrows f - 1)
    /\ rsi_24 r' = at_pos c24 (nrows f - 1)
    /\ rsi_status r' = rsi_zone (rsi_12 r').
Proof.
  intros Hn H6 H12 H24. unfold _analyze_rsi, len.
  destruct rsi_col_names as (-> & -> & ->). unfold RSI_LONG in *.
  rewrite decide_False by lia. rewrite iloc_m1 by lia. read_rows.
  set (x := at_pos c12 (nrows f - 1)).
  change (rsi_12 (set_rsi_24 (at_pos c24 (nrows f - 1))
            (set_rsi_12 x (set_rsi_6 (at_pos c6 (nrows f - 1)) r)))) with x.
  repeat split_if_eqn; (eexists; split; [reflexivity|]);
    (split; [reflexivity|]); (split; [reflexivity|]); (split; [reflexivity|]);
    cbn; unfold rsi_zone;
    repeat match goal with
           | H : ?b = _ |- context [if ?b then _ else _] => rewrite H
           end;
    reflexivity.
Qed.

Lemma rsi_zone_number (q : Q) : rsi_zone_of_number q (rsi_zone (Fin q)).
Proof.
  unfold rsi_zone, RSI_OVERBOUGHT, RSI_OVERSOLD, fgtb, fgeb, F.
  cbn [fltb fleb].
  destruct (Qltb (inject_Z 70) q) eqn:E1.
  { apply Qltb_lt in E1. unfold inject_Z in E1. exact E1. }
  apply Qltb_ge in E1.
  destruct (Qltb (inject_Z 60) q) eqn:E2.
  { apply Qltb_lt in E2. unfold inject_Z in *. cbn. split; assumption. }
  apply Qltb_ge in E2.
  destruct (Qle_bool (inject_Z 40) q) eqn:E3.
  { apply Qle_bool_iff in E3. unfold inject_Z in *. cbn. split; assumption. }
  assert (H3 : (q < 40)%Q).
  { apply Qnot_le_lt. intros H. apply Qle_bool_iff in H.
    unfold inject_Z in *. congruence. }
  destruct (Qle_bool (inject_Z 30) q) eqn:E4.
  { apply Qle_bool_iff in E4. unfold inject_Z in *. cbn. split; assumption. }
  cbn. apply Qnot_le_lt. intros H. apply Qle_bool_iff in H.
  unfold inject_Z in *. congruence.
Qed.



(** ** Missing columns *)

Lemma bind_raise_run {A B : Type} (m : M A) (k : A -> M B) s e s' :
  m s = (Raise e, s') -> (m ≫= k) s = (Raise e, s').
Proof. intros H. unfold mbind, M_bind. rewrite H. reflexivity. Qed.

Lemma col_raise s f k :
  columns f !! k = None ->
  col (length s) k (s ++ [f]) = (Raise (KeyError k), s ++ [f]).
Proof.
  intros H. unfold col. erewrite bind_run.
  2: { unfold deref. rewrite lookup_last. reflexivity. }
  unfold lift, getitem. rewrite H. reflexivity.
Qed.

Ltac missing_column :=
  repeat (rewrite set_column_lookup_ne by discriminate); eassumption.

Ltac raise_step :=
  lazymatch goal with
  | |- ((_ ≫= _) ≫= _) _ = _ => rewrite bind_assoc_run
  | |- (col _ _ ≫= _) _ = _ =>
      erewrite (bind_raise_run (col _ _)) by (apply col_raise; missing_column)
  end.

Lemma sort_values_raise s l f k :
  s !! l = Some f -> columns f !! k = None ->
  sort_values k l s = (Raise (KeyError k), s).
Proof.
  intros Hl Hk. unfold sort_values.
  erewrite bind_run by (unfold deref; rewrite Hl; reflexivity).
  erewrite bind_raise_run; [reflexivity|].
  unfold lift, getitem. rewrite Hk. reflexivity.
Qed.

Lemma _calculate_mas_raise s l f :
  s !! l = Some f -> columns f !! "close" = None ->
  _calculate_mas l s = (Raise (KeyError "close"), s ++ [f]).
Proof.
  intros Hl Hc. unfold _calculate_mas.
  run_step. repeat raise_step. reflexivity.
Qed.

Lemma _calculate_kdj_raise_low s l f :
  s !! l = Some f -> columns f !! "low" = None ->
  _calculate_kdj l s = (Raise (KeyError "low"), s ++ [f]).
Proof.
  intros Hl Hc. unfold _calculate_kdj.
  run_step. repeat raise_step. reflexivity.
Qed.

Lemma _calculate_kdj_raise_high s l f lo :
  s !! l = Some f -> columns f !! "low" = Some lo ->
  columns f !! "high" = None ->
  _calculate_kdj l s = (Raise (KeyError "high"), s ++ [f]).
Proof.
  intros Hl Hlo Hc. unfold _calculate_kdj.
  run_step. run_step. repeat raise_step. reflexivity.
Qed.

Lemma _calculate_volume_ma_raise s l f :
  s !! l = Some f -> columns f !! "volume" = None ->
  _calculate_volume_ma l s = (Raise (KeyError "volume"), s ++ [f]).
Proof.
  intros Hl Hc. unfold _calculate_volume_ma.
  run_step. repeat raise_step. reflexivity.
Qed.

Lemma sorted_frame_missing keys f k :
  columns f !! k = None -> columns (sorted_frame keys f) !! k = None.
Proof. intros H. unfold sorted_frame. simpl. rewrite lookup_fmap, H. reflexivity. Qed.

Ltac frame_missing := unfold_frames; missing_column.

(** The run of the indicator pipeline on a frame that lacks a column. *)
Lemma add_indicators_raise s l f k :
  s !! l = Some f -> first_missing f = Some k ->
  exists s', add_indicators l s = (Raise (KeyError k), s') /\ s `prefix_of` s'.
Proof.
  intros Hl Hk. unfold first_missing, reading_order in Hk.
  cbn [first_absent] in Hk. unfold add_indicators.
  destruct (columns f !! "date") as [d|] eqn:Hd.
  2: { injection Hk as <-.
       exists s. split; [|reflexivity].
       erewrite bind_raise_run; [reflexivity|].
       eapply sort_values_raise; eassumption. }
  erewrite bind_run by (apply sort_values_run; eassumption).
  set (f0 := sorted_frame d f) in *.
  destruct (columns f !! "close") as [c|] eqn:Hc.
  2: { injection Hk as <-.
       eexists. split.
       - erewrite bind_raise_run; [reflexivity|].
         apply _calculate_mas_raise; [apply lookup_last|].
         apply sorted_frame_missing, Hc.
       - etrans; [|apply prefix_app_r; reflexivity]. apply prefix_app_r.
         reflexivity. }
  pose proof (sorted_frame_column d f _ _ Hc) as Hc'. fold f0 in Hc'.
  erewrite bind_run by (apply _calculate_mas_run; [apply lookup_last|eassumption]).
  erewrite bind_run
    by (apply _calculate_macd_run; [apply lookup_last|frame_column]).
  erewrite bind_run
    by (apply _calculate_rsi_run; [apply lookup_last|frame_column]).
  destruct (columns f !! "low") as [lo|] eqn:Hlo.
  2: { injection Hk as <-.
       pose proof (sorted_frame_missing d f _ Hlo) as Hlo'. fold f0 in Hlo'.
       eexists. split.
       - erewrite bind_raise_run; [reflexivity|].
         apply _calculate_kdj_raise_low; [apply lookup_last|frame_missing].
       - repeat (etrans; [|apply prefix_app_r; reflexivity]). reflexivity. }
  pose proof (sorted_frame_column d f _ _ Hlo) as Hlo'. fold f0 in Hlo'.
  destruct (columns f !! "high") as [hi|] eqn:Hhi.
  2: { injection Hk as <-.
       pose proof (sorted_frame_missing d f _ Hhi) as Hhi'. fold f0 in Hhi'.
       eexists. split.
       - erewrite bind_raise_run; [reflexivity|].
         eapply _calculate_kdj_raise_high;
           [apply lookup_last|frame_column|frame_missing].
       - repeat (etrans; [|apply prefix_app_r; reflexivity]). reflexivity. }
  pose proof (sorted_frame_column d f _ _ Hhi) as Hhi'. fold f0 in Hhi'.
  erewrite bind_run
    by (apply _calculate_kdj_run; [apply lookup_last|frame_column..]).
  erewrite bind_run
    by (apply _calculate_bollinger_bands_run; [apply lookup_last|frame_column]).
  erewrite bind_run
    by (apply _calculate_momentum_run; [apply lookup_last|frame_column]).
  destruct (columns f !! "volume") as [v|] eqn:Hv.
  2: { injection Hk as <-.
       pose proof (sorted_frame_missing d f _ Hv) as Hv'. fold f0 in Hv'.
       eexists. split.
       - erewrite bind_raise_run; [reflexivity|].
         apply _calculate_volume_ma_raise; [apply lookup_last|frame_missing].
       - repeat (etrans; [|apply prefix_app_r; reflexivity]). reflexivity. }
  discriminate.
Qed.

(** X14.  On a frame of at least 20 bars that lacks one of the columns
    [analyze] reads, [analyze] raises KeyError for the first missing column
    in the order date, close, low, high, volume, and leaves the caller's
    frame as it was. *)
Theorem analyze_missing_column s l f code k :
  s !! l = Some f -> (20 <= nrows f)%nat -> columns f <> ∅ ->
  first_missing f = Some k ->
  exists s',
    analyze (Some l) code s = (Raise (KeyError k), s')
    /\ s' !! l = Some f.
Proof.
  intros Hl Hn Hne Hk.
  destruct (add_indicators_raise s l f k Hl Hk) as (s' & Hrun & Hpre).
  exists s'. split; [|eapply prefix_lookup_Some; eassumption].
  unfold analyze.
  erewrite bind_run by (unfold deref; rewrite Hl; reflexivity).
  replace (empty_frame f || bool_decide (len f < 20)%nat) with false.
  2: { symmetry. apply orb_false_iff. split.
       - unfold empty_frame. apply orb_false_iff. split.
         + apply bool_decide_eq_false. lia.
         + apply bool_decide_eq_false. exact Hne.
       - apply bool_decide_eq_false. unfold len. lia. }
  erewrite bind_raise_run by exact Hrun. reflexivity.
Qed.

Lemma analyze_missing_column_witness :
  exists s',
    analyze (Some 0%nat) "600519" [lowless_bars] = (Raise (KeyError "low"), s')
    /\ s' !! 0%nat = Some lowless_bars.
Proof.
  apply (analyze_missing_column [lowless_bars] 0 lowless_bars "600519" "low").
  - reflexivity.
  - vm_compute. lia.
  - intros E. apply (f_equal (fun m => m !! "close")) in E.
    vm_compute in E. discriminate.
  - vm_compute. reflexivity.
Defined.

(** ** The flat mapping *)

Lemma TrendStatus_value_inj a b :
  TrendStatus.value a = TrendStatus.value b -> a = b.
Proof. destruct a, b; intros H; (reflexivity || discriminate H). Qed.

Lemma VolumeStatus_value_inj a b :
  VolumeStatus.value a = VolumeStatus.value b -> a = b.
Proof. destruct a, b; intros H; (reflexivity || discriminate H). Qed.

Lemma BuySignal_value_inj a b :
  BuySignal.value a = BuySignal.value b -> a = b.
Proof. destruct a, b; intros H; (reflexivity || discriminate H). Qed.

Lemma MACDStatus_value_inj a b :
  MACDStatus.value a = MACDStatus.value b -> a = b.
Proof. destruct a, b; intros H; (reflexivity || discriminate H). Qed.

Lemma RSIStatus_value_inj a b :
  RSIStatus.value a = RSIStatus.value b -> a = b.
Proof. destruct a, b; intros H; (reflexivity || discriminate H). Qed.

Ltac read_key H k :=
  let E := fresh "E" in
  pose proof (f_equal (fun m : gmap string pyval => m !! k) H) as E;
  cbv beta in E; vm_compute in E; injection E as E.

Ltac read_statuses H :=
  cbn [trend_status volume_status buy_signal macd_status rsi_status] in H.

(** X15.  The flat mapping of [to_dict] determines every field of the
    result except the two lists of levels, which it ignores: two results
    have the same mapping exactly when they agree on all other fields. *)
Theorem to_dict_determines (r1 r2 : TrendAnalysisResult) :
  to_dict r1 = to_dict r2
  <-> r1 |> set_support_levels [] |> set_resistance_levels []
      = r2 |> set_support_levels [] |> set_resistance_levels [].
Proof.
  split.
  - intros H. destruct r1, r2. unfold to_dict in H.
    read_statuses H.
    repeat match type of H with
           | context [TrendStatus.value ?x] =>
               is_var x; remember (TrendStatus.value x) eqn:?
           | context [VolumeStatus.value ?x] =>
               is_var x; remember (VolumeStatus.value x) eqn:?
           | context [BuySignal.value ?x] =>
               is_var x; remember (BuySignal.value x) eqn:?
           | context [MACDStatus.value ?x] =>
               is_var x; remember (MACDStatus.value x) eqn:?
           | context [RSIStatus.value ?x] =>
               is_var x; remember (RSIStatus.value x) eqn:?
           end.
    read_key H "code". read_key H "trend_status". read_key H "ma_alignment".
    read_key H "trend_strength". read_key H "ma5". read_key H "ma10".
    read_key H "ma20". read_key H "ma60". read_key H "current_price".
    read_key H "bias_ma5". read_key H "bias_ma10". read_key H "bias_ma20".
    read_key H "volume_status". read_key H "volume_ratio_5d".
    read_key H "volume_trend". read_key H "support_ma5".
    read_key H "support_ma10". read_key H "buy_signal".
    read_key H "signal_score". read_key H "signal_reasons".
    read_key H "risk_factors". read_key H "macd_dif". read_key H "macd_dea".
    read_key H "macd_bar". read_key H "macd_status". read_key H "macd_signal".
    read_key H "rsi_6". read_key H "rsi_12". read_key H "rsi_24".
    read_key H "rsi_status". read_key H "rsi_signal". read_key H "ma250".
    read_key H "bias_ma60". read_key H "bias_ma250". read_key H "kdj_k".
    read_key H "kdj_d". read_key H "kdj_j". read_key H "kdj_signal".
    read_key H "bb_upper". read_key H "bb_middle". read_key H "bb_lower".
    read_key H "bb_width". read_key H "bb_position". read_key H "momentum_5d".
    read_key H "momentum_10d". read_key H "momentum_signal".
    read_key H "vol_ma5". read_key H "vol_ma10". read_key H "vol_ma20".
    read_key H "vol_ratio_ma5". read_key H "vol_trend".
    repeat match goal with
           | E : TrendStatus.value _ = _ |- _ => apply TrendStatus_value_inj in E
           | E : VolumeStatus.value _ = _ |- _ => apply VolumeStatus_value_inj in E
           | E : BuySignal.value _ = _ |- _ => apply BuySignal_value_inj in E
           | E : MACDStatus.value _ = _ |- _ => apply MACDStatus_value_inj in E
           | E : RSIStatus.value _ = _ |- _ => apply RSIStatus_value_inj in E
           end.
    subst.
    repeat match goal with
           | E : TrendStatus.value _ = _ |- _ => apply TrendStatus_value_inj in E
           | E : VolumeStatus.value _ = _ |- _ => apply VolumeStatus_value_inj in E
           | E : BuySignal.value _ = _ |- _ => apply BuySignal_value_inj in E
           | E : MACDStatus.value _ = _ |- _ => apply MACDStatus_value_inj in E
           | E : RSIStatus.value _ = _ |- _ => apply RSIStatus_value_inj in E
           end.
    subst. reflexivity.
  - intros H.
    assert (G : forall r,
              to_dict (r |> set_support_levels [] |> set_resistance_levels [])
              = to_dict r) by (intros r; destruct r; reflexivity).
    rewrite <- (G r1), <- (G r2), H. reflexivity.
Qed.

(** ** The report *)

Lemma section_lines_length title ms :
  length (section_lines title ms)
  = match ms with [] => 0%nat | _ => (2 + length ms)%nat end.
Proof.
  destruct ms as [|m ms]; [reflexivity|].
  unfold section_lines. cbn [length]. rewrite length_fmap. reflexivity.
Qed.

Lemma section_lines_message title ms m :
  m ∈ ms -> (Lit "   " :: m) ∈ section_lines title ms.
Proof.
  intros H. destruct ms as [|m0 ms]; [apply elem_of_nil in H; contradiction|].
  unfold section_lines. do 2 apply list_elem_of_further.
  apply list_elem_of_fmap. exists m. split; [reflexivity|exact H].
Qed.


